(** * ReportEngine/utils/dependency_check.py

    A shallow embedding of the Pango dependency check of the report engine
    and the properties of its path preparer, native library prober and
    availability checker.

    Conventions of the embedding.
    - A Python [str] is a list of code points ([pystr]); literals of the
      source are written as UTF-8 text and decoded by [py].
    - A call that may raise returns a [result]; a function that also mutates
      the process (os.environ, the DLL search list) returns the result
      together with the process state it leaves behind.
    - What the interpreter and the host decide (str.lower, pathlib's parsing
      of Windows paths, the file system, ctypes' find_library, the import of
      weasyprint) is taken as a parameter: [PyLib] and [Host]. *)

From Stdlib Require Strings.String Strings.Ascii.
From Stdlib Require Import NArith List Lia Bool.
From stdpp Require Import base option list gmap.
Import ListNotations.
Import Stdlib.Strings.String.StringSyntax.

Local Open Scope string_scope.
Local Open Scope list_scope.
Local Open Scope N_scope.

(** ** Python strings *)

Module PyStr.

Abbreviation pystr := (list N).

Fixpoint bytes_of (s : String.string) : list N :=
  match s with
  | String.EmptyString => []
  | String.String a s' => Ascii.N_of_ascii a :: bytes_of s'
  end.

(** UTF-8 decoding: [need] continuation bytes are still expected for the
    code point accumulated in [acc]. *)
Fixpoint utf8_go (bs : list N) (need : nat) (acc : N) : pystr :=
  match bs with
  | [] => []
  | b :: bs' =>
      match need with
      | O =>
          if b <? 128 then b :: utf8_go bs' 0 0
          else if b <? 224 then utf8_go bs' 1 (N.land b 31)
          else if b <? 240 then utf8_go bs' 2 (N.land b 15)
          else utf8_go bs' 3 (N.land b 7)
      | S O => (acc * 64 + N.land b 63) :: utf8_go bs' 0 0
      | S n => utf8_go bs' n (acc * 64 + N.land b 63)
      end
  end.

Definition py (s : String.string) : pystr := utf8_go (bytes_of s) 0 0.

Definition LF : N := 10.
Definition SPACE : N := 32.

(** [s.startswith(x)] *)
Fixpoint startswith (x s : pystr) : bool :=
  match x, s with
  | [], _ => true
  | _ :: _, [] => false
  | a :: x', b :: s' => (a =? b) && startswith x' s'
  end.

(** [x in s] for two strings. *)
Fixpoint py_in (x s : pystr) : bool :=
  startswith x s ||
  match s with
  | [] => false
  | _ :: s' => py_in x s'
  end.

(** [s.split(sep)] for a separator of one character. *)
Fixpoint split (sep : N) (s : pystr) : list pystr :=
  match s with
  | [] => [[]]
  | c :: s' =>
      if c =? sep then [] :: split sep s'
      else match split sep s' with
           | [] => [[c]]
           | x :: xs => (c :: x) :: xs
           end
  end.

(** [sep.join(l)] *)
Fixpoint join (sep : pystr) (l : list pystr) : pystr :=
  match l with
  | [] => []
  | x :: xs =>
      match xs with
      | [] => x
      | _ :: _ => x ++ sep ++ join sep xs
      end
  end.

(** [format(s, "<w")]: pad on the right with spaces up to width [w]. *)
Definition ljust (w : nat) (s : pystr) : pystr :=
  s ++ replicate (w - length s) SPACE.

(** [s[:n]] *)
Definition slice_to (n : nat) (s : pystr) : pystr := take n s.

(** Truth value of a string: empty is false. *)
Definition truthy (s : pystr) : bool :=
  match s with [] => false | _ :: _ => true end.

(** [s == t] *)
Definition eqb (s t : pystr) : bool := bool_decide (s = t).

(** [x in l] for a list of strings. *)
Definition mem (x : pystr) (l : list pystr) : bool := bool_decide (x ∈ l).

(** Lower-casing of the ASCII letters; Python's [str.lower] agrees with it
    on ASCII text. *)
Definition ascii_lower (s : pystr) : pystr :=
  map (fun c => if (65 <=? c) && (c <=? 90) then c + 32 else c) s.

(** The text of several lines, each closed by a line feed. *)
Definition unlines (l : list String.string) : pystr :=
  concat (map (fun s => py s ++ [LF]) l).

(** The number of entries of [l] that are [x]. *)
Definition count_entry (x : pystr) (l : list pystr) : nat :=
  length (List.filter (eqb x) l).

End PyStr.
Import PyStr.

(** ** The texts of the diagnostic *)

Module Text.

(** The macOS instructions. *)
Definition instructions_darwin : pystr := unlines [
    "║  🍎 macOS 系统解决方案：                                       ║";
    "║                                                                ║";
    "║  1. 安装系统依赖：                                             ║";
    "║     brew install pango gdk-pixbuf libffi                       ║";
    "║                                                                ║";
    "║  2. 设置环境变量（重要！）：                                   ║";
    "║     Apple Silicon: export DYLD_LIBRARY_PATH=/opt/homebrew/lib:$DYLD_LIBRARY_PATH ║";
    "║     Intel Mac:   export DYLD_LIBRARY_PATH=/usr/local/lib:$DYLD_LIBRARY_PATH     ║";
    "║                                                                ║";
    "║  3. 永久生效（推荐）：                                         ║";
    "║     echo 'export DYLD_LIBRARY_PATH=/opt/homebrew/lib:$DYLD_LIBRARY_PATH' >> ~/.zshrc ║";
    "║     或 echo 'export DYLD_LIBRARY_PATH=/usr/local/lib:$DYLD_LIBRARY_PATH' >> ~/.zshrc ║";
    "║     source ~/.zshrc                                            ║"
  ].

(** The Linux instructions. *)
Definition instructions_linux : pystr := unlines [
    "║  🐧 Linux 系统解决方案：                                       ║";
    "║                                                                ║";
    "║  Ubuntu/Debian:                                                ║";
    "║    sudo apt-get install libpango-1.0-0 libpangoft2-1.0-0 \    ║";
    "║                         libgdk-pixbuf2.0-0 libffi-dev libcairo2 ║";
    "║                                                                ║";
    "║  CentOS/RHEL:                                                  ║";
    "║    sudo yum install pango gdk-pixbuf2 libffi-devel cairo       ║";
    "║                                                                ║";
    "║  若仍提示缺库：export LD_LIBRARY_PATH=/usr/local/lib:$LD_LIBRARY_PATH ║";
    "║                 sudo ldconfig                                  ║"
  ].

(** The Windows instructions. *)
Definition instructions_windows : pystr := unlines [
    "║  🪟 Windows 系统解决方案：                                     ║";
    "║                                                                ║";
    "║  1. 安装 GTK3 Runtime：                                        ║";
    "║     https://github.com/tschoonj/GTK-for-Windows-Runtime-Environment-Installer/releases ║";
    "║                                                                ║";
    "║  2. 将 GTK 安装目录下的 bin 加入 PATH（需新开终端）：         ║";
    "║     set PATH=C:\Program Files\GTK3-Runtime Win64\bin;%PATH%  ║";
    "║     （若自定义路径，请替换为实际安装路径）                     ║";
    "║                                                                ║";
    "║  3. 验证：在新终端运行                                         ║";
    "║     python -m ReportEngine.utils.dependency_check              ║";
    "║     看到 ✓ 提示即表示 PDF 导出可用                             ║"
  ].

(** The instructions of any other system. *)
Definition instructions_other : pystr := unlines [
    "║  请查看 README.md 了解您系统的安装方法                        ║"
  ].

(** The lines that open the boxed diagnostic. *)
Definition box_head : pystr := unlines [
    "╔════════════════════════════════════════════════════════════════╗";
    "║  ⚠️  PDF 导出依赖缺失                                          ║";
    "║                                                                ║";
    "║  📄 PDF 导出功能将不可用（其他功能不受影响）                  ║";
    "║                                                                ║"
  ].

(** The two lines before the closing border. *)
Definition box_foot_lines : pystr := unlines [
    "║                                                                ║";
    "║  📖 完整文档：根目录 README.md ‘源码启动’的第二步            ║"
  ].

Definition box_border_bottom : pystr :=
  py "╚════════════════════════════════════════════════════════════════╝".

Definition arch_note_windows : pystr := unlines [
    "║  🔍 若已安装仍报错：确认 Python/GTK 位数一致，重开终端        ║"
  ].

Definition no_default_path : pystr := py "未找到默认路径".
Definition hint_prefix : pystr := py "║  已尝试自动添加 GTK 路径: ".
Definition missing_prefix : pystr := py "║  未识别到的依赖: ".
Definition line_end : pystr := py "║" ++ [LF].
Definition ellipsis : pystr := py "...".
Definition comma_space : pystr := py ", ".
Definition unknown : pystr := py "未知".
Definition load_failed_prefix : pystr := py "⚠ PDF 依赖加载失败: ".
Definition load_failed_middle : pystr := py "；缺失/未识别: ".
Definition check_failed_prefix : pystr := py "⚠ PDF 依赖检测失败: ".
Definition success_message : pystr := py "✓ Pango 依赖检测通过，PDF 导出功能可用".
Definition not_installed_message : pystr :=
  py "⚠ WeasyPrint 未安装" ++ [LF] ++ py "解决方法: pip install weasyprint".

End Text.

(** ** Exceptions, results and the process *)

(** The classes the handlers of [check_pango_available] tell apart, in the
    order of its [except] clauses: an instance of OSError (PermissionError
    and FileNotFoundError are), else an instance of ImportError, else any
    other Exception. Only instances of Exception are modelled:
    KeyboardInterrupt and SystemExit, which no handler of the module
    catches, are left out. *)
Inductive exn_class : Type := OSError | ImportError | OtherException.

Record exn : Type := Exn { exn_kind : exn_class; exn_text : pystr }.

Inductive result (A : Type) : Type :=
  | Ok (a : A)
  | Raise (e : exn).
Arguments Ok {A} a.
Arguments Raise {A} e.

#[global] Instance result_ret : MRet result := @Ok.
#[global] Instance result_bind : MBind result :=
  fun A B f m => match m with Ok a => f a | Raise e => Raise e end.

(** A loop [for a in l: s = f(a, s)] whose body may raise. *)
Fixpoint for_each {A S : Type} (f : A -> S -> result S) (l : list A) (s : S)
  : result S :=
  match l with
  | [] => Ok s
  | a :: l' => s' ← f a s; for_each f l' s'
  end.

(** A pathlib path, kept as its string form [str(p)]. *)
Record path : Type := PurePath { str_of : pystr }.

(** The argument of [_add_candidate]: [None], a string or a path. *)
Inductive path_like : Type :=
  | NoneLike
  | StrLike (s : pystr)
  | PathLike (p : path).

(** What a run of the module can change: os.environ and the directories
    registered with os.add_dll_directory. The variables are keyed by the
    name the source uses for them (on Windows os.environ folds the case of
    the names), and storing a value is taken to succeed. *)
Record ProcState : Type := {
  environ : gmap (list N) (list N);
  dll_directories : list pystr
}.

Definition set_environ (k v : pystr) (st : ProcState) : ProcState :=
  {| environ := <[k := v]> (environ st);
     dll_directories := dll_directories st |}.

Definition register_dll_directory (d : pystr) (st : ProcState) : ProcState :=
  {| environ := environ st;
     dll_directories := dll_directories st ++ [d] |}.

(** [os.environ.get(k)] and [os.environ.get(k, d)] *)
Definition environ_get (st : ProcState) (k : pystr) : option pystr :=
  environ st !! k.
Definition environ_get_or (st : ProcState) (k d : pystr) : pystr :=
  default d (environ st !! k).

(** The functions of the interpreter the module calls on strings and on
    Windows paths. *)
Record PyLib : Type := {
  str_lower : pystr -> pystr;
  Path : pystr -> path;
  Path_name : path -> pystr;
  Path_div : path -> pystr -> path
}.

(** The host: its platform name, its file system as pathlib sees it (every
    query may raise), the DLL directory registration of Windows, ctypes'
    library lookup (which may raise too: on Windows it reads
    os.environ['PATH'], on Linux it runs helper programs) and the outcome
    of importing weasyprint and calling [pango.pango_version()]. The last
    two see the process state, since both search the paths the path
    preparer has set. *)
Record Host : Type := {
  platform_system : pystr;
  Path_exists : path -> result bool;
  Path_is_dir : path -> result bool;
  Path_resolve : path -> result path;
  Path_glob : path -> pystr -> result (list path);
  os_has_add_dll_directory : bool;
  os_add_dll_directory : pystr -> result unit;
  find_library : ProcState -> pystr -> result (option pystr);
  load_pango : ProcState -> result unit
}.

(** ** The module *)

Section DependencyCheck.

Context (L : PyLib) (h : Host).

Definition _get_platform_specific_instructions : pystr :=
  let system := platform_system h in
  if eqb system (py "Darwin") then Text.instructions_darwin
  else if eqb system (py "Linux") then Text.instructions_linux
  else if eqb system (py "Windows") then Text.instructions_windows
  else Text.instructions_other.

(** *** _ensure_windows_gtk_paths *)

(** The closure state of [_add_candidate]: [seen] and [candidates]. *)
Definition remember (key : pystr) (p : path)
  (cs : gset (list N) * list path) : gset (list N) * list path :=
  if bool_decide (key ∈ cs.1) then cs else ({[key]} ∪ cs.1, cs.2 ++ [p]).

(** [Path(path_like)], or [None] when [not path_like]: a path object is
    always true, a string is true when it is not empty. *)
Definition path_of_like (pl : path_like) : option path :=
  match pl with
  | NoneLike => None
  | StrLike s => if truthy s then Some (Path L s) else None
  | PathLike p => Some p
  end.

Definition try_maybe (maybe : path) (cs : gset (list N) * list path)
  : result (gset (list N) * list path) :=
  r ← Path_resolve h maybe;
  let key := str_lower L (str_of r) in
  e ← Path_exists h maybe;
  Ok (if (e : bool) then remember key maybe cs else cs).

Definition _add_candidate (pl : path_like) (cs : gset (list N) * list path)
  : result (gset (list N) * list path) :=
  match path_of_like pl with
  | None => Ok cs
  | Some p =>
      d ← Path_is_dir h p;
      if (d : bool) && eqb (str_lower L (Path_name L p)) (py "bin") then
        r ← Path_resolve h p;
        Ok (remember (str_lower L (str_of r)) p cs)
      else
        for_each try_maybe [p; Path_div L p (py "bin")] cs
  end.

Definition hint_variables : list pystr :=
  [py "GTK3_RUNTIME_PATH"; py "GTK_RUNTIME_PATH"; py "GTK_BIN_PATH";
   py "GTK_BIN_DIR"; py "GTK_PATH"].

Definition like_of_get (o : option pystr) : path_like :=
  match o with
  | None => NoneLike
  | Some s => StrLike s
  end.

Definition common_drives : list pystr := [py "C"; py "D"; py "E"; py "F"].
Definition common_names : list pystr :=
  [py "GTK3-Runtime Win64"; py "GTK3-Runtime Win32"; py "GTK3-Runtime"].

(** [default_dirs] before the scan of the Program Files directories. *)
Definition default_dirs (program_files program_files_x86 : pystr)
  : list path :=
  [ Path_div L (Path L program_files) (py "GTK3-Runtime Win64");
    Path_div L (Path L program_files_x86) (py "GTK3-Runtime Win64");
    Path_div L (Path L program_files) (py "GTK3-Runtime Win32");
    Path_div L (Path L program_files_x86) (py "GTK3-Runtime Win32");
    Path_div L (Path L program_files) (py "GTK3-Runtime");
    Path_div L (Path L program_files_x86) (py "GTK3-Runtime") ]
  ++ flat_map (fun drive =>
       let root := Path L (drive ++ py ":/") in
       flat_map (fun name =>
         [ Path_div L root name;
           Path_div L (Path_div L root (py "DevelopSoftware")) name ])
         common_names)
     common_drives.

(** The children named GTK* of one Program Files directory, appended to
    [dirs]. *)
Definition scan_root (root : pystr) (dirs : list path) : result (list path) :=
  let root_path := Path L root in
  e ← Path_exists h root_path;
  if (e : bool) then
    children ← Path_glob h root_path (py "GTK*");
    Ok (dirs ++ children)
  else Ok dirs.

(** One entry of PATH. *)
Definition path_entry (entry : pystr) (cs : gset (list N) * list path)
  : result (gset (list N) * list path) :=
  if negb (truthy entry) then Ok cs
  else if py_in (py "gtk") (str_lower L entry)
          || py_in (py "pango") (str_lower L entry)
       then _add_candidate (StrLike entry) cs
       else Ok cs.

(** [os.pathsep] and the literal separator of line 160, on Windows. *)
Definition SEMICOLON : N := 59.
Definition COLON : N := 58.

Definition collect_candidates (st : ProcState) : result (list path) :=
  cs1 ← for_each (fun env_var => _add_candidate (like_of_get (environ_get st env_var)))
        hint_variables ((∅ : gset (list N)), ([] : list path));
  let program_files :=
    environ_get_or st (py "ProgramFiles") (py "C:\\Program Files") in
  let program_files_x86 :=
    environ_get_or st (py "ProgramFiles(x86)") (py "C:\\Program Files (x86)") in
  dirs ← for_each scan_root [program_files; program_files_x86]
         (default_dirs program_files program_files_x86);
  cs2 ← for_each (fun d => _add_candidate (PathLike d)) dirs cs1;
  let path_entries := split SEMICOLON (environ_get_or st (py "PATH") []) in
  cs3 ← for_each path_entry path_entries cs2;
  Ok cs3.2.

(** Line 149: the candidate holds a Pango DLL. *)
Definition has_pango_dll (p : path) : result bool :=
  found ← Path_glob h p (py "pango*-1.0-*.dll");
  match (found : list path) with
  | _ :: _ => Ok true
  | [] => Path_exists h (Path_div L p (py "pango-1.0-0.dll"))
  end.

(** Lines 152 to 157: registration is tried when the interpreter has
    os.add_dll_directory, and a failure of it is swallowed. *)
Definition try_add_dll_directory (d : pystr) (st : ProcState) : ProcState :=
  if os_has_add_dll_directory h then
    match os_add_dll_directory h d with
    | Ok _ => register_dll_directory d st
    | Raise _ => st
    end
  else st.

(** Lines 159 to 163. *)
Definition accept (p : path) (st : ProcState) : option pystr * ProcState :=
  let st1 := try_add_dll_directory (str_of p) st in
  let current_path := environ_get_or st1 (py "PATH") [] in
  let st2 :=
    if mem (str_of p) (split SEMICOLON current_path) then st1
    else set_environ (py "PATH") (str_of p ++ [SEMICOLON] ++ current_path) st1 in
  (Some (str_of p), st2).

(** The loop of lines 146 to 163: the first candidate that exists and
    holds a Pango DLL is accepted. *)
Fixpoint accept_first (candidates : list path) (st : ProcState)
  : result (option pystr) * ProcState :=
  match candidates with
  | [] => (Ok None, st)
  | p :: rest =>
      match Path_exists h p with
      | Raise e => (Raise e, st)
      | Ok false => accept_first rest st
      | Ok true =>
          match has_pango_dll p with
          | Raise e => (Raise e, st)
          | Ok false => accept_first rest st
          | Ok true =>
              let '(r, st') := accept p st in (Ok r, st')
          end
      end
  end.

Definition _ensure_windows_gtk_paths (st : ProcState)
  : result (option pystr) * ProcState :=
  if negb (eqb (platform_system h) (py "Windows")) then (Ok None, st)
  else
    match collect_candidates st with
    | Raise e => (Raise e, st)
    | Ok candidates => accept_first candidates st
    end.

(** *** prepare_pango_environment *)

(** The two candidates of macOS. On macOS a path is a PosixPath, and the
    string form of [Path(s)] for these two literals is [s] itself. *)
Definition homebrew_lib : pystr := py "/opt/homebrew/lib".
Definition usr_local_lib : pystr := py "/usr/local/lib".
Definition darwin_candidates : list path :=
  [PurePath homebrew_lib; PurePath usr_local_lib].

Definition DYLD_LIBRARY_PATH : pystr := py "DYLD_LIBRARY_PATH".

(** The loop of lines 183 to 185. *)
Fixpoint added_dirs (candidates : list path) (current : pystr)
  : result (list pystr) :=
  match candidates with
  | [] => Ok []
  | c :: rest =>
      e ← Path_exists h c;
      let keep := (e : bool) && negb (mem (str_of c) (split COLON current)) in
      more ← added_dirs rest current;
      Ok (if keep then str_of c :: more else more)
  end.

Definition prepare_pango_environment (st : ProcState)
  : result (option pystr) * ProcState :=
  let system := platform_system h in
  if eqb system (py "Windows") then _ensure_windows_gtk_paths st
  else if eqb system (py "Darwin") then
    let current := environ_get_or st DYLD_LIBRARY_PATH [] in
    match added_dirs darwin_candidates current with
    | Raise e => (Raise e, st)
    | Ok [] => (Ok None, st)
    | Ok (a :: more) =>
        let value :=
          join [COLON]
            ((a :: more) ++ (if truthy current then [current] else [])) in
        (Ok (Some value), set_environ DYLD_LIBRARY_PATH value st)
    end
  else (Ok None, st).

(** *** _probe_native_libs *)

Definition targets : list (pystr * list pystr) :=
  if eqb (platform_system h) (py "Windows") then
    [ (py "pango", [py "pango-1.0-0"]);
      (py "gobject", [py "gobject-2.0-0"]);
      (py "gdk-pixbuf", [py "gdk_pixbuf-2.0-0"]);
      (py "cairo", [py "cairo-2"]) ]
  else
    [ (py "pango", [py "pango-1.0"]);
      (py "gobject", [py "gobject-2.0"]);
      (py "gdk-pixbuf", [py "gdk_pixbuf-2.0"]);
      (py "cairo", [py "cairo"; py "cairo-2"]) ].

(** The truth value of what [ctypes_util.find_library(v)] returns: None
    and the empty string are false. *)
Definition found_value (o : option pystr) : bool :=
  match o with
  | Some s => truthy s
  | None => false
  end.

(** A name resolves when the lookup returns a string that is not empty. *)
Definition resolves (st : ProcState) (v : pystr) : bool :=
  match find_library h st v with
  | Ok o => found_value o
  | Raise _ => false
  end.

(** [any(ctypes_util.find_library(v) for v in variants)]: the lookups are
    made in order up to the first that is true, and one that raises ends
    the loop. *)
Fixpoint any_found (st : ProcState) (variants : list pystr) : result bool :=
  match variants with
  | [] => Ok false
  | v :: more =>
      o ← find_library h st v;
      if found_value o then Ok true else any_found st more
  end.

(** The loop of lines 217 to 221. *)
Fixpoint missing_of (st : ProcState) (ts : list (pystr * list pystr))
  : result (list pystr) :=
  match ts with
  | [] => Ok []
  | (key, variants) :: rest =>
      found ← any_found st variants;
      missing ← missing_of st rest;
      Ok (if (found : bool) then missing else key :: missing)
  end.

Definition _probe_native_libs (st : ProcState) : result (list pystr) :=
  missing_of st targets.

(** *** check_pango_available *)

(** [added_path or "未找到默认路径"], cut to 35 characters and an ellipsis
    when longer than 38. *)
Definition path_display (added_path : option pystr) : pystr :=
  let shown :=
    match added_path with
    | Some s => if truthy s then s else Text.no_default_path
    | None => Text.no_default_path
    end in
  if (38 <? length shown)%nat then slice_to 35 shown ++ Text.ellipsis
  else shown.

Definition windows_hint (added_path : option pystr) : pystr :=
  if eqb (platform_system h) (py "Windows") then
    Text.hint_prefix ++ ljust 38 (path_display added_path) ++ Text.line_end
  else [].

Definition arch_note : pystr :=
  if eqb (platform_system h) (py "Windows") then Text.arch_note_windows
  else [].

Definition missing_note (missing_native : list pystr) : pystr :=
  match missing_native with
  | [] => []
  | _ :: _ =>
      Text.missing_prefix ++ ljust 46 (join Text.comma_space missing_native)
      ++ Text.line_end
  end.

(** The test of line 264 on the text of the error. *)
Definition recognised (error_msg : pystr) : bool :=
  py_in (py "gobject") (str_lower L error_msg)
  || py_in (py "pango") (str_lower L error_msg)
  || py_in (py "gdk") (str_lower L error_msg).

Definition boxed_diagnostic (added_path : option pystr)
  (missing_native : list pystr) : pystr :=
  Text.box_head
  ++ windows_hint added_path
  ++ arch_note
  ++ missing_note missing_native
  ++ _get_platform_specific_instructions
  ++ Text.box_foot_lines
  ++ Text.box_border_bottom.

Definition short_message (error_msg : pystr) (missing_native : list pystr)
  : pystr :=
  Text.load_failed_prefix ++ error_msg ++ Text.load_failed_middle
  ++ match missing_native with
     | [] => Text.unknown
     | _ :: _ => join Text.comma_space missing_native
     end.

(** The three handlers of the try statement. *)
Definition handle (added_path : option pystr) (missing_native : list pystr)
  (e : exn) : bool * pystr :=
  match exn_kind e with
  | OSError =>
      let error_msg := exn_text e in
      if recognised error_msg
      then (false, boxed_diagnostic added_path missing_native)
      else (false, short_message error_msg missing_native)
  | ImportError => (false, Text.not_installed_message)
  | OtherException => (false, Text.check_failed_prefix ++ exn_text e)
  end.

(** The path preparer and the prober run before the try statement (lines
    232 and 233), so what they raise leaves the function. *)
Definition check_pango_available (st : ProcState)
  : result (bool * pystr) * ProcState :=
  match prepare_pango_environment st with
  | (Raise e, st1) => (Raise e, st1)
  | (Ok added_path, st1) =>
      match _probe_native_libs st1 with
      | Raise e => (Raise e, st1)
      | Ok missing_native =>
          match load_pango h st1 with
          | Ok _ => (Ok (true, Text.success_message), st1)
          | Raise e => (Ok (handle added_path missing_native e), st1)
          end
      end
  end.

End DependencyCheck.

(** ** Notions used in the statements *)

(** Every query of the file system returns normally (a directory that is
    absent is a query that answers [false], or an empty glob). *)
Definition queries_answer (h : Host) : Prop :=
  forall p : path,
    (exists b, Path_exists h p = Ok b) /\
    (exists b, Path_is_dir h p = Ok b) /\
    (exists q, Path_resolve h p = Ok q) /\
    (forall pattern, exists l, Path_glob h p pattern = Ok l).

(** What the loop of lines 183 to 185 adds when the two existence queries
    answer [b1] and [b2]. *)
Definition darwin_added (b1 b2 : bool) (current : pystr) : list pystr :=
  (if b1 && negb (mem homebrew_lib (split COLON current))
   then [homebrew_lib] else [])
  ++ (if b2 && negb (mem usr_local_lib (split COLON current))
      then [usr_local_lib] else []).

(** [[current] if current else []] *)
Definition prior_entries (current : pystr) : list pystr :=
  if truthy current then [current] else [].

(** The keys of the four targets, in the order of the source. *)
Definition four_keys : list pystr :=
  [py "pango"; py "gobject"; py "gdk-pixbuf"; py "cairo"].

(** The keys of [ts] none of whose variants resolves. *)
Fixpoint missing_keys (h : Host) (st : ProcState)
  (ts : list (pystr * list pystr)) : list pystr :=
  match ts with
  | [] => []
  | (key, variants) :: rest =>
      if existsb (resolves h st) variants then missing_keys h st rest
      else key :: missing_keys h st rest
  end.




(** The host [h] with another library lookup. *)
Definition with_find_library
  (f : ProcState -> pystr -> result (option pystr)) (h : Host) : Host := {|
  platform_system := platform_system h;
  Path_exists := Path_exists h;
  Path_is_dir := Path_is_dir h;
  Path_resolve := Path_resolve h;
  Path_glob := Path_glob h;
  os_has_add_dll_directory := os_has_add_dll_directory h;
  os_add_dll_directory := os_add_dll_directory h;
  find_library := f;
  load_pango := load_pango h
|}.

(** ** Concrete interpreters and hosts *)

Module Hosts.

(** A simple [PyLib]: ASCII lower-casing, and Windows paths that are
    already in the form pathlib prints (backslash separators, no trailing
    separator), for which [Path] changes nothing. *)
Definition BACKSLASH : N := 92.

Definition last_component (s : pystr) : pystr :=
  default [] (last (split BACKSLASH s)).

Definition simple_lib : PyLib := {|
  str_lower := ascii_lower;
  Path := PurePath;
  Path_name := fun p => last_component (str_of p);
  Path_div := fun p s => PurePath (str_of p ++ [BACKSLASH] ++ s)
|}.

Definition empty_state : ProcState :=
  {| environ := ∅; dll_directories := [] |}.

Definition state_of (vars : list (pystr * pystr)) : ProcState :=
  {| environ := list_to_map vars; dll_directories := [] |}.

(** A host named [system] on which the directories in [dirs] exist, those
    in [denied] cannot be examined, [globs] lists what each directory and
    pattern match, and the load attempt ends as [load]. *)
Definition permission_denied : exn :=
  Exn OSError (py "[Errno 13] Permission denied").

Definition host
  (system : pystr) (dirs denied : list pystr)
  (globs : list (pystr * pystr * list pystr))
  (libs : list pystr) (load : result unit) : Host := {|
  platform_system := system;
  Path_exists := fun p =>
    if mem (str_of p) denied then Raise permission_denied
    else Ok (mem (str_of p) dirs);
  Path_is_dir := fun p =>
    if mem (str_of p) denied then Raise permission_denied
    else Ok (mem (str_of p) dirs);
  Path_resolve := fun p => Ok p;
  Path_glob := fun p pat =>
    if mem (str_of p) denied then Raise permission_denied
    else Ok (flat_map (fun g =>
               if eqb g.1.1 (str_of p) && eqb g.1.2 pat
               then map PurePath g.2 else []) globs);
  os_has_add_dll_directory := true;
  os_add_dll_directory := fun _ => Ok tt;
  find_library := fun _ v => Ok (if mem v libs then Some v else None);
  load_pango := fun _ => load
|}.

End Hosts.

(** Hosts and states of the runs below. *)
Module Runs.
Import Hosts.

(** A Linux host without weasyprint. *)
Definition linux_no_weasyprint : Host :=
  host (py "Linux") [] [] [] [py "pango-1.0"; py "cairo"]
    (Raise (Exn ImportError (py "No module named 'weasyprint'"))).

(** A Linux host on which the import fails in an unforeseen way. *)
Definition linux_broken_import : Host :=
  host (py "Linux") [] [] [] []
    (Raise (Exn OtherException (py "unsupported cffi version"))).

(** A Windows host with a GTK runtime under D:\GTK named by GTK_PATH. *)
Definition gtk_bin : pystr := py "D:\GTK\bin".
Definition windows_dirs : list pystr := [gtk_bin].
Definition windows_globs : list (pystr * pystr * list pystr) :=
  [(gtk_bin, py "pango*-1.0-*.dll", [py "D:\GTK\bin\pango-1.0-0.dll"])].
Definition windows_state : ProcState :=
  state_of [(py "GTK_PATH", gtk_bin); (py "PATH", py "C:\Windows")].
Definition windows_state_after : ProcState :=
  {| environ := <[py "PATH" := py "D:\GTK\bin;C:\Windows"]>
                  (environ windows_state);
     dll_directories := [gtk_bin] |}.
Definition gobject_error : exn :=
  Exn OSError (py "cannot load library 'libgobject-2.0-0': error 0x7e").
Definition windows_gtk (load : result unit) : Host :=
  host (py "Windows") windows_dirs [] windows_globs [py "pango-1.0-0"] load.

(** A Windows host on which the directory named by GTK_PATH cannot be
    examined, while weasyprint loads. *)
Definition secret_dir : pystr := py "C:\secret\gtk".
Definition windows_denied : Host :=
  host (py "Windows") [] [secret_dir] [] [] (Ok tt).
Definition windows_denied_state : ProcState :=
  state_of [(py "GTK_PATH", secret_dir)].

(** macOS hosts. *)
Definition mac_homebrew_denied : Host :=
  host (py "Darwin") [] [homebrew_lib] [] [] (Ok tt).
Definition mac_usr_local_denied : Host :=
  host (py "Darwin") [homebrew_lib] [usr_local_lib] [] [] (Ok tt).
Definition mac_homebrew_only : Host :=
  host (py "Darwin") [homebrew_lib] [] [] [] (Ok tt).
Definition pango_error : exn :=
  Exn OSError (py "cannot load library 'libpango-1.0-0': dlopen failed").
Definition mac_both (load : result unit) : Host :=
  host (py "Darwin") [homebrew_lib; usr_local_lib] [] [] [] load.
Definition mac_state : ProcState :=
  state_of [(DYLD_LIBRARY_PATH, py "/usr/lib")].
Definition mac_prepared : pystr := py "/opt/homebrew/lib:/usr/local/lib:/usr/lib".

End Runs.
Import Hosts Runs.

(** ** The status reporter and the entry point *)

Module Report.

(** The calls made on the loguru logger, in order: the level and the
    message of each. *)
Inductive level : Type := SUCCESS | WARNING | INFO.

Definition hint_info : pystr :=
  py "💡 提示：PDF 导出功能需要 Pango 库支持，但不影响系统其他功能的正常使用".
Definition readme_info : pystr :=
  py "📚 安装说明请参考：根目录下的 README.md 文件".

(** [log_dependency_status]: [emit] is a call on the logger, which may
    raise; the log is extended by the calls of lines 297 to 302 that
    returned, and nothing that is raised is caught. *)
Definition log_dependency_status (L : PyLib) (h : Host)
  (emit : level -> pystr -> result unit) (st : ProcState)
  (log : list (level * pystr))
  : result bool * ProcState * list (level * pystr) :=
  match check_pango_available L h st with
  | (Raise e, st1) => (Raise e, st1, log)
  | (Ok (is_available, message), st1) =>
      if (is_available : bool) then
        match emit SUCCESS message with
        | Raise e => (Raise e, st1, log)
        | Ok _ => (Ok is_available, st1, log ++ [(SUCCESS, message)])
        end
      else
        match emit WARNING message with
        | Raise e => (Raise e, st1, log)
        | Ok _ =>
            match emit INFO hint_info with
            | Raise e => (Raise e, st1, log ++ [(WARNING, message)])
            | Ok _ =>
                match emit INFO readme_info with
                | Raise e =>
                    (Raise e, st1,
                     log ++ [(WARNING, message); (INFO, hint_info)])
                | Ok _ =>
                    (Ok is_available, st1,
                     log ++ [(WARNING, message); (INFO, hint_info);
                             (INFO, readme_info)])
                end
            end
        end
  end.

(** The block run when the module is the program (lines 307 to 311):
    [print] is the call of [print(message)], which raises when standard
    output cannot encode the message; the result is what was written on
    standard output and the status given to [sys.exit], or the exception
    that ends the program. *)
Definition main (L : PyLib) (h : Host) (print : pystr -> result unit)
  (st : ProcState) : result (pystr * N) * ProcState :=
  match check_pango_available L h st with
  | (Raise e, st1) => (Raise e, st1)
  | (Ok (is_available, message), st1) =>
      match print message with
      | Raise e => (Raise e, st1)
      | Ok _ =>
          (Ok (message ++ [LF], if (is_available : bool) then 0 else 1), st1)
      end
  end.

(** A logger and a standard output that take every message. *)
Definition emit_all (lv : level) (m : pystr) : result unit := Ok tt.

(** A standard output whose encoding has the ASCII characters only. *)
Definition print_ascii (m : pystr) : result unit :=
  if forallb (fun c => c <? 128) m then Ok tt
  else Raise (Exn OtherException (py "'ascii' codec can't encode character")).

End Report.

(** ** Notions used in the statements about the rest of the module *)

(** The key under which [_add_candidate] remembers a path:
    [str(p.resolve()).lower()]. *)
Definition candidate_key (L : PyLib) (h : Host) (p : path) : option pystr :=
  match Path_resolve h p with
  | Ok r => Some (str_lower L (str_of r))
  | Raise _ => None
  end.

(** The invariant of [seen] and [candidates]: every candidate has a key,
    its key is in [seen], and no two candidates have the same key. *)
Definition keyed (L : PyLib) (h : Host)
  (cs : gset (list N) * list path) : Prop :=
  (forall p, p ∈ cs.2 -> exists k, candidate_key L h p = Some k /\ k ∈ cs.1)
  /\ NoDup (map (candidate_key L h) cs.2).

(** The first character of the message of success. *)
Definition CHECK_MARK : N := 10003.

(** A line of a box: from the corner or the side on the left to the one on
    the right. *)
Definition box_line (l : pystr) : bool :=
  match head l, last l with
  | Some a, Some b =>
      (a =? 9556) && (b =? 9559)
      || (a =? 9553) && (b =? 9553)
      || (a =? 9562) && (b =? 9565)
  | _, _ => false
  end.

(** A text made of lines of a box, each closed by a line feed. *)
Definition box_block (t : pystr) : Prop :=
  t = [] \/
  exists u, t = u ++ [LF] /\ forallb box_line (split LF u) = true.

(** A Windows host where the runtime is also reached through PATH, under
    another spelling of the same directory. *)
Definition gtk_bin_other_case : pystr := py "d:\gtk\BIN".
Definition windows_two_spellings : Host :=
  Hosts.host (py "Windows") [Runs.gtk_bin; gtk_bin_other_case] []
    Runs.windows_globs [] (Ok tt).
Definition two_spellings_state : ProcState :=
  Hosts.state_of [(py "GTK_PATH", Runs.gtk_bin);
                  (py "PATH", py "C:\Windows;d:\gtk\BIN")].

(** A Windows host on which the libraries resolve once the runtime is on
    PATH. *)
Definition windows_path_sensitive : Host :=
  with_find_library
    (fun st v =>
       if mem Runs.gtk_bin
            (split SEMICOLON (environ_get_or st (py "PATH") []))
          && mem v [py "pango-1.0-0"; py "gobject-2.0-0"]
       then Ok (Some v) else Ok None)
    (Runs.windows_gtk (Ok tt)).

(** Some query of the file system raises [e]. *)
Definition query_raises (h : Host) (e : exn) : Prop :=
  exists p : path,
    Path_exists h p = Raise e \/
    Path_is_dir h p = Raise e \/
    Path_resolve h p = Raise e \/
    exists pattern, Path_glob h p pattern = Raise e.

(** The result is not a path. *)
Definition no_path (r : result (option pystr)) : Prop :=
  forall s, r <> Ok (Some s).

(** A Windows state with the first hint variable set. *)
Definition hinted_state : ProcState :=
  Hosts.state_of [(py "GTK3_RUNTIME_PATH", Runs.gtk_bin);
                  (py "PATH", py "C:\Windows")].

(** ** The queries a run makes *)

(** A query put to the file system. *)
Inductive query : Type :=
  | QExists (p : path)
  | QIsDir (p : path)
  | QResolve (p : path)
  | QGlob (p : path) (pattern : pystr).

(** The exception a query raises on a host, if it raises. *)
Definition query_error (h : Host) (q : query) : option exn :=
  match q with
  | QExists p =>
      match Path_exists h p with Ok _ => None | Raise e => Some e end
  | QIsDir p =>
      match Path_is_dir h p with Ok _ => None | Raise e => Some e end
  | QResolve p =>
      match Path_resolve h p with Ok _ => None | Raise e => Some e end
  | QGlob p pattern =>
      match Path_glob h p pattern with Ok _ => None | Raise e => Some e end
  end.

(** A result together with the queries made to get it, in order. *)
Record logged (A : Type) : Type := Logged {
  outcome : result A;
  queries : list query
}.
Arguments Logged {A} outcome queries.
Arguments outcome {A} l.
Arguments queries {A} l.

#[global] Instance logged_ret : MRet logged := fun A a => Logged (Ok a) [].
#[global] Instance logged_bind : MBind logged :=
  fun A B f m =>
    match outcome m with
    | Ok a => let r := f a in Logged (outcome r) (queries m ++ queries r)
    | Raise e => Logged (Raise e) (queries m)
    end.

(** A run that raises raises what its last query raised. *)
Definition blames {A : Type} (h : Host) (m : logged A) : Prop :=
  forall e, outcome m = Raise e ->
            exists q, last (queries m) = Some q /\ query_error h q = Some e.

(** The functions of the path preparer once more, each with the queries it
    makes: the same code, where a query is also written down. *)
Section Logged.

Context (L : PyLib) (h : Host).

Definition ask_exists (p : path) : logged bool :=
  Logged (Path_exists h p) [QExists p].
Definition ask_is_dir (p : path) : logged bool :=
  Logged (Path_is_dir h p) [QIsDir p].
Definition ask_resolve (p : path) : logged path :=
  Logged (Path_resolve h p) [QResolve p].
Definition ask_glob (p : path) (pattern : pystr) : logged (list path) :=
  Logged (Path_glob h p pattern) [QGlob p pattern].

Fixpoint for_each_logged {A S : Type} (f : A -> S -> logged S)
  (l : list A) (s : S) : logged S :=
  match l with
  | [] => mret s
  | a :: l' => s' ← f a s; for_each_logged f l' s'
  end.

Definition try_maybe_logged (maybe : path) (cs : gset (list N) * list path)
  : logged (gset (list N) * list path) :=
  r ← ask_resolve maybe;
  let key := str_lower L (str_of r) in
  e ← ask_exists maybe;
  mret (if (e : bool) then remember key maybe cs else cs).

Definition _add_candidate_logged (pl : path_like)
  (cs : gset (list N) * list path) : logged (gset (list N) * list path) :=
  match path_of_like L pl with
  | None => mret cs
  | Some p =>
      d ← ask_is_dir p;
      if (d : bool) && eqb (str_lower L (Path_name L p)) (py "bin") then
        r ← ask_resolve p;
        mret (remember (str_lower L (str_of r)) p cs)
      else
        for_each_logged try_maybe_logged [p; Path_div L p (py "bin")] cs
  end.

Definition scan_root_logged (root : pystr) (dirs : list path)
  : logged (list path) :=
  let root_path := Path L root in
  e ← ask_exists root_path;
  if (e : bool) then
    children ← ask_glob root_path (py "GTK*");
    mret (dirs ++ children)
  else mret dirs.

Definition path_entry_logged (entry : pystr)
  (cs : gset (list N) * list path) : logged (gset (list N) * list path) :=
  if negb (truthy entry) then mret cs
  else if py_in (py "gtk") (str_lower L entry)
          || py_in (py "pango") (str_lower L entry)
       then _add_candidate_logged (StrLike entry) cs
       else mret cs.

Definition collect_candidates_logged (st : ProcState) : logged (list path) :=
  cs1 ← for_each_logged
          (fun env_var =>
             _add_candidate_logged (like_of_get (environ_get st env_var)))
          hint_variables ((∅ : gset (list N)), ([] : list path));
  let program_files :=
    environ_get_or st (py "ProgramFiles") (py "C:\\Program Files") in
  let program_files_x86 :=
    environ_get_or st (py "ProgramFiles(x86)") (py "C:\\Program Files (x86)") in
  dirs ← for_each_logged scan_root_logged [program_files; program_files_x86]
           (default_dirs L program_files program_files_x86);
  cs2 ← for_each_logged (fun d => _add_candidate_logged (PathLike d)) dirs cs1;
  let path_entries := split SEMICOLON (environ_get_or st (py "PATH") []) in
  cs3 ← for_each_logged path_entry_logged path_entries cs2;
  mret cs3.2.

Definition has_pango_dll_logged (p : path) : logged bool :=
  found ← ask_glob p (py "pango*-1.0-*.dll");
  match (found : list path) with
  | _ :: _ => mret true
  | [] => ask_exists (Path_div L p (py "pango-1.0-0.dll"))
  end.

Fixpoint accept_first_logged (candidates : list path) (st : ProcState)
  : logged (option pystr) * ProcState :=
  match candidates with
  | [] => (mret None, st)
  | p :: rest =>
      match Path_exists h p with
      | Raise e => (Logged (Raise e) [QExists p], st)
      | Ok false =>
          let '(r, st') := accept_first_logged rest st in
          (Logged (outcome r) (QExists p :: queries r), st')
      | Ok true =>
          let d := has_pango_dll_logged p in
          match outcome d with
          | Raise e => (Logged (Raise e) (QExists p :: queries d), st)
          | Ok false =>
              let '(r, st') := accept_first_logged rest st in
              (Logged (outcome r) (QExists p :: queries d ++ queries r), st')
          | Ok true =>
              let '(r, st') := accept h p st in
              (Logged (Ok r) (QExists p :: queries d), st')
          end
      end
  end.

Definition _ensure_windows_gtk_paths_logged (st : ProcState)
  : logged (option pystr) * ProcState :=
  if negb (eqb (platform_system h) (py "Windows")) then (mret None, st)
  else
    let c := collect_candidates_logged st in
    match outcome c with
    | Raise e => (Logged (Raise e) (queries c), st)
    | Ok candidates =>
        let '(r, st') := accept_first_logged candidates st in
        (Logged (outcome r) (queries c ++ queries r), st')
    end.

Fixpoint added_dirs_logged (candidates : list path) (current : pystr)
  : logged (list pystr) :=
  match candidates with
  | [] => mret []
  | c :: rest =>
      e ← ask_exists c;
      let keep := (e : bool) && negb (mem (str_of c) (split COLON current)) in
      more ← added_dirs_logged rest current;
      mret (if keep then str_of c :: more else more)
  end.

Definition prepare_pango_environment_logged (st : ProcState)
  : logged (option pystr) * ProcState :=
  let system := platform_system h in
  if eqb system (py "Windows") then _ensure_windows_gtk_paths_logged st
  else if eqb system (py "Darwin") then
    let current := environ_get_or st DYLD_LIBRARY_PATH [] in
    let a := added_dirs_logged darwin_candidates current in
    match outcome a with
    | Raise e => (Logged (Raise e) (queries a), st)
    | Ok [] => (Logged (Ok None) (queries a), st)
    | Ok (d :: more) =>
        let value :=
          join [COLON]
            ((d :: more) ++ (if truthy current then [current] else [])) in
        (Logged (Ok (Some value)) (queries a),
         set_environ DYLD_LIBRARY_PATH value st)
    end
  else (mret None, st).

End Logged.

(** A Windows host with the runtime of [Runs.windows_gtk] and a directory
    elsewhere that cannot be examined. *)
Definition windows_gtk_and_secret : Host :=
  Hosts.host (py "Windows") Runs.windows_dirs [Runs.secret_dir]
    Runs.windows_globs [py "pango-1.0-0"] (Ok tt).

(** A Windows host where nothing is installed and the library lookup reads
    os.environ['PATH']: a KeyError when PATH is unset. *)
Definition key_error_PATH : exn := Exn OtherException (py "'PATH'").
Definition windows_bare : Host :=
  with_find_library
    (fun st v =>
       match environ st !! py "PATH" with
       | None => Raise key_error_PATH
       | Some _ => Ok None
       end)
    (Hosts.host (py "Windows") [] [] [] [] (Ok tt)).

(** ** Facts about the string operations *)

Module PyStrFacts.

(** The length of a string counts code points, as [len] does. *)
Example len_no_default_path : length Text.no_default_path = 7%nat.
Proof. reflexivity. Qed.

Example py_astral : py "🍎a" = [127822; 97].
Proof. reflexivity. Qed.

Example split_empty : split COLON [] = [[]].
Proof. reflexivity. Qed.

Example split_trailing : split COLON (py "/a:/b:") = [py "/a"; py "/b"; []].
Proof. reflexivity. Qed.

Example join_two : join [COLON] [py "/a"; py "/b"] = py "/a:/b".
Proof. reflexivity. Qed.

Example ljust_pads : ljust 5 (py "ab") = py "ab   ".
Proof. reflexivity. Qed.

Lemma startswith_app (x b : pystr) : startswith x (x ++ b) = true.
Proof.
  induction x as [|a x IH]; simpl; [reflexivity|].
  rewrite N.eqb_refl. exact IH.
Qed.

Lemma startswith_inv (x s : pystr) :
  startswith x s = true -> exists b, s = x ++ b.
Proof.
  revert s. induction x as [|a x IH]; intros s Hs.
  - exists s. reflexivity.
  - destruct s as [|c s]; simpl in Hs; [discriminate|].
    apply andb_true_iff in Hs as [Hac Hrest].
    apply N.eqb_eq in Hac. subst c.
    destruct (IH _ Hrest) as [b ->]. exists b. reflexivity.
Qed.










(** *** split *)

Lemma split_not_nil (sep : N) (s : pystr) : split sep s <> [].
Proof.
  induction s as [|c s IH]; simpl; [discriminate|].
  destruct (c =? sep); [discriminate|].
  destruct (split sep s); [contradiction|discriminate].
Qed.

Lemma split_app_sep (sep : N) (a b : pystr) :
  split sep (a ++ sep :: b) = split sep a ++ split sep b.
Proof.
  induction a as [|c a IH]; simpl.
  - rewrite N.eqb_refl. reflexivity.
  - destruct (c =? sep).
    + rewrite IH. reflexivity.
    + rewrite IH. pose proof (split_not_nil sep a) as Hne.
      destruct (split sep a); [contradiction|reflexivity].
Qed.

Lemma split_without_sep (sep : N) (s : pystr) :
  sep ∉ s -> split sep s = [s].
Proof.
  induction s as [|c s IH]; intros Hs; [reflexivity|].
  simpl. destruct (N.eqb_spec c sep) as [->|Hne].
  - exfalso. apply Hs. left.
  - rewrite IH; [reflexivity|]. intros Hin. apply Hs. right. exact Hin.
Qed.

Lemma split_entries_without_sep (sep : N) (s x : pystr) :
  x ∈ split sep s -> sep ∉ x.
Proof.
  revert x. induction s as [|c s IH]; intros x Hx; simpl in Hx.
  - apply list_elem_of_singleton in Hx. subst x. apply not_elem_of_nil.
  - destruct (N.eqb_spec c sep) as [->|Hne].
    + apply elem_of_cons in Hx as [->|Hx]; [apply not_elem_of_nil|auto].
    + destruct (split sep s) as [|y ys] eqn:E.
      * apply list_elem_of_singleton in Hx. subst x.
        intros Hin. apply elem_of_cons in Hin as [->|Hin]; [congruence|].
        revert Hin. apply not_elem_of_nil.
      * apply elem_of_cons in Hx as [->|Hx].
        -- intros Hin. apply elem_of_cons in Hin as [->|Hin]; [congruence|].
           revert Hin. apply IH. left.
        -- apply IH. right. exact Hx.
Qed.

Lemma count_entry_app (x : pystr) (l1 l2 : list pystr) :
  count_entry x (l1 ++ l2) = (count_entry x l1 + count_entry x l2)%nat.
Proof.
  unfold count_entry. rewrite List.filter_app, length_app. reflexivity.
Qed.

Lemma count_entry_absent (x : pystr) (l : list pystr) :
  x ∉ l -> count_entry x l = 0%nat.
Proof.
  unfold count_entry. induction l as [|y l IH]; intros Hx; [reflexivity|].
  simpl. unfold eqb at 1. rewrite bool_decide_eq_false_2.
  - apply IH. intros Hin. apply Hx. right. exact Hin.
  - intros ->. apply Hx. left.
Qed.

(** A string is at most once among its own entries. *)
Lemma count_entry_split_self (sep : N) (p : pystr) :
  (count_entry p (split sep p) <= 1)%nat.
Proof.
  destruct (decide (p ∈ split sep p)) as [Hin|Hout].
  - rewrite (split_without_sep sep p).
    + unfold count_entry. simpl. destruct (eqb p p); simpl; lia.
    + eapply split_entries_without_sep. exact Hin.
  - rewrite count_entry_absent by exact Hout. lia.
Qed.

Lemma mem_true (x : pystr) (l : list pystr) : mem x l = true <-> x ∈ l.
Proof. unfold mem. apply bool_decide_eq_true. Qed.

Lemma mem_false (x : pystr) (l : list pystr) : mem x l = false <-> x ∉ l.
Proof. unfold mem. apply bool_decide_eq_false. Qed.

Lemma eqb_true (s t : pystr) : eqb s t = true <-> s = t.
Proof. unfold eqb. apply bool_decide_eq_true. Qed.

Lemma eqb_false (s t : pystr) : eqb s t = false <-> s <> t.
Proof. unfold eqb. apply bool_decide_eq_false. Qed.

End PyStrFacts.
Import PyStrFacts.

(** ** The path preparer on Windows: what an accepted path does to PATH *)

Section WindowsPath.

Context (L : PyLib) (h : Host).

Lemma try_add_dll_directory_environ (d : pystr) (st : ProcState) :
  environ (try_add_dll_directory h d st) = environ st.
Proof.
  unfold try_add_dll_directory.
  destruct (os_has_add_dll_directory h); [|reflexivity].
  destruct (os_add_dll_directory h d); reflexivity.
Qed.

(** A path returned by the loop was accepted by [accept]. *)
Lemma accept_first_some (candidates : list path) (st st' : ProcState)
  (s : pystr) :
  accept_first L h candidates st = (Ok (Some s), st') ->
  exists p, p ∈ candidates /\ accept h p st = (Some s, st').
Proof.
  induction candidates as [|p rest IH]; cbn [accept_first]; intros H;
    [discriminate|].
  destruct (Path_exists h p) as [[|]|e]; [| |discriminate].
  - destruct (has_pango_dll L h p) as [[|]|e]; [| |discriminate].
    + destruct (accept h p st) as [r st2] eqn:E.
      injection H as -> ->. exists p. split; [left|exact E].
    + destruct (IH H) as (q & Hq & Hacc). exists q. split; [right|]; assumption.
  - destruct (IH H) as (q & Hq & Hacc). exists q. split; [right|]; assumption.
Qed.

Lemma ensure_some_accept (st st' : ProcState) (s : pystr) :
  _ensure_windows_gtk_paths L h st = (Ok (Some s), st') ->
  platform_system h = py "Windows" /\
  exists p, accept h p st = (Some s, st').
Proof.
  unfold _ensure_windows_gtk_paths. intros H.
  destruct (eqb (platform_system h) (py "Windows")) eqn:Esys;
    simpl in H; [|discriminate].
  apply eqb_true in Esys. split; [exact Esys|].
  destruct (collect_candidates L h st) as [cands|e]; [|discriminate].
  apply accept_first_some in H as (p & _ & Hp). exists p. exact Hp.
Qed.

End WindowsPath.

(** C9. On Windows, when [_ensure_windows_gtk_paths] accepts a candidate and
    returns its string form [s]: if [s] is already one of the entries of
    PATH split at ";" the environment is left as it was; otherwise PATH
    becomes [s;PATH] and nothing else changes; in both cases the call adds
    no second entry [s] to PATH (the number of entries equal to [s] is at
    most one, or what it was before). *)
Theorem windows_accept_prepends_once (L : PyLib) (h : Host)
  (st st' : ProcState) (s : pystr) :
  _ensure_windows_gtk_paths L h st = (Ok (Some s), st') ->
  let current_path := environ_get_or st (py "PATH") [] in
  platform_system h = py "Windows" /\
  (s ∈ split SEMICOLON current_path -> environ st' = environ st) /\
  (s ∉ split SEMICOLON current_path ->
   environ st' =
     <[py "PATH" := s ++ [SEMICOLON] ++ current_path]> (environ st)) /\
  (count_entry s (split SEMICOLON (environ_get_or st' (py "PATH") []))
   <= Nat.max 1 (count_entry s (split SEMICOLON current_path)))%nat.
Proof.
  intros H current_path.
  apply ensure_some_accept in H as (Hsys & p & Hacc).
  split; [exact Hsys|].
  assert (Hcur : environ_get_or (try_add_dll_directory h (str_of p) st)
                   (py "PATH") [] = current_path).
  { unfold environ_get_or. rewrite try_add_dll_directory_environ. reflexivity. }
  unfold accept in Hacc. cbv zeta in Hacc. rewrite Hcur in Hacc.
  destruct (mem (str_of p) (split SEMICOLON current_path)) eqn:Emem;
    injection Hacc as <- <-.
  - apply mem_true in Emem.
    assert (Henv : environ (try_add_dll_directory h (str_of p) st) = environ st)
      by apply try_add_dll_directory_environ.
    split; [intros _; exact Henv|].
    split; [intros Hout; contradiction|].
    unfold environ_get_or. rewrite Henv.
    fold (environ_get_or st (py "PATH") []). fold current_path. lia.
  - apply mem_false in Emem.
    split; [intros Hin; contradiction|].
    set (value := str_of p ++ SEMICOLON :: current_path).
    assert (Henv : environ (set_environ (py "PATH") value
                     (try_add_dll_directory h (str_of p) st))
                   = <[py "PATH" := value]> (environ st)).
    { simpl. rewrite try_add_dll_directory_environ. reflexivity. }
    split; [intros _; exact Henv|].
    unfold environ_get_or at 1. rewrite Henv, lookup_insert_eq.
    simpl default. unfold value.
    rewrite split_app_sep, count_entry_app.
    rewrite (count_entry_absent _ _ Emem).
    pose proof (count_entry_split_self SEMICOLON (str_of p)). lia.
Qed.

(** ** When the path preparer returns *)

Section Returns.

Context (L : PyLib) (h : Host).
Hypothesis Hq : queries_answer h.

Ltac answer_exists p b E :=
  destruct (proj1 (Hq p)) as [b E]; rewrite E; cbn [mbind result_bind].
Ltac answer_is_dir p b E :=
  destruct (proj1 (proj2 (Hq p))) as [b E]; rewrite E; cbn [mbind result_bind].
Ltac answer_resolve p q E :=
  destruct (proj1 (proj2 (proj2 (Hq p)))) as [q E]; rewrite E;
  cbn [mbind result_bind].
Ltac answer_glob p pat l E :=
  destruct (proj2 (proj2 (proj2 (Hq p))) pat) as [l E]; rewrite E;
  cbn [mbind result_bind].

Lemma for_each_returns {A S : Type} (f : A -> S -> result S) (l : list A) :
  (forall a s, exists s', f a s = Ok s') ->
  forall s, exists s', for_each f l s = Ok s'.
Proof.
  intros Hf. induction l as [|a l IH]; intros s; cbn [for_each].
  - exists s. reflexivity.
  - destruct (Hf a s) as [s1 E]. rewrite E. cbn [mbind result_bind]. apply IH.
Qed.

Lemma try_maybe_returns (maybe : path) (cs : gset (list N) * list path) :
  exists cs', try_maybe L h maybe cs = Ok cs'.
Proof.
  unfold try_maybe.
  answer_resolve maybe q Er. answer_exists maybe b Ee.
  eexists. reflexivity.
Qed.

Lemma add_candidate_returns (pl : path_like)
  (cs : gset (list N) * list path) :
  exists cs', _add_candidate L h pl cs = Ok cs'.
Proof.
  unfold _add_candidate.
  destruct (path_of_like L pl) as [p|]; [|eexists; reflexivity].
  answer_is_dir p d Ed.
  destruct (d && eqb (str_lower L (Path_name L p)) (py "bin")).
  - answer_resolve p q Er. eexists. reflexivity.
  - apply for_each_returns. intros a s. apply try_maybe_returns.
Qed.

Lemma scan_root_returns (root : pystr) (dirs : list path) :
  exists dirs', scan_root L h root dirs = Ok dirs'.
Proof.
  unfold scan_root.
  answer_exists (Path L root) b Ee.
  destruct b; [|eexists; reflexivity].
  answer_glob (Path L root) (py "GTK*") l Eg. eexists. reflexivity.
Qed.

Lemma path_entry_returns (entry : pystr) (cs : gset (list N) * list path) :
  exists cs', path_entry L h entry cs = Ok cs'.
Proof.
  unfold path_entry.
  destruct (negb (truthy entry)); [eexists; reflexivity|].
  destruct (py_in (py "gtk") (str_lower L entry)
            || py_in (py "pango") (str_lower L entry));
    [apply add_candidate_returns|eexists; reflexivity].
Qed.

Lemma collect_candidates_returns (st : ProcState) :
  exists candidates, collect_candidates L h st = Ok candidates.
Proof.
  unfold collect_candidates.
  edestruct (for_each_returns
    (fun env_var => _add_candidate L h (like_of_get (environ_get st env_var))))
    as [cs1 E1]; [intros a s; apply add_candidate_returns|].
  rewrite E1. cbn [mbind result_bind]. clear E1.
  edestruct (for_each_returns (scan_root L h)) as [dirs E2];
    [intros a s; apply scan_root_returns|].
  rewrite E2. cbn [mbind result_bind]. clear E2.
  edestruct (for_each_returns (fun d => _add_candidate L h (PathLike d)))
    as [cs2 E3]; [intros a s; apply add_candidate_returns|].
  rewrite E3. cbn [mbind result_bind]. clear E3.
  edestruct (for_each_returns (path_entry L h)) as [cs3 E4];
    [intros a s; apply path_entry_returns|].
  rewrite E4. cbn [mbind result_bind]. eexists. reflexivity.
Qed.

Lemma has_pango_dll_returns (p : path) :
  exists b, has_pango_dll L h p = Ok b.
Proof.
  unfold has_pango_dll.
  answer_glob p (py "pango*-1.0-*.dll") l Eg.
  destruct l; [|eexists; reflexivity].
  destruct (proj1 (Hq (Path_div L p (py "pango-1.0-0.dll")))) as [b E].
  exists b. exact E.
Qed.

Lemma accept_first_returns (candidates : list path) (st : ProcState) :
  exists r st', accept_first L h candidates st = (Ok r, st').
Proof.
  induction candidates as [|p rest IH]; cbn [accept_first].
  - eexists _, _. reflexivity.
  - destruct (proj1 (Hq p)) as [b E]. rewrite E. destruct b; [|exact IH].
    destruct (has_pango_dll_returns p) as [d Ed]. rewrite Ed.
    destruct d; [|exact IH].
    destruct (accept h p st) as [r st']. eexists _, _. reflexivity.
Qed.

Lemma ensure_windows_gtk_paths_returns (st : ProcState) :
  exists r st', _ensure_windows_gtk_paths L h st = (Ok r, st').
Proof.
  unfold _ensure_windows_gtk_paths.
  destruct (negb (eqb (platform_system h) (py "Windows")));
    [eexists _, _; reflexivity|].
  destruct (collect_candidates_returns st) as [cands E]. rewrite E.
  apply accept_first_returns.
Qed.

Lemma added_dirs_returns (candidates : list path) (current : pystr) :
  exists added, added_dirs h candidates current = Ok added.
Proof.
  induction candidates as [|c rest IH]; cbn [added_dirs].
  - eexists. reflexivity.
  - answer_exists c b Ee. destruct IH as [more E]. rewrite E.
    cbn [mbind result_bind]. eexists. reflexivity.
Qed.

Lemma prepare_pango_environment_returns (st : ProcState) :
  exists r st', prepare_pango_environment L h st = (Ok r, st').
Proof.
  unfold prepare_pango_environment. cbv zeta.
  destruct (eqb (platform_system h) (py "Windows"));
    [apply ensure_windows_gtk_paths_returns|].
  destruct (eqb (platform_system h) (py "Darwin"));
    [|eexists _, _; reflexivity].
  destruct (added_dirs_returns darwin_candidates
              (environ_get_or st DYLD_LIBRARY_PATH [])) as [added E].
  rewrite E. destruct added; eexists _, _; reflexivity.
Qed.

End Returns.

(** *** The queries a run makes, and what it raises *)

Section LoggedFacts.

Context (L : PyLib) (h : Host).

Lemma outcome_bind {A B : Type} (m : logged A) (f : A -> logged B) :
  outcome (m ≫= f) = outcome m ≫= (fun a => outcome (f a)).
Proof.
  unfold mbind at 1, logged_bind. destruct (outcome m); reflexivity.
Qed.

Lemma blames_ret {A : Type} (a : A) : blames h (mret a : logged A).
Proof. intros e H. discriminate H. Qed.

Lemma blames_bind {A B : Type} (m : logged A) (f : A -> logged B) :
  blames h m -> (forall a, blames h (f a)) -> blames h (m ≫= f).
Proof.
  intros Hm Hf e. unfold mbind, logged_bind.
  destruct (outcome m) as [a|e1] eqn:Em; cbv zeta; cbn [outcome queries].
  - intros He. destruct (Hf a e He) as (q & Hlast & Hq).
    exists q. split; [|exact Hq]. rewrite last_app, Hlast. reflexivity.
  - intros [= ->]. apply Hm. exact Em.
Qed.

Lemma blames_ask_exists (p : path) : blames h (ask_exists h p).
Proof.
  intros e H. exists (QExists p). split; [reflexivity|].
  cbn [ask_exists outcome] in H. cbn [query_error]. rewrite H. reflexivity.
Qed.

Lemma blames_ask_is_dir (p : path) : blames h (ask_is_dir h p).
Proof.
  intros e H. exists (QIsDir p). split; [reflexivity|].
  cbn [ask_is_dir outcome] in H. cbn [query_error]. rewrite H. reflexivity.
Qed.

Lemma blames_ask_resolve (p : path) : blames h (ask_resolve h p).
Proof.
  intros e H. exists (QResolve p). split; [reflexivity|].
  cbn [ask_resolve outcome] in H. cbn [query_error]. rewrite H. reflexivity.
Qed.

Lemma blames_ask_glob (p : path) (pattern : pystr) :
  blames h (ask_glob h p pattern).
Proof.
  intros e H. exists (QGlob p pattern). split; [reflexivity|].
  cbn [ask_glob outcome] in H. cbn [query_error]. rewrite H. reflexivity.
Qed.

Lemma blames_for_each {A S : Type} (f : A -> S -> logged S) (l : list A) :
  (forall a s, blames h (f a s)) ->
  forall s, blames h (for_each_logged f l s).
Proof.
  intros Hf. induction l as [|a l IH]; intros s; cbn [for_each_logged].
  - apply blames_ret.
  - apply blames_bind; [apply Hf|exact IH].
Qed.

Lemma agree_for_each {A S : Type} (fl : A -> S -> logged S)
  (f : A -> S -> result S) (l : list A) :
  (forall a s, outcome (fl a s) = f a s) ->
  forall s, outcome (for_each_logged fl l s) = for_each f l s.
Proof.
  intros Hf. induction l as [|a l IH]; intros s;
    cbn [for_each_logged for_each]; [reflexivity|].
  rewrite outcome_bind, Hf. destruct (f a s) as [s1|e];
    cbn [mbind result_bind]; [apply IH|reflexivity].
Qed.

(** [try_maybe] *)
Lemma agree_try_maybe (maybe : path) (cs : gset (list N) * list path) :
  outcome (try_maybe_logged L h maybe cs) = try_maybe L h maybe cs.
Proof.
  unfold try_maybe_logged, try_maybe.
  rewrite outcome_bind. cbn [ask_resolve outcome].
  destruct (Path_resolve h maybe) as [r|e]; cbn [mbind result_bind];
    [|reflexivity].
  rewrite outcome_bind. cbn [ask_exists outcome].
  destruct (Path_exists h maybe); reflexivity.
Qed.

Lemma blames_try_maybe (maybe : path) (cs : gset (list N) * list path) :
  blames h (try_maybe_logged L h maybe cs).
Proof.
  unfold try_maybe_logged.
  apply blames_bind; [apply blames_ask_resolve|]. intros r.
  apply blames_bind; [apply blames_ask_exists|]. intros e.
  apply blames_ret.
Qed.

(** [_add_candidate] *)
Lemma agree_add_candidate (pl : path_like)
  (cs : gset (list N) * list path) :
  outcome (_add_candidate_logged L h pl cs) = _add_candidate L h pl cs.
Proof.
  unfold _add_candidate_logged, _add_candidate.
  destruct (path_of_like L pl) as [p|]; [|reflexivity].
  rewrite outcome_bind. cbn [ask_is_dir outcome].
  destruct (Path_is_dir h p) as [d|e]; cbn [mbind result_bind];
    [|reflexivity].
  destruct (d && eqb (str_lower L (Path_name L p)) (py "bin")).
  - rewrite outcome_bind. cbn [ask_resolve outcome].
    destruct (Path_resolve h p); reflexivity.
  - apply agree_for_each. apply agree_try_maybe.
Qed.

Lemma blames_add_candidate (pl : path_like)
  (cs : gset (list N) * list path) :
  blames h (_add_candidate_logged L h pl cs).
Proof.
  unfold _add_candidate_logged.
  destruct (path_of_like L pl) as [p|]; [|apply blames_ret].
  apply blames_bind; [apply blames_ask_is_dir|]. intros d.
  destruct (d && eqb (str_lower L (Path_name L p)) (py "bin")).
  - apply blames_bind; [apply blames_ask_resolve|]. intros r.
    apply blames_ret.
  - apply blames_for_each. apply blames_try_maybe.
Qed.

(** [scan_root] and [path_entry] *)
Lemma agree_scan_root (root : pystr) (dirs : list path) :
  outcome (scan_root_logged L h root dirs) = scan_root L h root dirs.
Proof.
  unfold scan_root_logged, scan_root. cbv zeta.
  rewrite outcome_bind. cbn [ask_exists outcome].
  destruct (Path_exists h (Path L root)) as [[|]|e]; cbn [mbind result_bind];
    [|reflexivity..].
  rewrite outcome_bind. cbn [ask_glob outcome].
  destruct (Path_glob h (Path L root) (py "GTK*")); reflexivity.
Qed.

Lemma blames_scan_root (root : pystr) (dirs : list path) :
  blames h (scan_root_logged L h root dirs).
Proof.
  unfold scan_root_logged. cbv zeta.
  apply blames_bind; [apply blames_ask_exists|]. intros [|].
  - apply blames_bind; [apply blames_ask_glob|]. intros children.
    apply blames_ret.
  - apply blames_ret.
Qed.

Lemma agree_path_entry (entry : pystr) (cs : gset (list N) * list path) :
  outcome (path_entry_logged L h entry cs) = path_entry L h entry cs.
Proof.
  unfold path_entry_logged, path_entry.
  destruct (negb (truthy entry)); [reflexivity|].
  destruct (py_in (py "gtk") (str_lower L entry)
            || py_in (py "pango") (str_lower L entry));
    [apply agree_add_candidate|reflexivity].
Qed.

Lemma blames_path_entry (entry : pystr) (cs : gset (list N) * list path) :
  blames h (path_entry_logged L h entry cs).
Proof.
  unfold path_entry_logged.
  destruct (negb (truthy entry)); [apply blames_ret|].
  destruct (py_in (py "gtk") (str_lower L entry)
            || py_in (py "pango") (str_lower L entry));
    [apply blames_add_candidate|apply blames_ret].
Qed.

(** [collect_candidates] *)
Lemma agree_collect_candidates (st : ProcState) :
  outcome (collect_candidates_logged L h st) = collect_candidates L h st.
Proof.
  unfold collect_candidates_logged, collect_candidates. cbv zeta.
  rewrite outcome_bind.
  rewrite (agree_for_each _
             (fun env_var =>
                _add_candidate L h (like_of_get (environ_get st env_var))))
    by (intros a s; apply agree_add_candidate).
  destruct (for_each _ hint_variables _) as [cs1|e];
    cbn [mbind result_bind]; [|reflexivity].
  rewrite outcome_bind.
  rewrite (agree_for_each _ (scan_root L h))
    by (intros a s; apply agree_scan_root).
  destruct (for_each (scan_root L h) _ _) as [dirs|e];
    cbn [mbind result_bind]; [|reflexivity].
  rewrite outcome_bind.
  rewrite (agree_for_each _ (fun d => _add_candidate L h (PathLike d)))
    by (intros a s; apply agree_add_candidate).
  destruct (for_each _ dirs cs1) as [cs2|e];
    cbn [mbind result_bind]; [|reflexivity].
  rewrite outcome_bind.
  rewrite (agree_for_each _ (path_entry L h))
    by (intros a s; apply agree_path_entry).
  destruct (for_each (path_entry L h) _ cs2); reflexivity.
Qed.

Lemma blames_collect_candidates (st : ProcState) :
  blames h (collect_candidates_logged L h st).
Proof.
  unfold collect_candidates_logged. cbv zeta.
  apply blames_bind;
    [apply blames_for_each; intros a s; apply blames_add_candidate|].
  intros cs1.
  apply blames_bind;
    [apply blames_for_each; intros a s; apply blames_scan_root|].
  intros dirs.
  apply blames_bind;
    [apply blames_for_each; intros a s; apply blames_add_candidate|].
  intros cs2.
  apply blames_bind;
    [apply blames_for_each; intros a s; apply blames_path_entry|].
  intros cs3. apply blames_ret.
Qed.

(** [has_pango_dll] and the loop that accepts *)
Lemma agree_has_pango_dll (p : path) :
  outcome (has_pango_dll_logged L h p) = has_pango_dll L h p.
Proof.
  unfold has_pango_dll_logged, has_pango_dll.
  rewrite outcome_bind. cbn [ask_glob outcome].
  destruct (Path_glob h p (py "pango*-1.0-*.dll")) as [[|dll dlls]|e];
    reflexivity.
Qed.

Lemma blames_has_pango_dll (p : path) :
  blames h (has_pango_dll_logged L h p).
Proof.
  unfold has_pango_dll_logged.
  apply blames_bind; [apply blames_ask_glob|]. intros [|dll dlls];
    [apply blames_ask_exists|apply blames_ret].
Qed.

Lemma agree_accept_first (candidates : list path) (st : ProcState) :
  accept_first L h candidates st
  = (outcome (accept_first_logged L h candidates st).1,
     (accept_first_logged L h candidates st).2).
Proof.
  induction candidates as [|p rest IH];
    cbn [accept_first accept_first_logged]; [reflexivity|].
  destruct (Path_exists h p) as [[|]|e]; [| |reflexivity].
  - rewrite <- agree_has_pango_dll.
    destruct (outcome (has_pango_dll_logged L h p)) as [[|]|e];
      [| |reflexivity].
    + destruct (accept h p st) as [r st']. reflexivity.
    + rewrite IH. destruct (accept_first_logged L h rest st) as [r st'].
      reflexivity.
  - rewrite IH. destruct (accept_first_logged L h rest st) as [r st'].
    reflexivity.
Qed.

Lemma blames_accept_first (candidates : list path) (st : ProcState) :
  blames h (accept_first_logged L h candidates st).1.
Proof.
  induction candidates as [|p rest IH]; cbn [accept_first_logged].
  - apply blames_ret.
  - destruct (Path_exists h p) as [[|]|e1] eqn:Ee.
    + pose proof (blames_has_pango_dll p) as Hd.
      destruct (outcome (has_pango_dll_logged L h p)) as [[|]|e2] eqn:Ed.
      * destruct (accept h p st) as [r st']. intros e H. discriminate H.
      * destruct (accept_first_logged L h rest st) as [r st'].
        cbn [fst] in *. intros e H. cbn [outcome] in H.
        destruct (IH e H) as (q & Hlast & Hq). exists q.
        split; [|exact Hq]. cbn [queries].
        rewrite last_cons, last_app, Hlast. reflexivity.
      * intros e H. cbn [fst outcome] in H. injection H as <-.
        destruct (Hd e2 Ed) as (q & Hlast & Hq). exists q.
        split; [|exact Hq]. cbn [fst queries].
        rewrite last_cons, Hlast. reflexivity.
    + destruct (accept_first_logged L h rest st) as [r st'].
      cbn [fst] in *. intros e H. cbn [outcome] in H.
      destruct (IH e H) as (q & Hlast & Hq). exists q.
      split; [|exact Hq]. cbn [queries]. rewrite last_cons, Hlast.
      reflexivity.
    + intros e H. cbn [fst outcome] in H. injection H as <-.
      exists (QExists p). split; [reflexivity|].
      cbn [query_error]. rewrite Ee. reflexivity.
Qed.

(** [_ensure_windows_gtk_paths] *)
Lemma agree_ensure (st : ProcState) :
  _ensure_windows_gtk_paths L h st
  = (outcome (_ensure_windows_gtk_paths_logged L h st).1,
     (_ensure_windows_gtk_paths_logged L h st).2).
Proof.
  unfold _ensure_windows_gtk_paths, _ensure_windows_gtk_paths_logged.
  destruct (negb (eqb (platform_system h) (py "Windows"))); [reflexivity|].
  cbv zeta. rewrite <- agree_collect_candidates.
  destruct (outcome (collect_candidates_logged L h st)) as [cands|e];
    [|reflexivity].
  rewrite agree_accept_first.
  destruct (accept_first_logged L h cands st) as [r st']. reflexivity.
Qed.

Lemma blames_ensure (st : ProcState) :
  blames h (_ensure_windows_gtk_paths_logged L h st).1.
Proof.
  unfold _ensure_windows_gtk_paths_logged.
  destruct (negb (eqb (platform_system h) (py "Windows")));
    [apply blames_ret|].
  cbv zeta. pose proof (blames_collect_candidates st) as Hc.
  destruct (outcome (collect_candidates_logged L h st)) as [cands|e1] eqn:Ec.
  - pose proof (blames_accept_first cands st) as Ha.
    destruct (accept_first_logged L h cands st) as [r st'].
    cbn [fst] in *. intros e H. cbn [outcome] in H.
    destruct (Ha e H) as (q & Hlast & Hq). exists q.
    split; [|exact Hq]. cbn [queries]. rewrite last_app, Hlast. reflexivity.
  - intros e H. cbn [fst outcome] in H. injection H as <-.
    destruct (Hc e1 Ec) as (q & Hlast & Hq). exists q.
    split; [exact Hlast|exact Hq].
Qed.

(** [prepare_pango_environment] *)
Lemma agree_added_dirs (candidates : list path) (current : pystr) :
  outcome (added_dirs_logged h candidates current)
  = added_dirs h candidates current.
Proof.
  induction candidates as [|c rest IH]; cbn [added_dirs_logged added_dirs];
    [reflexivity|].
  rewrite outcome_bind. cbn [ask_exists outcome].
  destruct (Path_exists h c) as [b|e]; cbn [mbind result_bind];
    [|reflexivity].
  rewrite outcome_bind, IH.
  destruct (added_dirs h rest current); reflexivity.
Qed.

Lemma blames_added_dirs (candidates : list path) (current : pystr) :
  blames h (added_dirs_logged h candidates current).
Proof.
  induction candidates as [|c rest IH]; cbn [added_dirs_logged].
  - apply blames_ret.
  - apply blames_bind; [apply blames_ask_exists|]. intros b.
    apply blames_bind; [exact IH|]. intros more. apply blames_ret.
Qed.

Lemma agree_prepare (st : ProcState) :
  prepare_pango_environment L h st
  = (outcome (prepare_pango_environment_logged L h st).1,
     (prepare_pango_environment_logged L h st).2).
Proof.
  unfold prepare_pango_environment, prepare_pango_environment_logged.
  cbv zeta.
  destruct (eqb (platform_system h) (py "Windows")); [apply agree_ensure|].
  destruct (eqb (platform_system h) (py "Darwin")); [|reflexivity].
  rewrite <- agree_added_dirs.
  destruct (outcome (added_dirs_logged h darwin_candidates _))
    as [[|d more]|e]; reflexivity.
Qed.

Lemma blames_prepare (st : ProcState) :
  blames h (prepare_pango_environment_logged L h st).1.
Proof.
  unfold prepare_pango_environment_logged. cbv zeta.
  destruct (eqb (platform_system h) (py "Windows")); [apply blames_ensure|].
  destruct (eqb (platform_system h) (py "Darwin")); [|apply blames_ret].
  pose proof (blames_added_dirs darwin_candidates
                (environ_get_or st DYLD_LIBRARY_PATH [])) as Ha.
  destruct (outcome (added_dirs_logged h darwin_candidates _))
    as [[|d more]|e1] eqn:E.
  - intros e H. discriminate H.
  - intros e H. discriminate H.
  - intros e H. cbn [fst outcome] in H. injection H as <-.
    destruct (Ha e1 E) as (q & Hlast & Hq). exists q.
    split; [exact Hlast|exact Hq].
Qed.

(** A run whose queries all answer does not raise. *)
Lemma blames_answers {A : Type} (m : logged A) :
  blames h m ->
  (forall q, q ∈ queries m -> query_error h q = None) ->
  exists a, outcome m = Ok a.
Proof.
  intros Hm Hall. destruct (outcome m) as [a|e] eqn:E; [exists a; reflexivity|].
  destruct (Hm e E) as (q & Hlast & Hq).
  rewrite (Hall q) in Hq; [discriminate|].
  apply last_Some_elem_of. exact Hlast.
Qed.

End LoggedFacts.

(** C7, as the code has it. The path preparer, and on Windows
    [_ensure_windows_gtk_paths], return normally on every platform and in
    every process state whenever the queries they make of the file system
    (exists, is_dir, resolve, glob), those of the run and no others, return
    normally, absent directories included; a failure of
    os.add_dll_directory is swallowed and needs no assumption. The logged
    functions give the queries of a run and compute what the functions
    themselves do; when the path preparer raises, it is its last query
    that raised. *)
Theorem path_preparer_returns_when_its_queries_answer (L : PyLib) (h : Host)
  (st : ProcState) :
  prepare_pango_environment L h st
    = (outcome (prepare_pango_environment_logged L h st).1,
       (prepare_pango_environment_logged L h st).2) /\
  _ensure_windows_gtk_paths L h st
    = (outcome (_ensure_windows_gtk_paths_logged L h st).1,
       (_ensure_windows_gtk_paths_logged L h st).2) /\
  ((forall q, q ∈ queries (prepare_pango_environment_logged L h st).1 ->
              query_error h q = None) ->
   exists r st', prepare_pango_environment L h st = (Ok r, st')) /\
  ((forall q, q ∈ queries (_ensure_windows_gtk_paths_logged L h st).1 ->
              query_error h q = None) ->
   exists r st', _ensure_windows_gtk_paths L h st = (Ok r, st')) /\
  (forall e st',
     prepare_pango_environment L h st = (Raise e, st') ->
     exists q,
       last (queries (prepare_pango_environment_logged L h st).1) = Some q /\
       query_error h q = Some e).
Proof.
  split; [apply agree_prepare|]. split; [apply agree_ensure|].
  split; [|split].
  - intros Hall. rewrite agree_prepare.
    destruct (blames_answers h _ (blames_prepare L h st) Hall) as [r Hr].
    rewrite Hr. eexists _, _. reflexivity.
  - intros Hall. rewrite agree_ensure.
    destruct (blames_answers h _ (blames_ensure L h st) Hall) as [r Hr].
    rewrite Hr. eexists _, _. reflexivity.
  - intros e st' H. rewrite agree_prepare in H. injection H as H _.
    apply (blames_prepare L h st e H).
Qed.

(** C8. On a platform that is neither Windows nor macOS the path preparer
    returns None and leaves the environment variables and the DLL search
    list as they were. *)
Theorem prepare_other_platform_noop (L : PyLib) (h : Host) (st : ProcState) :
  platform_system h <> py "Windows" ->
  platform_system h <> py "Darwin" ->
  prepare_pango_environment L h st = (Ok None, st).
Proof.
  intros Hw Hd. unfold prepare_pango_environment. cbv zeta.
  apply eqb_false in Hw. apply eqb_false in Hd.
  rewrite Hw, Hd. reflexivity.
Qed.

(** ** The path preparer on macOS *)

Section Darwin.

Context (L : PyLib) (h : Host).
Hypothesis Hsys : platform_system h = py "Darwin".
Context (b1 b2 : bool).
Hypothesis Hhomebrew : Path_exists h (PurePath homebrew_lib) = Ok b1.
Hypothesis Husr_local : Path_exists h (PurePath usr_local_lib) = Ok b2.

Lemma added_dirs_darwin (current : pystr) :
  added_dirs h darwin_candidates current = Ok (darwin_added b1 b2 current).
Proof.
  unfold darwin_candidates, darwin_added. cbn [added_dirs str_of].
  rewrite Hhomebrew, Husr_local. cbn [mbind result_bind].
  destruct (b1 && negb (mem homebrew_lib (split COLON current)));
    destruct (b2 && negb (mem usr_local_lib (split COLON current)));
    reflexivity.
Qed.

Lemma prepare_darwin (st : ProcState) :
  prepare_pango_environment L h st =
  let current := environ_get_or st DYLD_LIBRARY_PATH [] in
  match darwin_added b1 b2 current with
  | [] => (Ok None, st)
  | a :: more =>
      let value := join [COLON] ((a :: more) ++ prior_entries current) in
      (Ok (Some value), set_environ DYLD_LIBRARY_PATH value st)
  end.
Proof.
  unfold prepare_pango_environment. cbv zeta. rewrite Hsys.
  change (eqb (py "Darwin") (py "Windows")) with false.
  change (eqb (py "Darwin") (py "Darwin")) with true.
  cbv iota. rewrite added_dirs_darwin. reflexivity.
Qed.

End Darwin.

Lemma join_snoc (sep : pystr) (l : list pystr) (x : pystr) :
  l <> [] -> join sep (l ++ [x]) = join sep l ++ sep ++ x.
Proof.
  induction l as [|a l IH]; intros Hl; [contradiction|].
  destruct l as [|b l].
  - reflexivity.
  - change (join sep ((a :: b :: l) ++ [x]))
      with (a ++ sep ++ join sep ((b :: l) ++ [x])).
    rewrite IH by discriminate.
    change (join sep (a :: b :: l)) with (a ++ sep ++ join sep (b :: l)).
    rewrite <- !app_assoc. reflexivity.
Qed.

Lemma join_cons_cons (sep a b : pystr) (l : list pystr) :
  join sep (a :: b :: l) = a ++ sep ++ join sep (b :: l).
Proof. reflexivity. Qed.

Lemma split_homebrew_first (rest : pystr) :
  split COLON (homebrew_lib ++ COLON :: rest)
  = homebrew_lib :: split COLON rest.
Proof. rewrite split_app_sep. reflexivity. Qed.

(** C5, as the code has it. On macOS, when /opt/homebrew/lib exists and is
    not among the entries of DYLD_LIBRARY_PATH split at ":" (and the query
    for /usr/local/lib answers), the path preparer puts it in front of the
    variable: the new value starts with the entry /opt/homebrew/lib, ends
    with the former value when that was not empty, is stored in
    DYLD_LIBRARY_PATH and is returned. *)
Theorem darwin_homebrew_prepended (L : PyLib) (h : Host) (st : ProcState)
  (b2 : bool) :
  platform_system h = py "Darwin" ->
  Path_exists h (PurePath homebrew_lib) = Ok true ->
  Path_exists h (PurePath usr_local_lib) = Ok b2 ->
  let current := environ_get_or st DYLD_LIBRARY_PATH [] in
  homebrew_lib ∉ split COLON current ->
  exists value st',
    prepare_pango_environment L h st = (Ok (Some value), st') /\
    environ st' = <[DYLD_LIBRARY_PATH := value]> (environ st) /\
    dll_directories st' = dll_directories st /\
    value = join [COLON] (darwin_added true b2 current ++ prior_entries current) /\
    head (split COLON value) = Some homebrew_lib /\
    (current <> [] -> exists front, value = front ++ [COLON] ++ current).
Proof.
  intros Hsys Hhb Hul current Hout.
  rewrite (prepare_darwin L h Hsys true b2 Hhb Hul). cbv zeta.
  fold current. apply mem_false in Hout.
  unfold darwin_added. rewrite Hout. cbn [andb negb app].
  set (second := if b2 && negb (mem usr_local_lib (split COLON current))
                 then [usr_local_lib] else []).
  eexists _, _. split; [reflexivity|].
  split; [reflexivity|]. split; [reflexivity|]. split; [reflexivity|].
  split.
  - destruct (second ++ prior_entries current) as [|x xs] eqn:E.
    + reflexivity.
    + rewrite join_cons_cons. change ([COLON] ++ join [COLON] (x :: xs))
        with (COLON :: join [COLON] (x :: xs)).
      rewrite split_homebrew_first. reflexivity.
  - intros Hcur. unfold prior_entries.
    destruct current as [|c cur]; [contradiction|]. cbn [truthy].
    exists (join [COLON] (homebrew_lib :: second)).
    rewrite app_comm_cons, join_snoc by discriminate. reflexivity.
Qed.

(** C10, as the code has it. On macOS, when the two existence queries
    answer: if DYLD_LIBRARY_PATH is unset or empty and at least one
    candidate exists, the value returned is the added candidates joined by
    ":", /opt/homebrew/lib first, it is the value DYLD_LIBRARY_PATH has
    afterwards (nothing else changes), its entries are exactly the added
    candidates, it does not end in ":" and has no empty entry; and whenever
    a value is written while the prior value is not empty, it is the joined
    added candidates, a ":" and the prior value. *)
Theorem darwin_value_written (L : PyLib) (h : Host) (b1 b2 : bool) :
  platform_system h = py "Darwin" ->
  Path_exists h (PurePath homebrew_lib) = Ok b1 ->
  Path_exists h (PurePath usr_local_lib) = Ok b2 ->
  (forall st,
     environ_get st DYLD_LIBRARY_PATH = None
     \/ environ_get st DYLD_LIBRARY_PATH = Some [] ->
     b1 || b2 = true ->
     let added := (if b1 then [homebrew_lib] else [])
                  ++ (if b2 then [usr_local_lib] else []) in
     let value := join [COLON] added in
     exists st',
       prepare_pango_environment L h st = (Ok (Some value), st') /\
       environ st' = <[DYLD_LIBRARY_PATH := value]> (environ st) /\
       environ_get st' DYLD_LIBRARY_PATH = Some value /\
       dll_directories st' = dll_directories st /\
       split COLON value = added /\
       last value <> Some COLON /\
       [] ∉ split COLON value) /\
  (forall st value st',
     prepare_pango_environment L h st = (Ok (Some value), st') ->
     let current := environ_get_or st DYLD_LIBRARY_PATH [] in
     current <> [] ->
     darwin_added b1 b2 current <> [] /\
     value = join [COLON] (darwin_added b1 b2 current) ++ [COLON] ++ current /\
     environ st' = <[DYLD_LIBRARY_PATH := value]> (environ st) /\
     environ_get st' DYLD_LIBRARY_PATH = Some value /\
     dll_directories st' = dll_directories st).
Proof.
  intros Hsys Hhb Hul. split.
  - intros st Hunset Hsome added value.
    rewrite (prepare_darwin L h Hsys b1 b2 Hhb Hul). cbv zeta.
    assert (Hcur : environ_get_or st DYLD_LIBRARY_PATH [] = []).
    { unfold environ_get_or, environ_get in *.
      destruct Hunset as [-> | ->]; reflexivity. }
    rewrite Hcur. subst value added.
    destruct b1, b2; try discriminate Hsome;
      eexists; (split; [reflexivity|]); (split; [reflexivity|]);
      (split; [unfold environ_get; cbn [set_environ environ];
               apply lookup_insert_eq|]);
      (split; [reflexivity|]); (split; [reflexivity|]);
      (split; [vm_compute; discriminate|]);
      vm_compute; intros Hin;
      repeat (apply elem_of_cons in Hin as [Hin|Hin]; [discriminate Hin|]);
      revert Hin; apply not_elem_of_nil.
  - intros st value st' Hprep current Hcur.
    rewrite (prepare_darwin L h Hsys b1 b2 Hhb Hul) in Hprep.
    cbv zeta in Hprep. fold current in Hprep.
    destruct (darwin_added b1 b2 current) as [|a more] eqn:E;
      [discriminate|].
    split; [discriminate|].
    injection Hprep as <- <-.
    split.
    { unfold prior_entries. destruct current as [|c cur]; [contradiction|].
      exact (join_snoc [COLON] (a :: more) (c :: cur) ltac:(discriminate)). }
    split; [reflexivity|].
    split; [unfold environ_get; cbn [set_environ environ];
            apply lookup_insert_eq|reflexivity].
Qed.

(** ** The native library prober *)

Section Prober.

Context (h : Host) (st : ProcState).

Lemma targets_keys : map fst (targets h) = four_keys.
Proof. unfold targets. destruct (eqb _ _); reflexivity. Qed.



Lemma missing_keys_sublist (ts : list (pystr * list pystr)) :
  sublist (missing_keys h st ts) (map fst ts).
Proof.
  induction ts as [|[key variants] rest IH]; cbn [missing_keys map fst].
  - constructor.
  - cbv zeta. destruct (existsb (resolves h st) variants).
    + apply sublist_cons. exact IH.
    + apply sublist_skip. exact IH.
Qed.



(** What the loops return, when they return. *)
Lemma any_found_ok (variants : list pystr) (b : bool) :
  any_found h st variants = Ok b -> b = existsb (resolves h st) variants.
Proof.
  induction variants as [|v more IH]; cbn [any_found existsb].
  - intros [= <-]. reflexivity.
  - unfold resolves at 1.
    destruct (find_library h st v) as [o|e]; cbn [mbind result_bind];
      [|discriminate].
    destruct (found_value o); [intros [= <-]; reflexivity|].
    intros H. apply IH. exact H.
Qed.

Lemma missing_of_ok (ts : list (pystr * list pystr)) (r : list pystr) :
  missing_of h st ts = Ok r -> r = missing_keys h st ts.
Proof.
  revert r. induction ts as [|[key variants] rest IH]; intros r;
    cbn [missing_of missing_keys].
  - intros [= <-]. reflexivity.
  - destruct (any_found h st variants) as [found|e] eqn:Ef;
      cbn [mbind result_bind]; [|discriminate].
    destruct (missing_of h st rest) as [missing|e];
      cbn [mbind result_bind]; [|discriminate].
    intros [= <-]. rewrite <- (any_found_ok _ _ Ef), <- (IH missing eq_refl).
    reflexivity.
Qed.

Lemma probe_ok (r : list pystr) :
  _probe_native_libs h st = Ok r -> r = missing_keys h st (targets h).
Proof. apply missing_of_ok. Qed.

Lemma probe_sublist (r : list pystr) :
  _probe_native_libs h st = Ok r -> sublist r four_keys.
Proof.
  intros H. rewrite (probe_ok r H), <- targets_keys.
  apply missing_keys_sublist.
Qed.





End Prober.


(** ** The availability checker *)

Section Checker.

Context (L : PyLib) (h : Host).

Lemma check_after_prepare (st st1 : ProcState) (added_path : option pystr)
  (missing : list pystr) :
  prepare_pango_environment L h st = (Ok added_path, st1) ->
  _probe_native_libs h st1 = Ok missing ->
  check_pango_available L h st =
  match load_pango h st1 with
  | Ok _ => (Ok (true, Text.success_message), st1)
  | Raise e => (Ok (handle L h added_path missing e), st1)
  end.
Proof.
  intros H Hm. unfold check_pango_available. rewrite H, Hm. reflexivity.
Qed.

(** What the path preparer raises leaves the checker as it is. *)
Lemma check_raises_with_preparer (st st1 : ProcState) (e : exn) :
  prepare_pango_environment L h st = (Raise e, st1) ->
  check_pango_available L h st = (Raise e, st1).
Proof. intros H. unfold check_pango_available. rewrite H. reflexivity. Qed.

(** And so does what the prober raises. *)
Lemma check_raises_with_prober (st st1 : ProcState)
  (added_path : option pystr) (e : exn) :
  prepare_pango_environment L h st = (Ok added_path, st1) ->
  _probe_native_libs h st1 = Raise e ->
  check_pango_available L h st = (Raise e, st1).
Proof.
  intros H Hm. unfold check_pango_available. rewrite H, Hm. reflexivity.
Qed.

Lemma handle_false (added_path : option pystr) (missing : list pystr)
  (e : exn) :
  (handle L h added_path missing e).1 = false.
Proof.
  unfold handle. destruct (exn_kind e); [|reflexivity..].
  destruct (recognised L (exn_text e)); reflexivity.
Qed.

Lemma ensure_windows_find_library f (st : ProcState) :
  _ensure_windows_gtk_paths L (with_find_library f h) st
  = _ensure_windows_gtk_paths L h st.
Proof. reflexivity. Qed.

Lemma prepare_find_library f (st : ProcState) :
  prepare_pango_environment L (with_find_library f h) st
  = prepare_pango_environment L h st.
Proof. reflexivity. Qed.

End Checker.

(** C1, as the code has it. Whenever the path preparer and the prober
    return normally (they run at lines 232 and 233, before the try
    statement), the availability checker returns a pair, and every failure
    of the load attempt, of any of the four kinds, is caught and turned
    into [(false, message)]. *)
Theorem check_catches_load_failures (L : PyLib) (h : Host)
  (st st1 : ProcState) (added_path : option pystr) (missing : list pystr) :
  prepare_pango_environment L h st = (Ok added_path, st1) ->
  _probe_native_libs h st1 = Ok missing ->
  (exists verdict, check_pango_available L h st = (Ok verdict, st1)) /\
  (forall e, load_pango h st1 = Raise e ->
     exists message,
       check_pango_available L h st = (Ok (false, message), st1)).
Proof.
  intros Hprep Hprobe.
  rewrite (check_after_prepare L h st st1 added_path missing Hprep Hprobe).
  split.
  - destruct (load_pango h st1); eexists; reflexivity.
  - intros e ->.
    pose proof (handle_false L h added_path missing e) as Hf.
    destruct (handle L h added_path missing e) as [b m].
    simpl in Hf. subst b. exists m. reflexivity.
Qed.

(** C2, as the code has it. Whenever the path preparer and the prober
    return normally, the availability checker returns a pair
    [(available, message)] in which [available] is true exactly when the
    load attempt (import and [pango_version()]) succeeds, and another
    outcome of the library lookup, with which the prober still returns,
    changes at most the message. *)
Theorem check_verdict_is_load_outcome (L : PyLib) (h : Host)
  (st st1 : ProcState) (added_path : option pystr) (missing : list pystr) :
  prepare_pango_environment L h st = (Ok added_path, st1) ->
  _probe_native_libs h st1 = Ok missing ->
  exists available message,
    check_pango_available L h st = (Ok (available, message), st1) /\
    (available = true <-> exists u, load_pango h st1 = Ok u) /\
    (forall f missing',
       _probe_native_libs (with_find_library f h) st1 = Ok missing' ->
       exists message',
         check_pango_available L (with_find_library f h) st
         = (Ok (available, message'), st1)).
Proof.
  intros Hprep Hprobe.
  assert (Hcheck := check_after_prepare L h st st1 added_path missing
                      Hprep Hprobe).
  assert (Hother : forall f missing',
            _probe_native_libs (with_find_library f h) st1 = Ok missing' ->
            check_pango_available L (with_find_library f h) st =
            match load_pango h st1 with
            | Ok _ => (Ok (true, Text.success_message), st1)
            | Raise e =>
                (Ok (handle L (with_find_library f h) added_path missing' e),
                 st1)
            end).
  { intros f missing' Hm.
    apply (check_after_prepare L (with_find_library f h)); [|exact Hm].
    rewrite prepare_find_library. exact Hprep. }
  destruct (load_pango h st1) as [u|e] eqn:Eload.
  - exists true, Text.success_message. split; [exact Hcheck|]. split.
    + split; [intros _; exists u; reflexivity|reflexivity].
    + intros f missing' Hm. eexists. apply (Hother f missing' Hm).
  - pose proof (handle_false L h added_path missing e) as Hf.
    destruct (handle L h added_path missing e) as [b m].
    simpl in Hf. subst b. exists false, m. split; [exact Hcheck|]. split.
    + split; [discriminate|]. intros [u Hu]. discriminate Hu.
    + intros f missing' Hm. rewrite (Hother f missing' Hm).
      pose proof (handle_false L (with_find_library f h) added_path
                    missing' e) as Hf.
      destruct (handle L (with_find_library f h) added_path missing' e)
        as [b m'].
      simpl in Hf. subst b. exists m'. reflexivity.
Qed.

(** C6. When the run reaches the import and the import of weasyprint fails
    with an ImportError, the availability checker returns
    [(false, message)] and the message contains "pip install". *)
Theorem check_import_error_pip_install (L : PyLib) (h : Host)
  (st st1 : ProcState) (added_path : option pystr) (missing : list pystr)
  (e : exn) :
  prepare_pango_environment L h st = (Ok added_path, st1) ->
  _probe_native_libs h st1 = Ok missing ->
  load_pango h st1 = Raise e ->
  exn_kind e = ImportError ->
  exists message,
    check_pango_available L h st = (Ok (false, message), st1) /\
    py_in (py "pip install") message = true /\
    py_in (py "pip install weasyprint") message = true.
Proof.
  intros Hprep Hprobe Hload Hkind.
  rewrite (check_after_prepare L h st st1 added_path missing Hprep Hprobe),
          Hload.
  unfold handle. rewrite Hkind.
  exists Text.not_installed_message.
  split; [reflexivity|]. split; vm_compute; reflexivity.
Qed.

(** ** The messages of a loader failure *)

Section LoaderFailure.

Context (L : PyLib) (h : Host).






(** Off Windows the diagnostic has no path line and no architecture hint:
    the result of the path preparer does not enter it. *)
Lemma boxed_not_windows (added_path : option pystr) (missing : list pystr) :
  platform_system h <> py "Windows" ->
  boxed_diagnostic h added_path missing =
  Text.box_head ++ missing_note missing
  ++ _get_platform_specific_instructions h
  ++ Text.box_foot_lines ++ Text.box_border_bottom.
Proof.
  intros Hsys. apply eqb_false in Hsys.
  unfold boxed_diagnostic, windows_hint, arch_note. rewrite Hsys.
  cbv iota. rewrite !app_nil_l. reflexivity.
Qed.



Lemma join_without (c : N) (sep : pystr) (l : list pystr) :
  c ∉ sep -> (forall x, x ∈ l -> c ∉ x) -> c ∉ join sep l.
Proof.
  intros Hsep. induction l as [|x l IH]; intros Hl.
  - apply not_elem_of_nil.
  - destruct l as [|y l]; [apply Hl; left|].
    change (join sep (x :: y :: l)) with (x ++ sep ++ join sep (y :: l)).
    rewrite !elem_of_app. intros [Hx|[Hs|Hj]].
    + revert Hx. apply Hl. left.
    + contradiction.
    + revert Hj. apply IH. intros z Hz. apply Hl. right. exact Hz.
Qed.

Lemma four_keys_one_line (k : pystr) : k ∈ four_keys -> LF ∉ k.
Proof.
  intros Hk. unfold four_keys in Hk.
  repeat (apply elem_of_cons in Hk as [->|Hk];
          [vm_compute; intros Hin;
           repeat (apply elem_of_cons in Hin as [Hin|Hin]; [discriminate Hin|]);
           revert Hin; apply not_elem_of_nil|]).
  contradict Hk. apply not_elem_of_nil.
Qed.

Lemma not_elem_of_bool (c : N) (s : pystr) :
  forallb (fun d => negb (d =? c)) s = true -> c ∉ s.
Proof.
  induction s as [|d s IH]; simpl; intros H; [apply not_elem_of_nil|].
  apply andb_true_iff in H as [Hd Hs].
  intros Hin. apply elem_of_cons in Hin as [->|Hin].
  - rewrite N.eqb_refl in Hd. discriminate.
  - revert Hin. apply IH, Hs.
Qed.


End LoaderFailure.


(** ** Runs on concrete hosts *)

Example instructions_linux_nonempty :
  py_in (py "sudo apt-get install") Text.instructions_linux = true.
Proof. vm_compute. reflexivity. Qed.

Example linux_prepare :
  prepare_pango_environment Hosts.simple_lib
    (Hosts.host (py "Linux") [] [] [] [] (Ok tt)) Hosts.empty_state
  = (Ok None, Hosts.empty_state).
Proof. vm_compute. reflexivity. Qed.

Example darwin_prepare :
  (prepare_pango_environment Hosts.simple_lib
    (Hosts.host (py "Darwin") [py "/opt/homebrew/lib"] [] [] [] (Ok tt))
    (Hosts.state_of [(py "DYLD_LIBRARY_PATH", py "/usr/lib")])).1
  = Ok (Some (py "/opt/homebrew/lib:/usr/lib")).
Proof. vm_compute. reflexivity. Qed.

Example windows_prepare :
  prepare_pango_environment Hosts.simple_lib
    (Hosts.host (py "Windows") [py "D:\GTK\bin"] []
       [(py "D:\GTK\bin", py "pango*-1.0-*.dll", [py "D:\GTK\bin\pango-1.0-0.dll"])]
       [] (Ok tt))
    (Hosts.state_of [(py "GTK_PATH", py "D:\GTK\bin"); (py "PATH", py "C:\Windows")])
  = (Ok (Some (py "D:\GTK\bin")),
     {| environ := <[py "PATH" := py "D:\GTK\bin;C:\Windows"]>
                     (list_to_map [(py "GTK_PATH", py "D:\GTK\bin"); (py "PATH", py "C:\Windows")]);
        dll_directories := [py "D:\GTK\bin"] |}).
Proof. vm_compute. reflexivity. Qed.

Lemma host_queries_answer (system : pystr) (dirs : list pystr)
  (globs : list (pystr * pystr * list pystr)) (libs : list pystr)
  (load : result unit) :
  queries_answer (host system dirs [] globs libs load).
Proof.
  intros p. repeat split; eexists; reflexivity.
Qed.

Example linux_probe :
  _probe_native_libs linux_no_weasyprint empty_state
  = Ok [py "gobject"; py "gdk-pixbuf"].
Proof. vm_compute. reflexivity. Qed.

Example windows_probe :
  _probe_native_libs (windows_gtk (Ok tt)) windows_state_after
  = Ok [py "gobject"; py "gdk-pixbuf"; py "cairo"].
Proof. vm_compute. reflexivity. Qed.

(** An accepted path that is already an entry of PATH is returned and PATH
    keeps its value. *)
Example windows_prepare_already_on_path :
  prepare_pango_environment simple_lib (windows_gtk (Ok tt))
    (state_of [(py "PATH", py "C:\Windows;D:\GTK\bin")])
  = (Ok (Some gtk_bin),
     {| environ := list_to_map [(py "PATH", py "C:\Windows;D:\GTK\bin")];
        dll_directories := [gtk_bin] |}).
Proof. vm_compute. reflexivity. Qed.

(** The diagnostic of a Windows host names GTK and shows the path. *)
Example windows_diagnostic_names_gtk :
  exists message,
    (check_pango_available simple_lib (windows_gtk (Raise gobject_error))
       windows_state).1 = Ok (false, message) /\
    py_in (py "GTK") message = true /\
    py_in (py "已尝试自动添加 GTK 路径: D:\GTK\bin") message = true.
Proof.
  eexists. split; [vm_compute; reflexivity|]. split; vm_compute; reflexivity.
Qed.

(** An OSError that names none of the three families gets the short
    message. *)
Example linux_short_message :
  (check_pango_available simple_lib
     (host (py "Linux") [] [] [] [py "pango-1.0"; py "gobject-2.0"; py "cairo"]
        (Raise (Exn OSError (py "libffi.so.8: cannot open shared object file"))))
     empty_state).1
  = Ok (false,
        py "⚠ PDF 依赖加载失败: libffi.so.8: cannot open shared object file；缺失/未识别: gdk-pixbuf").
Proof. vm_compute. reflexivity. Qed.

Example windows_check_ok :
  check_pango_available simple_lib (windows_gtk (Ok tt)) windows_state
  = (Ok (true, Text.success_message), windows_state_after).
Proof. vm_compute. reflexivity. Qed.

(** Witness of C1. *)
Lemma check_catches_load_failures_witness :
  prepare_pango_environment simple_lib linux_broken_import empty_state
    = (Ok None, empty_state) /\
  _probe_native_libs linux_broken_import empty_state = Ok four_keys /\
  ((exists verdict,
      check_pango_available simple_lib linux_broken_import empty_state
      = (Ok verdict, empty_state)) /\
   (forall e, load_pango linux_broken_import empty_state = Raise e ->
      exists message,
        check_pango_available simple_lib linux_broken_import empty_state
        = (Ok (false, message), empty_state))).
Proof.
  split; [vm_compute; reflexivity|]. split; [vm_compute; reflexivity|].
  apply (check_catches_load_failures simple_lib linux_broken_import
           empty_state empty_state None four_keys);
    vm_compute; reflexivity.
Defined.

(** C1 as stated fails: on a macOS host where /opt/homebrew/lib cannot be
    examined, the PermissionError of [Path.exists] leaves the checker. *)
Lemma check_raises_on_denied_homebrew :
  check_pango_available simple_lib mac_homebrew_denied empty_state
    = (Raise permission_denied, empty_state) /\
  ~ (exists verdict st',
       check_pango_available simple_lib mac_homebrew_denied empty_state
       = (Ok verdict, st')).
Proof.
  assert (H : check_pango_available simple_lib mac_homebrew_denied empty_state
              = (Raise permission_denied, empty_state))
    by (vm_compute; reflexivity).
  split; [exact H|]. intros (verdict & st' & E). rewrite H in E. discriminate E.
Qed.

(** Witness of C2. *)
Lemma check_verdict_is_load_outcome_witness :
  prepare_pango_environment simple_lib (windows_gtk (Ok tt)) windows_state
    = (Ok (Some gtk_bin), windows_state_after) /\
  _probe_native_libs (windows_gtk (Ok tt)) windows_state_after
    = Ok [py "gobject"; py "gdk-pixbuf"; py "cairo"] /\
  exists available message,
    check_pango_available simple_lib (windows_gtk (Ok tt)) windows_state
      = (Ok (available, message), windows_state_after) /\
    (available = true <->
     exists u, load_pango (windows_gtk (Ok tt)) windows_state_after = Ok u) /\
    (forall f missing',
       _probe_native_libs (with_find_library f (windows_gtk (Ok tt)))
         windows_state_after = Ok missing' ->
       exists message',
         check_pango_available simple_lib
           (with_find_library f (windows_gtk (Ok tt))) windows_state
         = (Ok (available, message'), windows_state_after)).
Proof.
  split; [vm_compute; reflexivity|]. split; [vm_compute; reflexivity|].
  apply (check_verdict_is_load_outcome simple_lib (windows_gtk (Ok tt))
           windows_state windows_state_after (Some gtk_bin)
           [py "gobject"; py "gdk-pixbuf"; py "cairo"]);
    vm_compute; reflexivity.
Defined.

(** C2 as stated fails: on a Windows host where the directory named by
    GTK_PATH cannot be examined no pair is returned, although the load
    attempt would succeed. *)
Lemma check_returns_no_pair_on_denied_gtk_path :
  check_pango_available simple_lib windows_denied windows_denied_state
    = (Raise permission_denied, windows_denied_state) /\
  load_pango windows_denied windows_denied_state = Ok tt /\
  ~ (exists available message st',
       check_pango_available simple_lib windows_denied windows_denied_state
       = (Ok (available, message), st')).
Proof.
  assert (H : check_pango_available simple_lib windows_denied
                windows_denied_state
              = (Raise permission_denied, windows_denied_state))
    by (vm_compute; reflexivity).
  split; [exact H|]. split; [reflexivity|].
  intros (a & m & st' & E). rewrite H in E. discriminate E.
Qed.




(** Witness of C5. *)
Lemma darwin_homebrew_prepended_witness :
  platform_system mac_homebrew_only = py "Darwin" /\
  Path_exists mac_homebrew_only (PurePath homebrew_lib) = Ok true /\
  Path_exists mac_homebrew_only (PurePath usr_local_lib) = Ok false /\
  (homebrew_lib
   ∉ split COLON (environ_get_or mac_state DYLD_LIBRARY_PATH [])) /\
  exists value st',
    prepare_pango_environment simple_lib mac_homebrew_only mac_state
      = (Ok (Some value), st') /\
    environ st' = <[DYLD_LIBRARY_PATH := value]> (environ mac_state) /\
    dll_directories st' = dll_directories mac_state /\
    value = join [COLON]
              (darwin_added true false
                 (environ_get_or mac_state DYLD_LIBRARY_PATH [])
               ++ prior_entries (environ_get_or mac_state DYLD_LIBRARY_PATH [])) /\
    head (split COLON value) = Some homebrew_lib /\
    (environ_get_or mac_state DYLD_LIBRARY_PATH [] <> [] ->
     exists front,
       value = front ++ [COLON]
               ++ environ_get_or mac_state DYLD_LIBRARY_PATH []).
Proof.
  assert (Hout : homebrew_lib
                 ∉ split COLON (environ_get_or mac_state DYLD_LIBRARY_PATH [])).
  { apply mem_false. vm_compute. reflexivity. }
  split; [reflexivity|]. split; [reflexivity|]. split; [reflexivity|].
  split; [exact Hout|].
  exact (darwin_homebrew_prepended simple_lib mac_homebrew_only mac_state
           false eq_refl eq_refl eq_refl Hout).
Defined.

(** C5 as stated fails: the directory is put in front of the former value,
    not after it. *)
Lemma darwin_homebrew_not_appended :
  prepare_pango_environment simple_lib mac_homebrew_only mac_state
  = (Ok (Some (py "/opt/homebrew/lib:/usr/lib")),
     set_environ DYLD_LIBRARY_PATH (py "/opt/homebrew/lib:/usr/lib") mac_state)
  /\ py "/opt/homebrew/lib:/usr/lib" <> py "/usr/lib:/opt/homebrew/lib"
  /\ last (split COLON (py "/opt/homebrew/lib:/usr/lib")) = Some (py "/usr/lib").
Proof.
  split; [vm_compute; reflexivity|].
  split; [vm_compute; discriminate|vm_compute; reflexivity].
Qed.

(** Witness of C6. *)
Lemma check_import_error_pip_install_witness :
  prepare_pango_environment simple_lib linux_no_weasyprint empty_state
    = (Ok None, empty_state) /\
  _probe_native_libs linux_no_weasyprint empty_state
    = Ok [py "gobject"; py "gdk-pixbuf"] /\
  exists message,
    check_pango_available simple_lib linux_no_weasyprint empty_state
      = (Ok (false, message), empty_state) /\
    py_in (py "pip install") message = true /\
    py_in (py "pip install weasyprint") message = true.
Proof.
  assert (Hprep : prepare_pango_environment simple_lib linux_no_weasyprint
                    empty_state = (Ok None, empty_state))
    by (vm_compute; reflexivity).
  assert (Hprobe : _probe_native_libs linux_no_weasyprint empty_state
                   = Ok [py "gobject"; py "gdk-pixbuf"])
    by (vm_compute; reflexivity).
  split; [exact Hprep|]. split; [exact Hprobe|].
  exact (check_import_error_pip_install simple_lib linux_no_weasyprint
           empty_state empty_state None _ _ Hprep Hprobe eq_refl eq_refl).
Defined.

(** The queries of the runs below all answer. *)
Lemma all_answer (h : Host) (qs : list query) :
  forallb (fun q => match query_error h q with None => true | Some _ => false end)
    qs = true ->
  forall q, q ∈ qs -> query_error h q = None.
Proof.
  intros H q Hq. rewrite forallb_forall in H.
  apply list_elem_of_In in Hq. specialize (H q Hq).
  destruct (query_error h q); [discriminate|reflexivity].
Qed.

(** On macOS the path preparer asks whether the two candidates exist, and
    nothing else. *)
Example mac_queries :
  queries (prepare_pango_environment_logged simple_lib (mac_both (Ok tt))
             mac_state).1
  = [QExists (PurePath homebrew_lib); QExists (PurePath usr_local_lib)].
Proof. vm_compute. reflexivity. Qed.

(** Witness of C7: a Windows host where a directory that the run never
    looks at cannot be examined. *)
Lemma path_preparer_returns_when_its_queries_answer_witness :
  Path_exists windows_gtk_and_secret (PurePath secret_dir)
    = Raise permission_denied /\
  (forall q,
     q ∈ queries (prepare_pango_environment_logged simple_lib
                    windows_gtk_and_secret windows_state).1 ->
     query_error windows_gtk_and_secret q = None) /\
  exists r st',
    prepare_pango_environment simple_lib windows_gtk_and_secret windows_state
    = (Ok r, st').
Proof.
  assert (Hall : forall q,
            q ∈ queries (prepare_pango_environment_logged simple_lib
                           windows_gtk_and_secret windows_state).1 ->
            query_error windows_gtk_and_secret q = None).
  { apply all_answer. vm_compute. reflexivity. }
  split; [vm_compute; reflexivity|]. split; [exact Hall|].
  exact (proj1 (proj2 (proj2
    (path_preparer_returns_when_its_queries_answer simple_lib
       windows_gtk_and_secret windows_state))) Hall).
Defined.

(** C7 as stated fails: a query that raises leaves the path preparer, on
    macOS (the second candidate cannot be examined) and on Windows (the
    directory named by GTK_PATH cannot be examined). *)
Lemma path_preparer_raises_on_denied_directory :
  prepare_pango_environment simple_lib mac_usr_local_denied empty_state
    = (Raise permission_denied, empty_state) /\
  _ensure_windows_gtk_paths simple_lib windows_denied windows_denied_state
    = (Raise permission_denied, windows_denied_state).
Proof. split; vm_compute; reflexivity. Qed.

(** Witness of C8. *)
Lemma prepare_other_platform_noop_witness :
  platform_system linux_no_weasyprint <> py "Windows" /\
  platform_system linux_no_weasyprint <> py "Darwin" /\
  prepare_pango_environment simple_lib linux_no_weasyprint windows_state
    = (Ok None, windows_state).
Proof.
  assert (Hw : platform_system linux_no_weasyprint <> py "Windows")
    by (vm_compute; discriminate).
  assert (Hd : platform_system linux_no_weasyprint <> py "Darwin")
    by (vm_compute; discriminate).
  split; [exact Hw|]. split; [exact Hd|].
  exact (prepare_other_platform_noop simple_lib linux_no_weasyprint
           windows_state Hw Hd).
Defined.

(** Witness of C9. *)
Lemma windows_accept_prepends_once_witness :
  _ensure_windows_gtk_paths simple_lib (windows_gtk (Ok tt)) windows_state
    = (Ok (Some gtk_bin), windows_state_after) /\
  (gtk_bin
   ∉ split SEMICOLON (environ_get_or windows_state (py "PATH") [])) /\
  environ windows_state_after =
    <[py "PATH" := gtk_bin ++ [SEMICOLON]
                   ++ environ_get_or windows_state (py "PATH") []]>
      (environ windows_state).
Proof.
  assert (Hrun : _ensure_windows_gtk_paths simple_lib (windows_gtk (Ok tt))
                   windows_state = (Ok (Some gtk_bin), windows_state_after))
    by (vm_compute; reflexivity).
  assert (Hout : gtk_bin
                 ∉ split SEMICOLON (environ_get_or windows_state (py "PATH") []))
    by (apply mem_false; vm_compute; reflexivity).
  split; [exact Hrun|]. split; [exact Hout|].
  exact (proj1 (proj2 (proj2
    (windows_accept_prepends_once simple_lib (windows_gtk (Ok tt))
       windows_state windows_state_after gtk_bin Hrun))) Hout).
Defined.

(** Witness of C10. *)
Lemma darwin_value_written_witness :
  platform_system (mac_both (Ok tt)) = py "Darwin" /\
  Path_exists (mac_both (Ok tt)) (PurePath homebrew_lib) = Ok true /\
  Path_exists (mac_both (Ok tt)) (PurePath usr_local_lib) = Ok true /\
  environ_get empty_state DYLD_LIBRARY_PATH = None /\
  exists st',
    prepare_pango_environment simple_lib (mac_both (Ok tt)) empty_state
      = (Ok (Some (join [COLON] [homebrew_lib; usr_local_lib])), st') /\
    environ st'
      = <[DYLD_LIBRARY_PATH := join [COLON] [homebrew_lib; usr_local_lib]]>
          (environ empty_state) /\
    environ_get st' DYLD_LIBRARY_PATH
      = Some (join [COLON] [homebrew_lib; usr_local_lib]) /\
    dll_directories st' = dll_directories empty_state /\
    split COLON (join [COLON] [homebrew_lib; usr_local_lib])
      = [homebrew_lib; usr_local_lib] /\
    last (join [COLON] [homebrew_lib; usr_local_lib]) <> Some COLON /\
    [] ∉ split COLON (join [COLON] [homebrew_lib; usr_local_lib]).
Proof.
  split; [reflexivity|]. split; [reflexivity|]. split; [reflexivity|].
  split; [reflexivity|].
  exact (proj1
    (darwin_value_written simple_lib (mac_both (Ok tt)) true true
       eq_refl eq_refl eq_refl) empty_state (or_introl eq_refl) eq_refl).
Defined.

(** C10 as stated fails: on a macOS host where /opt/homebrew/lib exists
    and DYLD_LIBRARY_PATH is unset, but /usr/local/lib cannot be examined,
    nothing is written and nothing is returned. *)
Lemma darwin_nothing_written_when_second_denied :
  platform_system mac_usr_local_denied = py "Darwin" /\
  Path_exists mac_usr_local_denied (PurePath homebrew_lib) = Ok true /\
  environ_get empty_state DYLD_LIBRARY_PATH = None /\
  prepare_pango_environment simple_lib mac_usr_local_denied empty_state
    = (Raise permission_denied, empty_state) /\
  ~ (exists value st',
       prepare_pango_environment simple_lib mac_usr_local_denied empty_state
       = (Ok (Some value), st')).
Proof.
  assert (H : prepare_pango_environment simple_lib mac_usr_local_denied
                empty_state = (Raise permission_denied, empty_state))
    by (vm_compute; reflexivity).
  split; [reflexivity|]. split; [vm_compute; reflexivity|].
  split; [reflexivity|]. split; [exact H|].
  intros (value & st' & E). rewrite H in E. discriminate E.
Qed.

(** ** More about [_ensure_windows_gtk_paths] *)

Section WindowsMore.

Context (L : PyLib) (h : Host).

Lemma for_each_invariant {A S : Type} (P : S -> Prop)
  (f : A -> S -> result S) (l : list A) :
  (forall a s s', P s -> f a s = Ok s' -> P s') ->
  forall s s', P s -> for_each f l s = Ok s' -> P s'.
Proof.
  intros Hf. induction l as [|a l IH]; intros s s' Hs; cbn [for_each].
  - intros [= <-]. exact Hs.
  - destruct (f a s) as [s1|e] eqn:E; cbn [mbind result_bind];
      [|discriminate].
    apply IH. eapply Hf; eassumption.
Qed.

Lemma for_each_raise {A S : Type} (f : A -> S -> result S) (l : list A)
  (s : S) (e : exn) :
  for_each f l s = Raise e -> exists a s0, f a s0 = Raise e.
Proof.
  revert s. induction l as [|a l IH]; intros s; cbn [for_each];
    [discriminate|].
  destruct (f a s) as [s1|e1] eqn:E; cbn [mbind result_bind].
  - apply IH.
  - intros [= ->]. exists a, s. exact E.
Qed.

(** *** The accepted path holds a Pango DLL *)

Lemma accept_first_checked (candidates : list path) (st st' : ProcState)
  (s : pystr) :
  accept_first L h candidates st = (Ok (Some s), st') ->
  exists p, p ∈ candidates /\ str_of p = s /\
            Path_exists h p = Ok true /\ has_pango_dll L h p = Ok true.
Proof.
  induction candidates as [|p rest IH]; cbn [accept_first]; intros H;
    [discriminate|].
  destruct (Path_exists h p) as [[|]|e] eqn:Ee; [| |discriminate].
  - destruct (has_pango_dll L h p) as [[|]|e] eqn:Ed; [| |discriminate].
    + unfold accept in H. injection H as <- _.
      exists p. repeat split; try assumption. left.
    + destruct (IH H) as (q & Hq & Hrest). exists q.
      split; [right; exact Hq|exact Hrest].
  - destruct (IH H) as (q & Hq & Hrest). exists q.
    split; [right; exact Hq|exact Hrest].
Qed.

Lemma has_pango_dll_true (p : path) :
  has_pango_dll L h p = Ok true ->
  (exists dll dlls, Path_glob h p (py "pango*-1.0-*.dll") = Ok (dll :: dlls))
  \/ Path_exists h (Path_div L p (py "pango-1.0-0.dll")) = Ok true.
Proof.
  unfold has_pango_dll.
  destruct (Path_glob h p (py "pango*-1.0-*.dll")) as [[|dll dlls]|e];
    cbn [mbind result_bind]; intros H.
  - right. exact H.
  - left. exists dll, dlls. reflexivity.
  - discriminate.
Qed.

(** *** What a call changes *)

Lemma try_add_dll_directory_dlls (d : pystr) (st : ProcState) :
  dll_directories (try_add_dll_directory h d st) = dll_directories st \/
  dll_directories (try_add_dll_directory h d st) = dll_directories st ++ [d].
Proof.
  unfold try_add_dll_directory.
  destruct (os_has_add_dll_directory h); [|left; reflexivity].
  destruct (os_add_dll_directory h d); [right|left]; reflexivity.
Qed.

Lemma accept_first_unchanged (candidates : list path) (st st' : ProcState)
  (r : result (option pystr)) :
  accept_first L h candidates st = (r, st') -> no_path r -> st' = st.
Proof.
  induction candidates as [|p rest IH]; cbn [accept_first]; intros H Hr.
  - injection H as _ <-. reflexivity.
  - destruct (Path_exists h p) as [[|]|e].
    + destruct (has_pango_dll L h p) as [[|]|e].
      * unfold accept in H. injection H as <- _.
        exfalso. eapply Hr. reflexivity.
      * apply IH; assumption.
      * injection H as _ <-. reflexivity.
    + apply IH; assumption.
    + injection H as _ <-. reflexivity.
Qed.

Lemma ensure_unchanged (st st' : ProcState) (r : result (option pystr)) :
  _ensure_windows_gtk_paths L h st = (r, st') -> no_path r -> st' = st.
Proof.
  unfold _ensure_windows_gtk_paths.
  destruct (negb (eqb (platform_system h) (py "Windows"))).
  - intros [= _ <-] _. reflexivity.
  - destruct (collect_candidates L h st) as [cands|e].
    + apply accept_first_unchanged.
    + intros [= _ <-] _. reflexivity.
Qed.

Lemma accept_changes (p : path) (st st' : ProcState) (r : option pystr) :
  accept h p st = (r, st') ->
  r = Some (str_of p) /\
  (forall k, k <> py "PATH" -> environ st' !! k = environ st !! k) /\
  (exists front,
     environ_get_or st' (py "PATH") []
     = front ++ environ_get_or st (py "PATH") []) /\
  (dll_directories st' = dll_directories st \/
   dll_directories st' = dll_directories st ++ [str_of p]).
Proof.
  unfold accept. cbv zeta.
  pose proof (try_add_dll_directory_environ h (str_of p) st) as Henv.
  pose proof (try_add_dll_directory_dlls (str_of p) st) as Hdll.
  set (st1 := try_add_dll_directory h (str_of p) st) in *.
  assert (Hcur : environ_get_or st1 (py "PATH") []
                 = environ_get_or st (py "PATH") []).
  { unfold environ_get_or. rewrite Henv. reflexivity. }
  rewrite Hcur.
  destruct (mem (str_of p) (split SEMICOLON (environ_get_or st (py "PATH") [])));
    intros [= <- <-]; (split; [reflexivity|]).
  - split; [intros k _; rewrite Henv; reflexivity|].
    split; [exists []; exact Hcur|exact Hdll].
  - split.
    + intros k Hk. cbn [set_environ environ]. rewrite Henv.
      apply lookup_insert_ne. congruence.
    + split; [|exact Hdll].
      exists (str_of p ++ [SEMICOLON]).
      unfold environ_get_or at 1. cbn [set_environ environ].
      rewrite lookup_insert_eq. cbn [default].
      rewrite <- app_assoc. reflexivity.
Qed.

Lemma accept_first_accept (candidates : list path) (st st' : ProcState)
  (s : pystr) :
  accept_first L h candidates st = (Ok (Some s), st') ->
  exists p, accept h p st = (Some s, st').
Proof.
  intros H. apply accept_first_some in H as (p & _ & Hp).
  exists p. exact Hp.
Qed.

Lemma ensure_other_variables (st st' : ProcState)
  (r : result (option pystr)) :
  _ensure_windows_gtk_paths L h st = (r, st') ->
  forall k, k <> py "PATH" -> environ st' !! k = environ st !! k.
Proof.
  intros H k Hk. destruct r as [[s|]|e].
  - unfold _ensure_windows_gtk_paths in H.
    destruct (negb (eqb (platform_system h) (py "Windows")));
      [discriminate|].
    destruct (collect_candidates L h st) as [cands|e]; [|discriminate].
    apply accept_first_accept in H as [p Hp].
    apply (proj1 (proj2 (accept_changes p st st' (Some s) Hp))). exact Hk.
  - rewrite (ensure_unchanged st st' _ H) by (intros s; discriminate).
    reflexivity.
  - rewrite (ensure_unchanged st st' _ H) by (intros s; discriminate).
    reflexivity.
Qed.

End WindowsMore.

(** X1. The path [_ensure_windows_gtk_paths] returns is the string form of
    a candidate that exists and holds a Pango DLL: a file matching
    pango*-1.0-*.dll, or the file pango-1.0-0.dll. *)
Theorem windows_accepted_path_holds_pango (L : PyLib) (h : Host)
  (st st' : ProcState) (s : pystr) :
  _ensure_windows_gtk_paths L h st = (Ok (Some s), st') ->
  exists p,
    str_of p = s /\
    Path_exists h p = Ok true /\
    ((exists dll dlls,
        Path_glob h p (py "pango*-1.0-*.dll") = Ok (dll :: dlls))
     \/ Path_exists h (Path_div L p (py "pango-1.0-0.dll")) = Ok true).
Proof.
  unfold _ensure_windows_gtk_paths. intros H.
  destruct (negb (eqb (platform_system h) (py "Windows")));
    [discriminate|].
  destruct (collect_candidates L h st) as [cands|e]; [|discriminate].
  apply accept_first_checked in H as (p & _ & Hs & He & Hd).
  exists p. split; [exact Hs|]. split; [exact He|].
  apply has_pango_dll_true. exact Hd.
Qed.

(** X2. Whatever [_ensure_windows_gtk_paths] does, no environment variable
    other than PATH changes, the former PATH is the end of the new one,
    the DLL search list is as before or extended by the returned path
    alone, and when no path is returned (none found, or an exception) the
    process is unchanged. *)
Theorem windows_ensure_frame (L : PyLib) (h : Host) (st st' : ProcState)
  (r : result (option pystr)) :
  _ensure_windows_gtk_paths L h st = (r, st') ->
  (forall k, k <> py "PATH" -> environ st' !! k = environ st !! k) /\
  (exists front,
     environ_get_or st' (py "PATH") []
     = front ++ environ_get_or st (py "PATH") []) /\
  (dll_directories st' = dll_directories st \/
   exists s, r = Ok (Some s) /\
             dll_directories st' = dll_directories st ++ [s]) /\
  (no_path r -> st' = st).
Proof.
  intros H.
  assert (Hkeep : no_path r -> st' = st)
    by (intros Hr; eapply ensure_unchanged; eassumption).
  destruct r as [[s|]|e].
  - unfold _ensure_windows_gtk_paths in H.
    destruct (negb (eqb (platform_system h) (py "Windows")));
      [discriminate|].
    destruct (collect_candidates L h st) as [cands|e]; [|discriminate].
    apply accept_first_accept in H as [p Hp].
    destruct (accept_changes h p st st' (Some s) Hp) as (Hs & Hk & Hp' & Hd).
    injection Hs as Hs.
    split; [exact Hk|]. split; [exact Hp'|]. split; [|exact Hkeep].
    destruct Hd as [Hd|Hd]; [left; exact Hd|].
    right. exists s. split; [reflexivity|]. rewrite Hs. exact Hd.
  - rewrite Hkeep by (intros s; discriminate).
    split; [reflexivity|]. split; [exists []; reflexivity|].
    split; [left; reflexivity|reflexivity].
  - rewrite Hkeep by (intros s; discriminate).
    split; [reflexivity|]. split; [exists []; reflexivity|].
    split; [left; reflexivity|reflexivity].
Qed.

(** *** The candidates *)

Section Candidates.

Context (L : PyLib) (h : Host).

Lemma keyed_empty : keyed L h (∅, []).
Proof.
  split; [|constructor]. intros p Hp. contradict Hp. apply not_elem_of_nil.
Qed.

Lemma remember_keyed (key : pystr) (p : path)
  (cs : gset (list N) * list path) :
  candidate_key L h p = Some key -> keyed L h cs -> keyed L h (remember key p cs).
Proof.
  intros Hkey [Hin Hnd]. unfold remember.
  destruct (bool_decide (key ∈ cs.1)) eqn:Eseen; [split; assumption|].
  apply bool_decide_eq_false in Eseen. split; cbn [fst snd].
  - intros q Hq. apply elem_of_app in Hq as [Hq|Hq].
    + destruct (Hin q Hq) as (k & Hk & Hseen). exists k.
      split; [exact Hk|]. apply elem_of_union. right. exact Hseen.
    + apply list_elem_of_singleton in Hq. subst q. exists key.
      split; [exact Hkey|]. apply elem_of_union. left.
      apply elem_of_singleton. reflexivity.
  - rewrite map_app. apply NoDup_app. split; [exact Hnd|].
    split; [|apply NoDup_singleton].
    intros k Hk Hk'. cbn [map] in Hk'.
    apply list_elem_of_singleton in Hk'. subst k.
    apply list_elem_of_fmap in Hk as (q & Hq1 & Hq2).
    destruct (Hin q Hq2) as (k & Hk & Hseen).
    rewrite Hkey in Hq1. rewrite <- Hq1 in Hk. injection Hk as <-.
    contradiction.
Qed.

Lemma try_maybe_keyed (maybe : path) (cs cs' : gset (list N) * list path) :
  keyed L h cs -> try_maybe L h maybe cs = Ok cs' -> keyed L h cs'.
Proof.
  intros Hcs. unfold try_maybe.
  destruct (Path_resolve h maybe) as [r|e] eqn:Er; cbn [mbind result_bind];
    [|discriminate].
  destruct (Path_exists h maybe) as [b|e]; cbn [mbind result_bind];
    [|discriminate].
  intros [= <-]. destruct b; [|exact Hcs].
  apply remember_keyed; [|exact Hcs].
  unfold candidate_key. rewrite Er. reflexivity.
Qed.

Lemma add_candidate_keyed (pl : path_like)
  (cs cs' : gset (list N) * list path) :
  keyed L h cs -> _add_candidate L h pl cs = Ok cs' -> keyed L h cs'.
Proof.
  intros Hcs. unfold _add_candidate.
  destruct (path_of_like L pl) as [p|]; [|intros [= <-]; exact Hcs].
  destruct (Path_is_dir h p) as [d|e]; cbn [mbind result_bind];
    [|discriminate].
  destruct (d && eqb (str_lower L (Path_name L p)) (py "bin")).
  - destruct (Path_resolve h p) as [r|e] eqn:Er; cbn [mbind result_bind];
      [|discriminate].
    intros [= <-]. apply remember_keyed; [|exact Hcs].
    unfold candidate_key. rewrite Er. reflexivity.
  - apply (for_each_invariant (keyed L h)); [|exact Hcs].
    intros a s s' Hs. apply try_maybe_keyed. exact Hs.
Qed.

Lemma path_entry_keyed (entry : pystr) (cs cs' : gset (list N) * list path) :
  keyed L h cs -> path_entry L h entry cs = Ok cs' -> keyed L h cs'.
Proof.
  intros Hcs. unfold path_entry.
  destruct (negb (truthy entry)); [intros [= <-]; exact Hcs|].
  destruct (py_in (py "gtk") (str_lower L entry)
            || py_in (py "pango") (str_lower L entry));
    [apply add_candidate_keyed; exact Hcs|intros [= <-]; exact Hcs].
Qed.

(** The steps of [collect_candidates], one after the other. *)
Lemma collect_candidates_steps (st : ProcState) (candidates : list path) :
  collect_candidates L h st = Ok candidates ->
  exists cs1 dirs cs2 cs3,
    for_each (fun env_var =>
                _add_candidate L h (like_of_get (environ_get st env_var)))
      hint_variables ((∅ : gset (list N)), ([] : list path)) = Ok cs1 /\
    for_each (scan_root L h)
      [environ_get_or st (py "ProgramFiles") (py "C:\\Program Files");
       environ_get_or st (py "ProgramFiles(x86)") (py "C:\\Program Files (x86)")]
      (default_dirs L
         (environ_get_or st (py "ProgramFiles") (py "C:\\Program Files"))
         (environ_get_or st (py "ProgramFiles(x86)")
            (py "C:\\Program Files (x86)"))) = Ok dirs /\
    for_each (fun d => _add_candidate L h (PathLike d)) dirs cs1 = Ok cs2 /\
    for_each (path_entry L h)
      (split SEMICOLON (environ_get_or st (py "PATH") [])) cs2 = Ok cs3 /\
    candidates = cs3.2.
Proof.
  unfold collect_candidates.
  destruct (for_each _ hint_variables _) as [cs1|e] eqn:E1;
    cbn [mbind result_bind]; [|discriminate].
  destruct (for_each (scan_root L h) _ _) as [dirs|e] eqn:E2;
    cbn [mbind result_bind]; [|discriminate].
  destruct (for_each _ dirs cs1) as [cs2|e] eqn:E3;
    cbn [mbind result_bind]; [|discriminate].
  destruct (for_each (path_entry L h) _ cs2) as [cs3|e] eqn:E4;
    cbn [mbind result_bind]; [|discriminate].
  intros [= <-]. exists cs1, dirs, cs2, cs3.
  split; [reflexivity|]. split; [reflexivity|]. split; [exact E3|].
  split; [exact E4|reflexivity].
Qed.

Lemma collect_candidates_keyed (st : ProcState) (candidates : list path) :
  collect_candidates L h st = Ok candidates ->
  exists seen, keyed L h (seen, candidates).
Proof.
  intros H.
  apply collect_candidates_steps in H
    as (cs1 & dirs & cs2 & cs3 & H1 & _ & H2 & H3 & ->).
  exists cs3.1. destruct cs3 as [seen cands]. cbn [fst snd].
  eapply (for_each_invariant (keyed L h)); [| |exact H3].
  - intros a s s' Hs. apply path_entry_keyed. exact Hs.
  - eapply (for_each_invariant (keyed L h)); [| |exact H2].
    + intros a s s' Hs. apply add_candidate_keyed. exact Hs.
    + eapply (for_each_invariant (keyed L h)); [| |exact H1].
      * intros a s s' Hs. apply add_candidate_keyed. exact Hs.
      * apply keyed_empty.
Qed.

End Candidates.

(** X3. The candidates [_ensure_windows_gtk_paths] collects are free of
    duplicates up to case: each has a key [str(p.resolve()).lower()], and
    no two candidates have the same key. *)
Theorem windows_candidates_distinct_keys (L : PyLib) (h : Host)
  (st : ProcState) (candidates : list path) :
  collect_candidates L h st = Ok candidates ->
  (forall p, p ∈ candidates -> exists k, candidate_key L h p = Some k) /\
  NoDup (map (candidate_key L h) candidates) /\
  NoDup candidates.
Proof.
  intros H. apply collect_candidates_keyed in H as (seen & Hin & Hnd).
  cbn [fst snd] in *. split; [|split; [exact Hnd|]].
  - intros p Hp. destruct (Hin p Hp) as (k & Hk & _). exists k. exact Hk.
  - eapply NoDup_fmap_1. exact Hnd.
Qed.

(** *** The first hint comes first *)

Section Priority.

Context (L : PyLib) (h : Host).

Lemma remember_headed (p : path) (key : pystr) (q : path)
  (cs : gset (list N) * list path) :
  (exists more, cs.2 = p :: more) ->
  exists more, (remember key q cs).2 = p :: more.
Proof.
  intros [more E]. unfold remember.
  destruct (bool_decide (key ∈ cs.1)); [exists more; exact E|].
  exists (more ++ [q]). cbn [snd]. rewrite E. reflexivity.
Qed.

Lemma try_maybe_headed (p maybe : path)
  (cs cs' : gset (list N) * list path) :
  (exists more, cs.2 = p :: more) ->
  try_maybe L h maybe cs = Ok cs' ->
  exists more, cs'.2 = p :: more.
Proof.
  intros Hcs. unfold try_maybe.
  destruct (Path_resolve h maybe) as [r|e]; cbn [mbind result_bind];
    [|discriminate].
  destruct (Path_exists h maybe) as [b|e]; cbn [mbind result_bind];
    [|discriminate].
  intros [= <-]. destruct b; [|exact Hcs]. apply remember_headed. exact Hcs.
Qed.

Lemma add_candidate_headed (p : path) (pl : path_like)
  (cs cs' : gset (list N) * list path) :
  (exists more, cs.2 = p :: more) ->
  _add_candidate L h pl cs = Ok cs' ->
  exists more, cs'.2 = p :: more.
Proof.
  intros Hcs. unfold _add_candidate.
  destruct (path_of_like L pl) as [q|]; [|intros [= <-]; exact Hcs].
  destruct (Path_is_dir h q) as [d|e]; cbn [mbind result_bind];
    [|discriminate].
  destruct (d && eqb (str_lower L (Path_name L q)) (py "bin")).
  - destruct (Path_resolve h q) as [r|e]; cbn [mbind result_bind];
      [|discriminate].
    intros [= <-]. apply remember_headed. exact Hcs.
  - apply (for_each_invariant (fun cs => exists more, cs.2 = p :: more));
      [|exact Hcs].
    intros a s s' Hs. apply try_maybe_headed. exact Hs.
Qed.

Lemma path_entry_headed (p : path) (entry : pystr)
  (cs cs' : gset (list N) * list path) :
  (exists more, cs.2 = p :: more) ->
  path_entry L h entry cs = Ok cs' ->
  exists more, cs'.2 = p :: more.
Proof.
  intros Hcs. unfold path_entry.
  destruct (negb (truthy entry)); [intros [= <-]; exact Hcs|].
  destruct (py_in (py "gtk") (str_lower L entry)
            || py_in (py "pango") (str_lower L entry));
    [apply add_candidate_headed; exact Hcs|intros [= <-]; exact Hcs].
Qed.

Lemma for_each_cons {A S : Type} (f : A -> S -> result S) (a : A)
  (l : list A) (s s' : S) :
  for_each f (a :: l) s = Ok s' ->
  exists s1, f a s = Ok s1 /\ for_each f l s1 = Ok s'.
Proof.
  cbn [for_each]. destruct (f a s) as [s1|e]; cbn [mbind result_bind];
    [|discriminate].
  intros H. exists s1. split; [reflexivity|exact H].
Qed.

(** A bin directory named by GTK3_RUNTIME_PATH is the first candidate. *)
Lemma collect_candidates_hint_first (st : ProcState) (s : pystr)
  (candidates : list path) :
  environ_get st (py "GTK3_RUNTIME_PATH") = Some s ->
  s <> [] ->
  Path_is_dir h (Path L s) = Ok true ->
  str_lower L (Path_name L (Path L s)) = py "bin" ->
  collect_candidates L h st = Ok candidates ->
  exists more, candidates = Path L s :: more.
Proof.
  intros Hget Hs Hdir Hname H.
  apply collect_candidates_steps in H
    as (cs1 & dirs & cs2 & cs3 & H1 & _ & H2 & H3 & ->).
  eapply (for_each_invariant (fun cs => exists more, cs.2 = Path L s :: more));
    [| |exact H3].
  { intros a c c' Hc. apply path_entry_headed. exact Hc. }
  eapply (for_each_invariant (fun cs => exists more, cs.2 = Path L s :: more));
    [| |exact H2].
  { intros a c c' Hc. apply add_candidate_headed. exact Hc. }
  unfold hint_variables in H1.
  apply for_each_cons in H1 as (cs0 & Hfirst & Hrest).
  eapply (for_each_invariant (fun cs => exists more, cs.2 = Path L s :: more));
    [| |exact Hrest].
  { intros a c0 c' Hc. apply add_candidate_headed. exact Hc. }
  rewrite Hget in Hfirst. cbn [like_of_get] in Hfirst.
  unfold _add_candidate in Hfirst. cbn [path_of_like] in Hfirst.
  destruct s as [|c s]; [contradiction|]. cbn [truthy] in Hfirst.
  rewrite Hdir in Hfirst. cbn [mbind result_bind] in Hfirst.
  rewrite Hname in Hfirst.
  change (eqb (py "bin") (py "bin")) with true in Hfirst.
  cbn [andb] in Hfirst.
  destruct (Path_resolve h (Path L (c :: s))) as [r|e];
    cbn [mbind result_bind] in Hfirst; [|discriminate].
  injection Hfirst as <-.
  unfold remember. cbn [fst snd].
  rewrite bool_decide_eq_false_2 by apply not_elem_of_empty.
  exists []. reflexivity.
Qed.

End Priority.

(** X4. The hint of the user comes first: on Windows, when
    GTK3_RUNTIME_PATH names a directory called bin (in any case) that
    exists and holds a Pango DLL, and the queries of the file system
    answer, that directory is the path accepted and returned, whatever
    else is installed or on PATH. *)
Theorem windows_runtime_hint_accepted (L : PyLib) (h : Host)
  (st : ProcState) (s : pystr) :
  platform_system h = py "Windows" ->
  queries_answer h ->
  environ_get st (py "GTK3_RUNTIME_PATH") = Some s ->
  s <> [] ->
  Path_is_dir h (Path L s) = Ok true ->
  str_lower L (Path_name L (Path L s)) = py "bin" ->
  Path_exists h (Path L s) = Ok true ->
  has_pango_dll L h (Path L s) = Ok true ->
  exists st',
    _ensure_windows_gtk_paths L h st = (Ok (Some (str_of (Path L s))), st').
Proof.
  intros Hsys Hq Hget Hs Hdir Hname Hex Hdll.
  unfold _ensure_windows_gtk_paths. rewrite Hsys.
  change (eqb (py "Windows") (py "Windows")) with true. cbn [negb].
  destruct (collect_candidates_returns L h Hq st) as [cands Hc].
  rewrite Hc.
  destruct (collect_candidates_hint_first L h st s cands Hget Hs Hdir Hname Hc)
    as [more ->].
  cbn [accept_first]. rewrite Hex, Hdll.
  unfold accept. eexists. reflexivity.
Qed.

(** *** Where an exception comes from *)

Section Origin.

Context (L : PyLib) (h : Host).

Lemma try_maybe_raise (maybe : path) (cs : gset (list N) * list path)
  (e : exn) :
  try_maybe L h maybe cs = Raise e -> query_raises h e.
Proof.
  unfold try_maybe.
  destruct (Path_resolve h maybe) as [r|e1] eqn:Er; cbn [mbind result_bind].
  - destruct (Path_exists h maybe) as [b|e2] eqn:Ee;
      cbn [mbind result_bind]; [discriminate|].
    intros [= ->]. exists maybe. left. exact Ee.
  - intros [= ->]. exists maybe. right. right. left. exact Er.
Qed.

Lemma add_candidate_raise (pl : path_like) (cs : gset (list N) * list path)
  (e : exn) :
  _add_candidate L h pl cs = Raise e -> query_raises h e.
Proof.
  unfold _add_candidate.
  destruct (path_of_like L pl) as [p|]; [|discriminate].
  destruct (Path_is_dir h p) as [d|e1] eqn:Ed; cbn [mbind result_bind].
  - destruct (d && eqb (str_lower L (Path_name L p)) (py "bin")).
    + destruct (Path_resolve h p) as [r|e2] eqn:Er;
        cbn [mbind result_bind]; [discriminate|].
      intros [= ->]. exists p. right. right. left. exact Er.
    + intros H. apply for_each_raise in H as (a & s0 & H).
      eapply try_maybe_raise. exact H.
  - intros [= ->]. exists p. right. left. exact Ed.
Qed.

Lemma scan_root_raise (root : pystr) (dirs : list path) (e : exn) :
  scan_root L h root dirs = Raise e -> query_raises h e.
Proof.
  unfold scan_root.
  destruct (Path_exists h (Path L root)) as [b|e1] eqn:Ee;
    cbn [mbind result_bind].
  - destruct b; [|discriminate].
    destruct (Path_glob h (Path L root) (py "GTK*")) as [l|e2] eqn:Eg;
      cbn [mbind result_bind]; [discriminate|].
    intros [= ->]. exists (Path L root). right. right. right.
    exists (py "GTK*"). exact Eg.
  - intros [= ->]. exists (Path L root). left. exact Ee.
Qed.

Lemma path_entry_raise (entry : pystr) (cs : gset (list N) * list path)
  (e : exn) :
  path_entry L h entry cs = Raise e -> query_raises h e.
Proof.
  unfold path_entry.
  destruct (negb (truthy entry)); [discriminate|].
  destruct (py_in (py "gtk") (str_lower L entry)
            || py_in (py "pango") (str_lower L entry)); [|discriminate].
  apply add_candidate_raise.
Qed.

Lemma collect_candidates_raise (st : ProcState) (e : exn) :
  collect_candidates L h st = Raise e -> query_raises h e.
Proof.
  unfold collect_candidates.
  destruct (for_each _ hint_variables _) as [cs1|e1] eqn:E1;
    cbn [mbind result_bind].
  2:{ intros [= ->]. apply for_each_raise in E1 as (a & s0 & H).
      eapply add_candidate_raise. exact H. }
  destruct (for_each (scan_root L h) _ _) as [dirs|e2] eqn:E2;
    cbn [mbind result_bind].
  2:{ intros [= ->]. apply for_each_raise in E2 as (a & s0 & H).
      eapply scan_root_raise. exact H. }
  destruct (for_each _ dirs cs1) as [cs2|e3] eqn:E3;
    cbn [mbind result_bind].
  2:{ intros [= ->]. apply for_each_raise in E3 as (a & s0 & H).
      eapply add_candidate_raise. exact H. }
  destruct (for_each (path_entry L h) _ cs2) as [cs3|e4] eqn:E4;
    cbn [mbind result_bind]; [discriminate|].
  intros [= ->]. apply for_each_raise in E4 as (a & s0 & H).
  eapply path_entry_raise. exact H.
Qed.

Lemma has_pango_dll_raise (p : path) (e : exn) :
  has_pango_dll L h p = Raise e -> query_raises h e.
Proof.
  unfold has_pango_dll.
  destruct (Path_glob h p (py "pango*-1.0-*.dll")) as [[|dll dlls]|e1] eqn:Eg;
    cbn [mbind result_bind].
  - intros H. exists (Path_div L p (py "pango-1.0-0.dll")). left. exact H.
  - discriminate.
  - intros [= ->]. exists p. right. right. right.
    exists (py "pango*-1.0-*.dll"). exact Eg.
Qed.

Lemma accept_first_raise (candidates : list path) (st st' : ProcState)
  (e : exn) :
  accept_first L h candidates st = (Raise e, st') -> query_raises h e.
Proof.
  induction candidates as [|p rest IH]; cbn [accept_first];
    [discriminate|].
  destruct (Path_exists h p) as [[|]|e1] eqn:Ee.
  - destruct (has_pango_dll L h p) as [[|]|e2] eqn:Ed.
    + unfold accept. discriminate.
    + exact IH.
    + intros [= -> _]. eapply has_pango_dll_raise. exact Ed.
  - exact IH.
  - intros [= -> _]. exists p. left. exact Ee.
Qed.

Lemma ensure_raise (st st' : ProcState) (e : exn) :
  _ensure_windows_gtk_paths L h st = (Raise e, st') -> query_raises h e.
Proof.
  unfold _ensure_windows_gtk_paths.
  destruct (negb (eqb (platform_system h) (py "Windows"))); [discriminate|].
  destruct (collect_candidates L h st) as [cands|e1] eqn:Ec.
  - apply accept_first_raise.
  - intros [= -> _]. eapply collect_candidates_raise. exact Ec.
Qed.

Lemma added_dirs_raise (candidates : list path) (current : pystr) (e : exn) :
  added_dirs h candidates current = Raise e -> query_raises h e.
Proof.
  induction candidates as [|c rest IH]; cbn [added_dirs]; [discriminate|].
  destruct (Path_exists h c) as [b|e1] eqn:Ee; cbn [mbind result_bind].
  - destruct (added_dirs h rest current) as [more|e2];
      cbn [mbind result_bind]; [discriminate|].
    intros [= ->]. apply IH. reflexivity.
  - intros [= ->]. exists c. left. exact Ee.
Qed.

Lemma prepare_raise (st st' : ProcState) (e : exn) :
  prepare_pango_environment L h st = (Raise e, st') -> query_raises h e.
Proof.
  unfold prepare_pango_environment. cbv zeta.
  destruct (eqb (platform_system h) (py "Windows")); [apply ensure_raise|].
  destruct (eqb (platform_system h) (py "Darwin")); [|discriminate].
  destruct (added_dirs h darwin_candidates _) as [[|a more]|e1] eqn:Ea;
    [discriminate|discriminate|].
  intros [= -> _]. eapply added_dirs_raise. exact Ea.
Qed.

Lemma prepare_unchanged (st st' : ProcState) (r : result (option pystr)) :
  prepare_pango_environment L h st = (r, st') -> no_path r -> st' = st.
Proof.
  unfold prepare_pango_environment. cbv zeta.
  destruct (eqb (platform_system h) (py "Windows"));
    [apply ensure_unchanged|].
  destruct (eqb (platform_system h) (py "Darwin"));
    [|intros [= _ <-] _; reflexivity].
  destruct (added_dirs h darwin_candidates _) as [[|a more]|e1].
  - intros [= _ <-] _. reflexivity.
  - intros [= <- _] Hr. exfalso. eapply Hr. reflexivity.
  - intros [= _ <-] _. reflexivity.
Qed.

End Origin.

(** X5. An exception that leaves the path preparer is one that a query of
    the file system (exists, is_dir, resolve or glob) raised, passed on as
    it is, and the process is then unchanged; a failure of
    os.add_dll_directory never leaves it. *)
Theorem path_preparer_raises_only_query_errors (L : PyLib) (h : Host)
  (st st' : ProcState) (e : exn) :
  prepare_pango_environment L h st = (Raise e, st') ->
  query_raises h e /\ st' = st.
Proof.
  intros H. split.
  - eapply prepare_raise. exact H.
  - eapply prepare_unchanged; [exact H|]. intros s. discriminate.
Qed.

(** ** More about the path preparer on macOS *)

Lemma split_join (sep : N) (l : list pystr) :
  l <> [] -> split sep (join [sep] l) = flat_map (split sep) l.
Proof.
  induction l as [|a l IH]; intros Hl; [contradiction|].
  destruct l as [|b l].
  - cbn [join flat_map]. rewrite app_nil_r. reflexivity.
  - rewrite join_cons_cons.
    change (a ++ [sep] ++ join [sep] (b :: l))
      with (a ++ sep :: join [sep] (b :: l)).
    rewrite split_app_sep, IH by discriminate. reflexivity.
Qed.

Section DarwinMore.

Context (L : PyLib) (h : Host).
Hypothesis Hsys : platform_system h = py "Darwin".

(** When the path preparer returns on macOS, the two existence queries
    have answered. *)
Lemma prepare_darwin_answers (st st' : ProcState) (r : option pystr) :
  prepare_pango_environment L h st = (Ok r, st') ->
  exists b1 b2,
    Path_exists h (PurePath homebrew_lib) = Ok b1 /\
    Path_exists h (PurePath usr_local_lib) = Ok b2.
Proof.
  unfold prepare_pango_environment. cbv zeta. rewrite Hsys.
  change (eqb (py "Darwin") (py "Windows")) with false.
  change (eqb (py "Darwin") (py "Darwin")) with true. cbv iota.
  unfold darwin_candidates. cbn [added_dirs].
  destruct (Path_exists h (PurePath homebrew_lib)) as [b1|e1];
    cbn [mbind result_bind]; [|discriminate].
  destruct (Path_exists h (PurePath usr_local_lib)) as [b2|e2];
    cbn [mbind result_bind]; [|discriminate].
  intros _. exists b1, b2. split; reflexivity.
Qed.

Lemma darwin_added_entries (b1 b2 : bool) (current : pystr) :
  flat_map (split COLON) (darwin_added b1 b2 current)
  = darwin_added b1 b2 current.
Proof.
  unfold darwin_added.
  destruct (b1 && negb (mem homebrew_lib (split COLON current)));
    destruct (b2 && negb (mem usr_local_lib (split COLON current)));
    reflexivity.
Qed.

Lemma darwin_added_sublist (b1 b2 : bool) (current : pystr) :
  sublist (darwin_added b1 b2 current) [homebrew_lib; usr_local_lib].
Proof.
  unfold darwin_added.
  destruct (b1 && negb (mem homebrew_lib (split COLON current)));
    destruct (b2 && negb (mem usr_local_lib (split COLON current)));
    cbn [app]; repeat constructor.
Qed.

Lemma darwin_added_fresh (b1 b2 : bool) (current d : pystr) :
  d ∈ darwin_added b1 b2 current -> d ∉ split COLON current.
Proof.
  unfold darwin_added. intros Hd. apply elem_of_app in Hd as [Hd|Hd].
  - destruct (b1 && negb (mem homebrew_lib (split COLON current))) eqn:E.
    + apply list_elem_of_singleton in Hd. subst d.
      apply andb_true_iff in E as [_ E]. apply negb_true_iff in E.
      apply mem_false. exact E.
    + contradict Hd. apply not_elem_of_nil.
  - destruct (b2 && negb (mem usr_local_lib (split COLON current))) eqn:E.
    + apply list_elem_of_singleton in Hd. subst d.
      apply andb_true_iff in E as [_ E]. apply negb_true_iff in E.
      apply mem_false. exact E.
    + contradict Hd. apply not_elem_of_nil.
Qed.

(** The entries of the value written. *)
Lemma darwin_value_entries (b1 b2 : bool) (current : pystr) :
  darwin_added b1 b2 current <> [] ->
  split COLON
    (join [COLON] (darwin_added b1 b2 current ++ prior_entries current))
  = darwin_added b1 b2 current
    ++ (if truthy current then split COLON current else []).
Proof.
  intros Hne. rewrite split_join.
  - rewrite flat_map_app, darwin_added_entries. f_equal.
    unfold prior_entries. destruct (truthy current); [|reflexivity].
    cbn [flat_map]. apply app_nil_r.
  - intros E. apply app_eq_nil in E as [E _]. contradiction.
Qed.

Lemma prepare_darwin_some (st st' : ProcState) (value : pystr) :
  prepare_pango_environment L h st = (Ok (Some value), st') ->
  exists b1 b2,
    Path_exists h (PurePath homebrew_lib) = Ok b1 /\
    Path_exists h (PurePath usr_local_lib) = Ok b2 /\
    darwin_added b1 b2 (environ_get_or st DYLD_LIBRARY_PATH []) <> [] /\
    value = join [COLON]
              (darwin_added b1 b2 (environ_get_or st DYLD_LIBRARY_PATH [])
               ++ prior_entries (environ_get_or st DYLD_LIBRARY_PATH [])) /\
    st' = set_environ DYLD_LIBRARY_PATH value st.
Proof.
  intros H.
  destruct (prepare_darwin_answers st st' _ H) as (b1 & b2 & H1 & H2).
  exists b1, b2. split; [exact H1|]. split; [exact H2|].
  rewrite (prepare_darwin L h Hsys b1 b2 H1 H2) in H. cbv zeta in H.
  destruct (darwin_added b1 b2 (environ_get_or st DYLD_LIBRARY_PATH []))
    as [|a more]; [discriminate|].
  injection H as <- <-.
  split; [discriminate|]. split; reflexivity.
Qed.

(** A candidate that exists is among the entries of the value written. *)
Lemma darwin_candidate_covered (b1 b2 : bool) (current d : pystr) (b : bool) :
  d <> [] ->
  (if b && negb (mem d (split COLON current)) then d ∈ darwin_added b1 b2 current
   else True) ->
  b = true ->
  d ∈ darwin_added b1 b2 current
        ++ (if truthy current then split COLON current else []).
Proof.
  intros Hd Hadded ->. cbn [andb] in Hadded.
  destruct (mem d (split COLON current)) eqn:E; cbn [negb] in Hadded.
  - apply elem_of_app. right. apply mem_true in E.
    destruct current as [|c cur]; [|exact E].
    cbn [split] in E. apply list_elem_of_singleton in E. contradiction.
  - apply elem_of_app. left. exact Hadded.
Qed.

Lemma prepare_darwin_again (st st1 : ProcState) (value : pystr) :
  prepare_pango_environment L h st = (Ok (Some value), st1) ->
  prepare_pango_environment L h st1 = (Ok None, st1).
Proof.
  intros H.
  destruct (prepare_darwin_some st st1 value H)
    as (b1 & b2 & H1 & H2 & Hne & Hv & ->).
  rewrite (prepare_darwin L h Hsys b1 b2 H1 H2). cbv zeta.
  assert (Hcur : environ_get_or (set_environ DYLD_LIBRARY_PATH value st)
                   DYLD_LIBRARY_PATH [] = value).
  { unfold environ_get_or. cbn [set_environ environ].
    rewrite lookup_insert_eq. reflexivity. }
  rewrite Hcur.
  set (current := environ_get_or st DYLD_LIBRARY_PATH []) in *.
  assert (Hent : split COLON value
                 = darwin_added b1 b2 current
                   ++ (if truthy current then split COLON current else [])).
  { rewrite Hv. apply darwin_value_entries. exact Hne. }
  assert (Hb1 : b1 && negb (mem homebrew_lib (split COLON value)) = false).
  { destruct b1; [|reflexivity]. cbn [andb]. apply negb_false_iff, mem_true.
    rewrite Hent.
    apply (darwin_candidate_covered true b2 current homebrew_lib true);
      [discriminate| |reflexivity].
    cbn [andb]. unfold darwin_added.
    destruct (negb (mem homebrew_lib (split COLON current))); [|exact I].
    cbn [andb]. apply elem_of_app. left. left. }
  assert (Hb2 : b2 && negb (mem usr_local_lib (split COLON value)) = false).
  { destruct b2; [|reflexivity]. cbn [andb]. apply negb_false_iff, mem_true.
    rewrite Hent.
    apply (darwin_candidate_covered b1 true current usr_local_lib true);
      [discriminate| |reflexivity].
    cbn [andb]. unfold darwin_added.
    destruct (negb (mem usr_local_lib (split COLON current))); [|exact I].
    cbn [andb]. apply elem_of_app. right. left. }
  unfold darwin_added. rewrite Hb1, Hb2. reflexivity.
Qed.

End DarwinMore.

(** X6. On macOS, when the path preparer writes DYLD_LIBRARY_PATH, the
    entries of the new value are the added directories (some of
    /opt/homebrew/lib and /usr/local/lib, in that order, none of which was
    an entry before) followed by the entries of the former value in their
    order; nothing else in the process changes. *)
Theorem darwin_entries_added_then_former (L : PyLib) (h : Host)
  (st st' : ProcState) (value : pystr) :
  platform_system h = py "Darwin" ->
  prepare_pango_environment L h st = (Ok (Some value), st') ->
  let current := environ_get_or st DYLD_LIBRARY_PATH [] in
  exists added,
    added <> [] /\
    sublist added [homebrew_lib; usr_local_lib] /\
    (forall d, d ∈ added -> d ∉ split COLON current) /\
    split COLON value
      = added ++ (if truthy current then split COLON current else []) /\
    st' = set_environ DYLD_LIBRARY_PATH value st.
Proof.
  intros Hsys H current.
  destruct (prepare_darwin_some L h Hsys st st' value H)
    as (b1 & b2 & _ & _ & Hne & Hv & Hst).
  fold current in Hne, Hv.
  exists (darwin_added b1 b2 current).
  split; [exact Hne|]. split; [apply darwin_added_sublist|].
  split; [intros d; apply darwin_added_fresh|].
  split; [|exact Hst].
  rewrite Hv. apply darwin_value_entries. exact Hne.
Qed.

(** X7. On macOS the path preparer is idempotent: after a call that wrote
    DYLD_LIBRARY_PATH, the next call finds nothing to add, returns None
    and leaves the process as it is. *)
Theorem darwin_second_call_adds_nothing (L : PyLib) (h : Host)
  (st st1 : ProcState) (value : pystr) :
  platform_system h = py "Darwin" ->
  prepare_pango_environment L h st = (Ok (Some value), st1) ->
  prepare_pango_environment L h st1 = (Ok None, st1).
Proof.
  intros Hsys H. eapply prepare_darwin_again; eassumption.
Qed.

(** ** More about the availability checker *)

Section CheckerMore.

Context (L : PyLib) (h : Host).

Lemma handle_not_windows (a1 a2 : option pystr) (missing : list pystr)
  (e : exn) :
  platform_system h <> py "Windows" ->
  handle L h a1 missing e = handle L h a2 missing e.
Proof.
  intros Hsys. unfold handle. destruct (exn_kind e); [|reflexivity..].
  destruct (recognised L (exn_text e)); [|reflexivity].
  rewrite (boxed_not_windows h a1 missing Hsys),
          (boxed_not_windows h a2 missing Hsys). reflexivity.
Qed.

Lemma prepare_some_platform (st st' : ProcState) (s : pystr) :
  prepare_pango_environment L h st = (Ok (Some s), st') ->
  platform_system h = py "Windows" \/ platform_system h = py "Darwin".
Proof.
  unfold prepare_pango_environment. cbv zeta.
  destruct (eqb (platform_system h) (py "Windows")) eqn:Ew;
    [left; apply eqb_true; exact Ew|].
  destruct (eqb (platform_system h) (py "Darwin")) eqn:Ed;
    [right; apply eqb_true; exact Ed|discriminate].
Qed.

Lemma check_state (st : ProcState) :
  (check_pango_available L h st).2 = (prepare_pango_environment L h st).2.
Proof.
  unfold check_pango_available.
  destruct (prepare_pango_environment L h st) as [[added|e] st1];
    [|reflexivity].
  destruct (_probe_native_libs h st1); [|reflexivity].
  destruct (load_pango h st1); reflexivity.
Qed.

Lemma check_again_not_windows (st st1 : ProcState)
  (r : result (bool * pystr)) :
  platform_system h <> py "Windows" ->
  check_pango_available L h st = (r, st1) ->
  check_pango_available L h st1 = (r, st1).
Proof.
  intros Hsys H.
  destruct (prepare_pango_environment L h st) as [p st2] eqn:Ep.
  assert (Hst : st2 = st1).
  { pose proof (check_state st) as Hs. rewrite H, Ep in Hs. symmetry.
    exact Hs. }
  subst st2. destruct p as [[v|]|e].
  - destruct (prepare_some_platform st st1 v Ep) as [Hw|Hd];
      [contradiction|].
    pose proof (prepare_darwin_again L h Hd st st1 v Ep) as Hagain.
    destruct (_probe_native_libs h st1) as [missing|e] eqn:Em.
    + rewrite (check_after_prepare L h st st1 (Some v) missing Ep Em) in H.
      rewrite (check_after_prepare L h st1 st1 None missing Hagain Em).
      destruct (load_pango h st1) as [u|e]; [exact H|].
      rewrite (handle_not_windows None (Some v) _ e Hsys). exact H.
    + rewrite (check_raises_with_prober L h st st1 (Some v) e Ep Em) in H.
      rewrite (check_raises_with_prober L h st1 st1 None e Hagain Em).
      exact H.
  - assert (st1 = st)
      by (eapply prepare_unchanged; [exact Ep|intros s; discriminate]).
    subst st1. exact H.
  - assert (st1 = st)
      by (eapply prepare_unchanged; [exact Ep|intros s; discriminate]).
    subst st1. exact H.
Qed.

Lemma prepare_frame (st st' : ProcState) (r : result (option pystr)) :
  prepare_pango_environment L h st = (r, st') ->
  forall k, k <> py "PATH" -> k <> DYLD_LIBRARY_PATH ->
            environ st' !! k = environ st !! k.
Proof.
  intros H k Hpath Hdyld. destruct r as [[s|]|e].
  - destruct (prepare_some_platform st st' s H) as [Hw|Hd].
    + unfold prepare_pango_environment in H. cbv zeta in H. rewrite Hw in H.
      change (eqb (py "Windows") (py "Windows")) with true in H.
      cbv iota in H.
      apply (ensure_other_variables L h st st' _ H). exact Hpath.
    + destruct (prepare_darwin_some L h Hd st st' s H)
        as (b1 & b2 & _ & _ & _ & _ & ->).
      cbn [set_environ environ]. apply lookup_insert_ne. congruence.
  - rewrite (prepare_unchanged L h st st' _ H) by (intros s; discriminate).
    reflexivity.
  - rewrite (prepare_unchanged L h st st' _ H) by (intros s; discriminate).
    reflexivity.
Qed.

End CheckerMore.

(** X8. The availability checker changes the process only as the path
    preparer does: no environment variable other than PATH and
    DYLD_LIBRARY_PATH changes; off Windows PATH and the DLL search list
    keep their values; and on a platform that is neither Windows nor macOS
    the process is unchanged. *)
Theorem check_changes_only_search_paths (L : PyLib) (h : Host)
  (st st' : ProcState) (r : result (bool * pystr)) :
  check_pango_available L h st = (r, st') ->
  (forall k, k <> py "PATH" -> k <> DYLD_LIBRARY_PATH ->
             environ st' !! k = environ st !! k) /\
  (platform_system h <> py "Windows" ->
   dll_directories st' = dll_directories st /\
   environ st' !! py "PATH" = environ st !! py "PATH") /\
  (platform_system h <> py "Windows" ->
   platform_system h <> py "Darwin" -> st' = st).
Proof.
  intros H.
  destruct (prepare_pango_environment L h st) as [p st2] eqn:Ep.
  assert (Hst : st2 = st').
  { pose proof (check_state L h st) as Hs. rewrite H, Ep in Hs. symmetry.
    exact Hs. }
  subst st2. split; [exact (prepare_frame L h st st' p Ep)|].
  assert (Hoff : platform_system h <> py "Windows" ->
                 st' = st \/ exists v, st' = set_environ DYLD_LIBRARY_PATH v st).
  { intros Hw. destruct p as [[v|]|e].
    - destruct (prepare_some_platform L h st st' v Ep) as [Hw'|Hd];
        [contradiction|].
      destruct (prepare_darwin_some L h Hd st st' v Ep)
        as (_ & _ & _ & _ & _ & _ & ->).
      right. exists v. reflexivity.
    - left. eapply prepare_unchanged; [exact Ep|intros s; discriminate].
    - left. eapply prepare_unchanged; [exact Ep|intros s; discriminate]. }
  split.
  - intros Hw. destruct (Hoff Hw) as [->|[v ->]]; [split; reflexivity|].
    split; [reflexivity|]. cbn [set_environ environ].
    apply lookup_insert_ne. vm_compute. discriminate.
  - intros Hw Hd. destruct p as [[v|]|e].
    + destruct (prepare_some_platform L h st st' v Ep); contradiction.
    + eapply prepare_unchanged; [exact Ep|intros s; discriminate].
    + eapply prepare_unchanged; [exact Ep|intros s; discriminate].
Qed.

(** X9. Off Windows the availability checker is idempotent: called again
    in the state it left, it returns the same result (the same verdict and
    the same message, or the same exception) and changes nothing more. *)
Theorem check_again_same_result (L : PyLib) (h : Host)
  (st st1 : ProcState) (r : result (bool * pystr)) :
  platform_system h <> py "Windows" ->
  check_pango_available L h st = (r, st1) ->
  check_pango_available L h st1 = (r, st1).
Proof. apply check_again_not_windows. Qed.

(** *** The fields of the boxed diagnostic *)

Lemma ljust_length (w : nat) (s : pystr) :
  length (ljust w s) = Nat.max w (length s).
Proof. unfold ljust. rewrite length_app, length_replicate. lia. Qed.

Lemma path_display_short (s : pystr) :
  s <> [] -> (length s <= 38)%nat -> path_display (Some s) = s.
Proof.
  intros Hs Hlen. unfold path_display. destruct s as [|c s]; [contradiction|].
  cbn [truthy]. destruct (Nat.ltb_spec 38 (length (c :: s))); [lia|reflexivity].
Qed.

Lemma path_display_long (s : pystr) :
  (38 < length s)%nat ->
  path_display (Some s) = slice_to 35 s ++ Text.ellipsis.
Proof.
  intros Hlen. unfold path_display.
  destruct s as [|c s]; [simpl in Hlen; lia|]. cbn [truthy].
  destruct (Nat.ltb_spec 38 (length (c :: s))); [reflexivity|lia].
Qed.

Lemma path_display_length (added_path : option pystr) :
  (length (path_display added_path) <= 38)%nat.
Proof.
  unfold path_display.
  set (shown := match added_path with
                | Some s => if truthy s then s else Text.no_default_path
                | None => Text.no_default_path
                end).
  destruct (Nat.ltb_spec 38 (length shown)) as [Hlong|Hshort]; [|exact Hshort].
  unfold slice_to. rewrite length_app, length_take.
  change (length Text.ellipsis) with 3%nat. lia.
Qed.

(** X10. The path shown in the Windows hint line keeps the box in shape:
    a path of at most 38 characters is shown in full, a longer one as its
    first 35 characters and "...", and the padded field is always exactly
    38 characters wide. *)
Theorem windows_hint_path_field_width (added_path : option pystr) :
  length (ljust 38 (path_display added_path)) = 38%nat /\
  (forall s, added_path = Some s -> s <> [] -> (length s <= 38)%nat ->
             path_display added_path = s) /\
  (forall s, added_path = Some s -> (38 < length s)%nat ->
             path_display added_path = slice_to 35 s ++ Text.ellipsis).
Proof.
  split.
  - rewrite ljust_length. pose proof (path_display_length added_path). lia.
  - split.
    + intros s -> Hs Hlen. apply path_display_short; assumption.
    + intros s -> Hlen. apply path_display_long. exact Hlen.
Qed.

Lemma sublist_four_keys_join_length (l : list pystr) :
  sublist l four_keys -> (length (join Text.comma_space l) <= 33)%nat.
Proof.
  unfold four_keys. intros H.
  apply sublist_cons_r in H as [H|(l1 & -> & H)];
    (apply sublist_cons_r in H as [H|(l2 & -> & H)]);
    (apply sublist_cons_r in H as [H|(l3 & -> & H)]);
    (apply sublist_cons_r in H as [H|(l4 & -> & H)]);
    apply sublist_nil_r in H; subst; vm_compute; lia.
Qed.

(** X11. The list of missing libraries always fits its field of the boxed
    diagnostic: whatever list the prober returns, the keys joined by ", "
    take at most 33 characters and the padded field is exactly 46 wide. *)
Theorem missing_field_width (h : Host) (st : ProcState)
  (missing : list pystr) :
  _probe_native_libs h st = Ok missing ->
  (length (join Text.comma_space missing) <= 33)%nat /\
  length (ljust 46 (join Text.comma_space missing)) = 46%nat.
Proof.
  intros Hprobe.
  pose proof (sublist_four_keys_join_length _
                (probe_sublist h st missing Hprobe)) as Hlen.
  split; [exact Hlen|]. rewrite ljust_length. lia.
Qed.

(** *** The message tells the verdict *)

Lemma startswith_other_head (c d : N) (x rest : pystr) :
  head x = Some d -> d <> c -> startswith [c] (x ++ rest) = false.
Proof.
  destruct x as [|d' x]; [discriminate|]. intros [= ->] Hne.
  cbn [app startswith]. apply N.eqb_neq in Hne.
  rewrite N.eqb_sym, Hne. reflexivity.
Qed.

Lemma startswith_longer (x s rest : pystr) :
  startswith x s = true -> startswith x (s ++ rest) = true.
Proof.
  intros H. apply startswith_inv in H as [b ->].
  rewrite <- app_assoc. apply startswith_app.
Qed.

Lemma handle_no_check_mark (L : PyLib) (h : Host)
  (added_path : option pystr) (missing : list pystr) (e : exn) :
  startswith [CHECK_MARK] (handle L h added_path missing e).2 = false.
Proof.
  unfold handle. destruct (exn_kind e).
  - destruct (recognised L (exn_text e)); cbn [snd].
    + unfold boxed_diagnostic.
      apply (startswith_other_head _ 9556); [vm_compute; reflexivity|].
      discriminate.
    + unfold short_message.
      apply (startswith_other_head _ 9888); [vm_compute; reflexivity|].
      discriminate.
  - vm_compute. reflexivity.
  - cbn [snd]. apply (startswith_other_head _ 9888);
      [vm_compute; reflexivity|discriminate].
Qed.

(** X12. The message tells the verdict: in a pair returned by the
    availability checker, [available] is true exactly when the message
    starts with the check mark; the messages of failure start with a
    warning sign or with the corner of the box. *)
Theorem check_message_starts_with_check_mark (L : PyLib) (h : Host)
  (st st1 : ProcState) (available : bool) (message : pystr) :
  check_pango_available L h st = (Ok (available, message), st1) ->
  (available = true <-> startswith [CHECK_MARK] message = true) /\
  (available = false ->
   startswith (py "⚠") message = true \/ startswith (py "╔") message = true).
Proof.
  unfold check_pango_available.
  destruct (prepare_pango_environment L h st) as [[added|e] st2];
    [|discriminate].
  destruct (_probe_native_libs h st2) as [missing|e]; [|discriminate].
  destruct (load_pango h st2) as [u|e].
  - intros [= <- <- _]. split; [split; intros _; reflexivity|discriminate].
  - intros H. injection H as H _.
    pose proof (handle_no_check_mark L h added missing e) as Hno.
    pose proof (handle_false L h added missing e) as Hf.
    rewrite H in Hno, Hf. cbn [fst snd] in Hno, Hf. subst available.
    split; [split; [discriminate|rewrite Hno; discriminate]|].
    intros _. revert H. unfold handle. destruct (exn_kind e).
    + destruct (recognised L (exn_text e)); intros [= <-].
      * right. unfold boxed_diagnostic.
        apply startswith_longer. vm_compute. reflexivity.
      * left. unfold short_message.
        apply startswith_longer. vm_compute. reflexivity.
    + intros [= <-]. left. vm_compute. reflexivity.
    + intros [= <-]. left. vm_compute. reflexivity.
Qed.

(** *** The prober and the libraries that resolve *)

Lemma missing_keys_monotone (h : Host) (st st' : ProcState)
  (ts : list (pystr * list pystr)) :
  (forall v, resolves h st v = true -> resolves h st' v = true) ->
  sublist (missing_keys h st' ts) (missing_keys h st ts).
Proof.
  intros Hmore. induction ts as [|[key variants] rest IH];
    cbn [missing_keys]; [constructor|].
  destruct (existsb (resolves h st) variants) eqn:E.
  - assert (E' : existsb (resolves h st') variants = true).
    { apply existsb_exists in E as (v & Hv & Hres).
      apply existsb_exists. exists v. split; [exact Hv|apply Hmore, Hres]. }
    rewrite E'. exact IH.
  - destruct (existsb (resolves h st') variants).
    + apply sublist_cons. exact IH.
    + apply sublist_skip. exact IH.
Qed.

(** X13. The more names resolve, the fewer keys are reported: if every
    name that resolves in one process state resolves in another (say,
    after the search path was widened), the keys the prober returns in
    the second are among those it returns in the first, in the same
    order. *)
Theorem probe_shrinks_when_more_resolves (h : Host) (st st' : ProcState)
  (r r' : list pystr) :
  (forall v, resolves h st v = true -> resolves h st' v = true) ->
  _probe_native_libs h st = Ok r ->
  _probe_native_libs h st' = Ok r' ->
  sublist r' r.
Proof.
  intros Hmore Hr Hr'.
  rewrite (probe_ok h st r Hr), (probe_ok h st' r' Hr').
  apply missing_keys_monotone. exact Hmore.
Qed.

(** *** The status reporter and the entry point *)

(** X14. When the path preparer and the prober return, the status
    reporter returns the verdict of the load attempt and makes the calls
    on the logger that go with it, provided these return: one at the level
    of success with the message of success when the load succeeds;
    otherwise a warning with the message of the checker followed by the two
    hints; the process is left as the checker leaves it. *)
Theorem log_dependency_status_reports (L : PyLib) (h : Host)
  (emit : Report.level -> pystr -> result unit)
  (st st1 : ProcState) (added_path : option pystr) (missing : list pystr)
  (log : list (Report.level * pystr)) :
  prepare_pango_environment L h st = (Ok added_path, st1) ->
  _probe_native_libs h st1 = Ok missing ->
  (forall u, load_pango h st1 = Ok u ->
     emit Report.SUCCESS Text.success_message = Ok tt ->
     Report.log_dependency_status L h emit st log
     = (Ok true, st1, log ++ [(Report.SUCCESS, Text.success_message)])) /\
  (forall e, load_pango h st1 = Raise e ->
     exists message,
       check_pango_available L h st = (Ok (false, message), st1) /\
       (emit Report.WARNING message = Ok tt ->
        emit Report.INFO Report.hint_info = Ok tt ->
        emit Report.INFO Report.readme_info = Ok tt ->
        Report.log_dependency_status L h emit st log
        = (Ok false, st1,
           log ++ [(Report.WARNING, message);
                   (Report.INFO, Report.hint_info);
                   (Report.INFO, Report.readme_info)]))).
Proof.
  intros Hprep Hprobe. unfold Report.log_dependency_status.
  rewrite (check_after_prepare L h st st1 added_path missing Hprep Hprobe).
  split.
  - intros u -> ->. reflexivity.
  - intros e ->.
    pose proof (handle_false L h added_path missing e) as Hf.
    destruct (handle L h added_path missing e) as [b m].
    cbn [fst] in Hf. subst b. exists m. split; [reflexivity|].
    intros -> -> ->. reflexivity.
Qed.


(** ** The boxed diagnostic is a box *)

Section Box.

Context (h : Host).

Lemma box_block_app (t rest : pystr) :
  box_block t ->
  forallb box_line (split LF rest) = true ->
  forallb box_line (split LF (t ++ rest)) = true.
Proof.
  intros [->|(u & -> & Hu)] Hrest; [exact Hrest|].
  rewrite <- app_assoc. change ([LF] ++ rest) with (LF :: rest).
  rewrite split_app_sep, forallb_app, Hu, Hrest. reflexivity.
Qed.

Lemma box_block_text (t : pystr) :
  t = removelast t ++ [LF] ->
  forallb box_line (split LF (removelast t)) = true ->
  box_block t.
Proof. intros Ht Hl. right. exists (removelast t). split; assumption. Qed.

Lemma instructions_box_block :
  box_block (_get_platform_specific_instructions h).
Proof.
  unfold _get_platform_specific_instructions. cbv zeta.
  destruct (eqb (platform_system h) (py "Darwin"));
    [apply box_block_text; vm_compute; reflexivity|].
  destruct (eqb (platform_system h) (py "Linux"));
    [apply box_block_text; vm_compute; reflexivity|].
  destruct (eqb (platform_system h) (py "Windows"));
    apply box_block_text; vm_compute; reflexivity.
Qed.

Lemma arch_note_box_block : box_block (arch_note h).
Proof.
  unfold arch_note. destruct (eqb (platform_system h) (py "Windows"));
    [apply box_block_text; vm_compute; reflexivity|left; reflexivity].
Qed.

(** A line made of a prefix that starts with the side of the box, a padded
    field and the side of the box. *)
Lemma field_line_box_block (prefix field : pystr) (w : nat) :
  head prefix = Some 9553 ->
  LF ∉ prefix -> LF ∉ field ->
  box_block (prefix ++ ljust w field ++ Text.line_end).
Proof.
  intros Hhead Hp Hf. right.
  exists (prefix ++ ljust w field ++ [9553]).
  split.
  - change Text.line_end with ([9553] ++ [LF]).
    rewrite <- !app_assoc. reflexivity.
  - rewrite split_without_sep.
    + cbn [forallb]. rewrite andb_true_r. unfold box_line.
      destruct prefix as [|c prefix]; [discriminate|].
      injection Hhead as ->. cbn [head app].
      change (9553 :: prefix ++ ljust w field ++ [9553])
        with ((9553 :: prefix) ++ ljust w field ++ [9553]).
      rewrite !app_assoc, last_snoc. reflexivity.
    + rewrite !elem_of_app. intros [H|[H|H]].
      * contradiction.
      * unfold ljust in H. apply elem_of_app in H as [H|H]; [contradiction|].
        apply elem_of_replicate in H as [H _]. discriminate H.
      * apply list_elem_of_singleton in H. discriminate H.
Qed.

Lemma path_display_one_line (added_path : option pystr) :
  (forall s, added_path = Some s -> LF ∉ s) ->
  LF ∉ path_display added_path.
Proof.
  intros Hs. unfold path_display.
  set (shown := match added_path with
                | Some s => if truthy s then s else Text.no_default_path
                | None => Text.no_default_path
                end).
  assert (Hshown : LF ∉ shown).
  { subst shown. destruct added_path as [s|].
    - destruct (truthy s); [apply Hs; reflexivity|].
      apply not_elem_of_bool. vm_compute. reflexivity.
    - apply not_elem_of_bool. vm_compute. reflexivity. }
  destruct (38 <? length shown)%nat; [|exact Hshown].
  unfold slice_to. rewrite elem_of_app. intros [H|H].
  - apply Hshown. apply (sublist_subseteq _ _ (sublist_take shown 35)).
    exact H.
  - revert H. apply not_elem_of_bool. vm_compute. reflexivity.
Qed.

Lemma windows_hint_box_block (added_path : option pystr) :
  (forall s, added_path = Some s -> LF ∉ s) ->
  box_block (windows_hint h added_path).
Proof.
  intros Hs. unfold windows_hint.
  destruct (eqb (platform_system h) (py "Windows")); [|left; reflexivity].
  apply field_line_box_block.
  - vm_compute. reflexivity.
  - apply not_elem_of_bool. vm_compute. reflexivity.
  - apply path_display_one_line. exact Hs.
Qed.

Lemma missing_note_box_block (missing : list pystr) :
  sublist missing four_keys ->
  box_block (missing_note missing).
Proof.
  intros Hsub. unfold missing_note.
  destruct missing as [|k ks] eqn:E; [left; reflexivity|].
  apply field_line_box_block.
  - vm_compute. reflexivity.
  - apply not_elem_of_bool. vm_compute. reflexivity.
  - apply join_without.
    + apply not_elem_of_bool. vm_compute. reflexivity.
    + intros x Hx. apply four_keys_one_line.
      apply (sublist_subseteq _ _ Hsub). exact Hx.
Qed.

End Box.

(** X16. The boxed diagnostic is a box on every platform: when the path it
    shows has no line feed, each of its lines, split at the line feeds,
    runs from a corner or a side of the box on the left to the matching
    one on the right, whatever the platform, the path and the missing
    libraries the prober returned are. *)
Theorem boxed_diagnostic_lines_are_boxed (h : Host)
  (added_path : option pystr) (st : ProcState) (missing : list pystr) :
  (forall s, added_path = Some s -> LF ∉ s) ->
  _probe_native_libs h st = Ok missing ->
  forallb box_line (split LF (boxed_diagnostic h added_path missing))
  = true.
Proof.
  intros Hs Hprobe. unfold boxed_diagnostic.
  apply box_block_app; [apply box_block_text; vm_compute; reflexivity|].
  apply box_block_app; [apply windows_hint_box_block; exact Hs|].
  apply box_block_app; [apply arch_note_box_block|].
  apply box_block_app;
    [apply missing_note_box_block;
     exact (probe_sublist h st missing Hprobe)|].
  apply box_block_app; [apply instructions_box_block|].
  apply box_block_app; [apply box_block_text; vm_compute; reflexivity|].
  vm_compute. reflexivity.
Qed.

(** X17. An exception that leaves the availability checker was raised
    before the try statement, by the path preparer or by the prober (lines
    232 and 233), and the process is then as the path preparer left it;
    what the load attempt raises never leaves the checker. *)
Theorem check_raises_only_before_try (L : PyLib) (h : Host)
  (st st' : ProcState) (e : exn) :
  check_pango_available L h st = (Raise e, st') ->
  prepare_pango_environment L h st = (Raise e, st')
  \/ exists added_path,
       prepare_pango_environment L h st = (Ok added_path, st') /\
       _probe_native_libs h st' = Raise e.
Proof.
  unfold check_pango_available.
  destruct (prepare_pango_environment L h st) as [[added|e1] st1].
  - destruct (_probe_native_libs h st1) as [missing|e2] eqn:Eprobe.
    + destruct (load_pango h st1); discriminate.
    + intros [= -> ->]. right. exists added. split; [reflexivity|exact Eprobe].
  - intros [= -> ->]. left. reflexivity.
Qed.

(** ** Runs of the rest of the module *)

Example two_spellings_one_candidate :
  collect_candidates simple_lib windows_two_spellings two_spellings_state
  = Ok [PurePath gtk_bin].
Proof. vm_compute. reflexivity. Qed.

Example path_sensitive_probe_before :
  _probe_native_libs windows_path_sensitive windows_state = Ok four_keys.
Proof. vm_compute. reflexivity. Qed.

Example path_sensitive_probe_after :
  _probe_native_libs windows_path_sensitive windows_state_after
  = Ok [py "gdk-pixbuf"; py "cairo"].
Proof. vm_compute. reflexivity. Qed.

(** On Windows with PATH unset the library lookup raises a KeyError: the
    prober raises it and so does the checker, although the load attempt
    would succeed. *)
Example lookup_raises_without_PATH :
  prepare_pango_environment simple_lib windows_bare empty_state
    = (Ok None, empty_state) /\
  _probe_native_libs windows_bare empty_state = Raise key_error_PATH /\
  load_pango windows_bare empty_state = Ok tt /\
  check_pango_available simple_lib windows_bare empty_state
    = (Raise key_error_PATH, empty_state) /\
  (Report.log_dependency_status simple_lib windows_bare Report.emit_all
     empty_state []).1.1 = Raise key_error_PATH.
Proof. repeat split; vm_compute; reflexivity. Qed.

(** On a standard output that encodes ASCII only, printing the message of
    success raises: the program ends with the exception although the load
    attempt succeeded. *)
Example main_ends_on_encoding_error :
  check_pango_available simple_lib (windows_gtk (Ok tt)) windows_state
    = (Ok (true, Text.success_message), windows_state_after) /\
  exists e,
    Report.print_ascii Text.success_message = Raise e /\
    Report.main simple_lib (windows_gtk (Ok tt)) Report.print_ascii
      windows_state = (Raise e, windows_state_after).
Proof.
  split; [vm_compute; reflexivity|].
  eexists. split; vm_compute; reflexivity.
Qed.

(** Witness of X1. *)
Lemma windows_accepted_path_holds_pango_witness :
  _ensure_windows_gtk_paths simple_lib (windows_gtk (Ok tt)) windows_state
    = (Ok (Some gtk_bin), windows_state_after) /\
  exists p,
    str_of p = gtk_bin /\
    Path_exists (windows_gtk (Ok tt)) p = Ok true /\
    ((exists dll dlls,
        Path_glob (windows_gtk (Ok tt)) p (py "pango*-1.0-*.dll")
        = Ok (dll :: dlls))
     \/ Path_exists (windows_gtk (Ok tt))
          (Path_div simple_lib p (py "pango-1.0-0.dll")) = Ok true).
Proof.
  assert (Hrun : _ensure_windows_gtk_paths simple_lib (windows_gtk (Ok tt))
                   windows_state = (Ok (Some gtk_bin), windows_state_after))
    by (vm_compute; reflexivity).
  split; [exact Hrun|].
  exact (windows_accepted_path_holds_pango simple_lib (windows_gtk (Ok tt))
           windows_state windows_state_after gtk_bin Hrun).
Defined.

(** Witness of X2. *)
Lemma windows_ensure_frame_witness :
  _ensure_windows_gtk_paths simple_lib (windows_gtk (Ok tt)) windows_state
    = (Ok (Some gtk_bin), windows_state_after) /\
  forall k, k <> py "PATH" ->
            environ windows_state_after !! k = environ windows_state !! k.
Proof.
  assert (Hrun : _ensure_windows_gtk_paths simple_lib (windows_gtk (Ok tt))
                   windows_state = (Ok (Some gtk_bin), windows_state_after))
    by (vm_compute; reflexivity).
  split; [exact Hrun|].
  exact (proj1 (windows_ensure_frame simple_lib (windows_gtk (Ok tt))
                  windows_state windows_state_after _ Hrun)).
Defined.

(** Witness of X3: two spellings of one directory give one candidate. *)
Lemma windows_candidates_distinct_keys_witness :
  collect_candidates simple_lib windows_two_spellings two_spellings_state
    = Ok [PurePath gtk_bin] /\
  NoDup (map (candidate_key simple_lib windows_two_spellings)
           [PurePath gtk_bin]).
Proof.
  assert (Hrun : collect_candidates simple_lib windows_two_spellings
                   two_spellings_state = Ok [PurePath gtk_bin])
    by (vm_compute; reflexivity).
  split; [exact Hrun|].
  exact (proj1 (proj2
    (windows_candidates_distinct_keys simple_lib windows_two_spellings
       two_spellings_state _ Hrun))).
Defined.

(** Witness of X4. *)
Lemma windows_runtime_hint_accepted_witness :
  platform_system (windows_gtk (Ok tt)) = py "Windows" /\
  queries_answer (windows_gtk (Ok tt)) /\
  environ_get hinted_state (py "GTK3_RUNTIME_PATH") = Some gtk_bin /\
  gtk_bin <> [] /\
  Path_is_dir (windows_gtk (Ok tt)) (Path simple_lib gtk_bin) = Ok true /\
  str_lower simple_lib (Path_name simple_lib (Path simple_lib gtk_bin))
    = py "bin" /\
  Path_exists (windows_gtk (Ok tt)) (Path simple_lib gtk_bin) = Ok true /\
  has_pango_dll simple_lib (windows_gtk (Ok tt)) (Path simple_lib gtk_bin)
    = Ok true /\
  exists st',
    _ensure_windows_gtk_paths simple_lib (windows_gtk (Ok tt)) hinted_state
    = (Ok (Some (str_of (Path simple_lib gtk_bin))), st').
Proof.
  assert (Hq : queries_answer (windows_gtk (Ok tt)))
    by apply host_queries_answer.
  assert (Hget : environ_get hinted_state (py "GTK3_RUNTIME_PATH")
                 = Some gtk_bin) by (vm_compute; reflexivity).
  assert (Hne : gtk_bin <> []) by (vm_compute; discriminate).
  assert (Hdir : Path_is_dir (windows_gtk (Ok tt)) (Path simple_lib gtk_bin)
                 = Ok true) by (vm_compute; reflexivity).
  assert (Hname : str_lower simple_lib
                    (Path_name simple_lib (Path simple_lib gtk_bin))
                  = py "bin") by (vm_compute; reflexivity).
  assert (Hex : Path_exists (windows_gtk (Ok tt)) (Path simple_lib gtk_bin)
                = Ok true) by (vm_compute; reflexivity).
  assert (Hdll : has_pango_dll simple_lib (windows_gtk (Ok tt))
                   (Path simple_lib gtk_bin) = Ok true)
    by (vm_compute; reflexivity).
  repeat (split; [assumption || reflexivity|]).
  exact (windows_runtime_hint_accepted simple_lib (windows_gtk (Ok tt))
           hinted_state gtk_bin eq_refl Hq Hget Hne Hdir Hname Hex Hdll).
Defined.

(** Witness of X5. *)
Lemma path_preparer_raises_only_query_errors_witness :
  prepare_pango_environment simple_lib mac_usr_local_denied mac_state
    = (Raise permission_denied, mac_state) /\
  query_raises mac_usr_local_denied permission_denied /\
  mac_state = mac_state.
Proof.
  assert (Hrun : prepare_pango_environment simple_lib mac_usr_local_denied
                   mac_state = (Raise permission_denied, mac_state))
    by (vm_compute; reflexivity).
  split; [exact Hrun|].
  exact (path_preparer_raises_only_query_errors simple_lib
           mac_usr_local_denied mac_state mac_state permission_denied Hrun).
Defined.

(** Witness of X6. *)
Lemma darwin_entries_added_then_former_witness :
  platform_system (mac_both (Ok tt)) = py "Darwin" /\
  prepare_pango_environment simple_lib (mac_both (Ok tt)) mac_state
    = (Ok (Some mac_prepared),
       set_environ DYLD_LIBRARY_PATH mac_prepared mac_state) /\
  exists added,
    added <> [] /\
    sublist added [homebrew_lib; usr_local_lib] /\
    (forall d, d ∈ added ->
       d ∉ split COLON (environ_get_or mac_state DYLD_LIBRARY_PATH [])) /\
    split COLON mac_prepared
      = added ++ (if truthy (environ_get_or mac_state DYLD_LIBRARY_PATH [])
                  then split COLON
                         (environ_get_or mac_state DYLD_LIBRARY_PATH [])
                  else []) /\
    set_environ DYLD_LIBRARY_PATH mac_prepared mac_state
    = set_environ DYLD_LIBRARY_PATH mac_prepared mac_state.
Proof.
  assert (Hrun : prepare_pango_environment simple_lib (mac_both (Ok tt))
                   mac_state
                 = (Ok (Some mac_prepared),
                    set_environ DYLD_LIBRARY_PATH mac_prepared mac_state))
    by (vm_compute; reflexivity).
  split; [reflexivity|]. split; [exact Hrun|].
  exact (darwin_entries_added_then_former simple_lib (mac_both (Ok tt))
           mac_state _ mac_prepared eq_refl Hrun).
Defined.

(** Witness of X7. *)
Lemma darwin_second_call_adds_nothing_witness :
  platform_system (mac_both (Ok tt)) = py "Darwin" /\
  prepare_pango_environment simple_lib (mac_both (Ok tt)) mac_state
    = (Ok (Some mac_prepared),
       set_environ DYLD_LIBRARY_PATH mac_prepared mac_state) /\
  prepare_pango_environment simple_lib (mac_both (Ok tt))
    (set_environ DYLD_LIBRARY_PATH mac_prepared mac_state)
    = (Ok None, set_environ DYLD_LIBRARY_PATH mac_prepared mac_state).
Proof.
  assert (Hrun : prepare_pango_environment simple_lib (mac_both (Ok tt))
                   mac_state
                 = (Ok (Some mac_prepared),
                    set_environ DYLD_LIBRARY_PATH mac_prepared mac_state))
    by (vm_compute; reflexivity).
  split; [reflexivity|]. split; [exact Hrun|].
  exact (darwin_second_call_adds_nothing simple_lib (mac_both (Ok tt))
           mac_state _ mac_prepared eq_refl Hrun).
Defined.

(** Witness of X8. *)
Lemma check_changes_only_search_paths_witness :
  check_pango_available simple_lib (windows_gtk (Ok tt)) windows_state
    = (Ok (true, Text.success_message), windows_state_after) /\
  forall k, k <> py "PATH" -> k <> DYLD_LIBRARY_PATH ->
            environ windows_state_after !! k = environ windows_state !! k.
Proof.
  assert (Hrun : check_pango_available simple_lib (windows_gtk (Ok tt))
                   windows_state
                 = (Ok (true, Text.success_message), windows_state_after))
    by (vm_compute; reflexivity).
  split; [exact Hrun|].
  exact (proj1 (check_changes_only_search_paths simple_lib
                  (windows_gtk (Ok tt)) windows_state windows_state_after
                  _ Hrun)).
Defined.

(** Witness of X9. *)
Lemma check_again_same_result_witness :
  platform_system (mac_both (Raise pango_error)) <> py "Windows" /\
  (check_pango_available simple_lib (mac_both (Raise pango_error)) mac_state).2
    = set_environ DYLD_LIBRARY_PATH mac_prepared mac_state /\
  check_pango_available simple_lib (mac_both (Raise pango_error))
    (set_environ DYLD_LIBRARY_PATH mac_prepared mac_state)
  = ((check_pango_available simple_lib (mac_both (Raise pango_error))
        mac_state).1,
     set_environ DYLD_LIBRARY_PATH mac_prepared mac_state).
Proof.
  assert (Hsys : platform_system (mac_both (Raise pango_error))
                 <> py "Windows") by (vm_compute; discriminate).
  assert (Hst : (check_pango_available simple_lib
                   (mac_both (Raise pango_error)) mac_state).2
                = set_environ DYLD_LIBRARY_PATH mac_prepared mac_state)
    by (vm_compute; reflexivity).
  split; [exact Hsys|]. split; [exact Hst|].
  apply (check_again_same_result simple_lib (mac_both (Raise pango_error))
           mac_state _ _ Hsys).
  rewrite <- Hst. apply surjective_pairing.
Defined.

(** Witness of X12. *)
Lemma check_message_starts_with_check_mark_witness :
  check_pango_available simple_lib (windows_gtk (Ok tt)) windows_state
    = (Ok (true, Text.success_message), windows_state_after) /\
  (true = true <-> startswith [CHECK_MARK] Text.success_message = true).
Proof.
  assert (Hrun : check_pango_available simple_lib (windows_gtk (Ok tt))
                   windows_state
                 = (Ok (true, Text.success_message), windows_state_after))
    by (vm_compute; reflexivity).
  split; [exact Hrun|].
  exact (proj1 (check_message_starts_with_check_mark simple_lib
                  (windows_gtk (Ok tt)) windows_state windows_state_after
                  true Text.success_message Hrun)).
Defined.

(** Witness of X11: the four keys together. *)
Lemma missing_field_width_witness :
  _probe_native_libs windows_path_sensitive windows_state = Ok four_keys /\
  (length (join Text.comma_space four_keys) <= 33)%nat /\
  length (ljust 46 (join Text.comma_space four_keys)) = 46%nat.
Proof.
  assert (Hprobe : _probe_native_libs windows_path_sensitive windows_state
                   = Ok four_keys) by (vm_compute; reflexivity).
  split; [exact Hprobe|].
  exact (missing_field_width windows_path_sensitive windows_state four_keys
           Hprobe).
Defined.

(** Witness of X13: with the runtime on PATH two more names resolve. *)
Lemma probe_shrinks_when_more_resolves_witness :
  (forall v, resolves windows_path_sensitive windows_state v = true ->
             resolves windows_path_sensitive windows_state_after v = true) /\
  _probe_native_libs windows_path_sensitive windows_state = Ok four_keys /\
  _probe_native_libs windows_path_sensitive windows_state_after
    = Ok [py "gdk-pixbuf"; py "cairo"] /\
  sublist [py "gdk-pixbuf"; py "cairo"] four_keys.
Proof.
  assert (Hmore : forall v,
            resolves windows_path_sensitive windows_state v = true ->
            resolves windows_path_sensitive windows_state_after v = true).
  { intros v H. vm_compute in H. discriminate H. }
  assert (Hr : _probe_native_libs windows_path_sensitive windows_state
               = Ok four_keys) by (vm_compute; reflexivity).
  assert (Hr' : _probe_native_libs windows_path_sensitive windows_state_after
                = Ok [py "gdk-pixbuf"; py "cairo"])
    by (vm_compute; reflexivity).
  split; [exact Hmore|]. split; [exact Hr|]. split; [exact Hr'|].
  exact (probe_shrinks_when_more_resolves windows_path_sensitive
           windows_state windows_state_after _ _ Hmore Hr Hr').
Defined.

(** Witness of X14. *)
Lemma log_dependency_status_reports_witness :
  prepare_pango_environment simple_lib linux_no_weasyprint empty_state
    = (Ok None, empty_state) /\
  _probe_native_libs linux_no_weasyprint empty_state
    = Ok [py "gobject"; py "gdk-pixbuf"] /\
  load_pango linux_no_weasyprint empty_state
    = Raise (Exn ImportError (py "No module named 'weasyprint'")) /\
  exists message,
    check_pango_available simple_lib linux_no_weasyprint empty_state
      = (Ok (false, message), empty_state) /\
    Report.emit_all Report.WARNING message = Ok tt /\
    Report.log_dependency_status simple_lib linux_no_weasyprint
      Report.emit_all empty_state []
    = (Ok false, empty_state,
       [] ++ [(Report.WARNING, message);
              (Report.INFO, Report.hint_info);
              (Report.INFO, Report.readme_info)]).
Proof.
  assert (Hprep : prepare_pango_environment simple_lib linux_no_weasyprint
                    empty_state = (Ok None, empty_state))
    by (vm_compute; reflexivity).
  assert (Hprobe : _probe_native_libs linux_no_weasyprint empty_state
                   = Ok [py "gobject"; py "gdk-pixbuf"])
    by (vm_compute; reflexivity).
  split; [exact Hprep|]. split; [exact Hprobe|]. split; [reflexivity|].
  destruct (proj2 (log_dependency_status_reports simple_lib
                     linux_no_weasyprint Report.emit_all empty_state
                     empty_state None _ [] Hprep Hprobe) _ eq_refl)
    as (message & Hcheck & Hlog).
  exists message. split; [exact Hcheck|]. split; [reflexivity|].
  exact (Hlog eq_refl eq_refl eq_refl).
Defined.


(** Witness of X16. *)
Lemma boxed_diagnostic_lines_are_boxed_witness :
  (forall s, Some gtk_bin = Some s -> LF ∉ s) /\
  _probe_native_libs (windows_gtk (Raise gobject_error)) windows_state_after
    = Ok [py "gobject"; py "gdk-pixbuf"; py "cairo"] /\
  forallb box_line
    (split LF
       (boxed_diagnostic (windows_gtk (Raise gobject_error)) (Some gtk_bin)
          [py "gobject"; py "gdk-pixbuf"; py "cairo"]))
  = true.
Proof.
  assert (Hs : forall s, Some gtk_bin = Some s -> LF ∉ s).
  { intros s [= <-]. apply not_elem_of_bool. vm_compute. reflexivity. }
  assert (Hprobe : _probe_native_libs (windows_gtk (Raise gobject_error))
                     windows_state_after
                   = Ok [py "gobject"; py "gdk-pixbuf"; py "cairo"])
    by (vm_compute; reflexivity).
  split; [exact Hs|]. split; [exact Hprobe|].
  exact (boxed_diagnostic_lines_are_boxed (windows_gtk (Raise gobject_error))
           (Some gtk_bin) windows_state_after _ Hs Hprobe).
Defined.

(** Witness of X17: the lookup raises when PATH is unset. *)
Lemma check_raises_only_before_try_witness :
  check_pango_available simple_lib windows_bare empty_state
    = (Raise key_error_PATH, empty_state) /\
  (prepare_pango_environment simple_lib windows_bare empty_state
     = (Raise key_error_PATH, empty_state)
   \/ exists added_path,
        prepare_pango_environment simple_lib windows_bare empty_state
          = (Ok added_path, empty_state) /\
        _probe_native_libs windows_bare empty_state = Raise key_error_PATH).
Proof.
  assert (Hrun : check_pango_available simple_lib windows_bare empty_state
                 = (Raise key_error_PATH, empty_state))
    by (vm_compute; reflexivity).
  split; [exact Hrun|].
  exact (check_raises_only_before_try simple_lib windows_bare empty_state
           empty_state key_error_PATH Hrun).
Defined.
